(** * flyteadmin: execution lifecycle, queue allocation and notifications

    A shallow embedding of the manager layer of flyteadmin
    ([pkg/manager/impl]: execution, node execution and task managers) and of
    the notification processor ([pkg/async/notifications/implementations]),
    together with the properties of the lifecycle state machine, the queue
    annotation, the notification fan-out, pagination and the delivery loop.

    Conventions of the embedding.
    - A Go function returning [(T, error)] returns [error + T]; a method that
      reads or writes the repository, the blob store or the publisher threads
      the state it touches explicitly.
    - Go interfaces (repositories, executor, publisher, emailer, ...) are
      classes; helper packages whose code is not part of the managers
      ([validation], [transformers], [util], [common]) are classes of
      functions the managers are parameterised by.  The properties hold for
      every instance; the in-memory instances at the end of the definitions
      run the managers on concrete requests.
    - Metrics, logging and the detached goroutines that only observe
      stop-watches are not persisted state and are left out, except in the
      notification processor where the counters classify each message. *)

From Stdlib Require Import ZArith DecimalString.
From Stdlib.Strings Require Import Byte.
From stdpp Require Import base option list strings gmap.

Local Open Scope string_scope.

(** ** gRPC status codes and errors *)

Inductive Code :=
| Canceled | Unknown | InvalidArgument | DeadlineExceeded | NotFound
| AlreadyExists | PermissionDenied | ResourceExhausted | FailedPrecondition
| Aborted | OutOfRange | Unimplemented | Internal | Unavailable | DataLoss
| Unauthenticated.

#[global] Instance Code_eq_dec : EqDecision Code.
Proof. solve_decision. Defined.

(** A Go [error]. [FlyteAdminError] is [errors.FlyteAdminError]: a gRPC code,
    the message template (arguments of the format string are not rendered)
    and, for the already-in-terminal-state error, the phase carried in the
    failure reason.  [GoError] is any other error value. *)
Inductive error :=
| FlyteAdminError (code : Code) (message : string) (terminalPhase : option string)
| GoError (message : string).

Definition NewFlyteAdminErrorf (code : Code) (message : string) : error :=
  FlyteAdminError code message None.

Definition NewFlyteAdminError := NewFlyteAdminErrorf.

(** Modelled from the spec: [errors.NewAlreadyInTerminalStateError] is not
    among the manager sources.  The spec names its kind: FailedPrecondition
    ("already in terminal state"); the phase handed in travels as the detail. *)
Definition NewAlreadyInTerminalStateError (errorMsg curPhase : string) : error :=
  FlyteAdminError FailedPrecondition errorMsg (Some curPhase).

#[global] Instance error_eq_dec : EqDecision error.
Proof. solve_decision. Defined.

(** [ferr.Code()], defined on Flyte admin errors only. *)
Definition errCode (e : error) : option Code :=
  match e with
  | FlyteAdminError c _ _ => Some c
  | GoError _ => None
  end.

(** The code of a result, when the result is an error. *)
Definition failsWith {A} (r : error + A) (c : Code) : Prop :=
  exists e, r = inl e /\ errCode e = Some c.

(** ** flyteidl [core]: identifiers, phases, compiled workflows, literals *)

Module core.

Record WorkflowExecutionIdentifier := {
  wei_Project : string;
  wei_Domain : string;
  wei_Name : string }.

Record Identifier := {
  id_Project : string;
  id_Domain : string;
  id_Name : string;
  id_Version : string }.

Record NodeExecutionIdentifier := {
  nei_NodeId : string;
  nei_ExecutionId : WorkflowExecutionIdentifier }.

Record TaskExecutionIdentifier := {
  tei_TaskId : Identifier;
  tei_NodeExecutionId : NodeExecutionIdentifier;
  tei_RetryAttempt : N }.

#[global] Instance WorkflowExecutionIdentifier_eq_dec : EqDecision WorkflowExecutionIdentifier.
Proof. solve_decision. Defined.
#[global] Instance Identifier_eq_dec : EqDecision Identifier.
Proof. solve_decision. Defined.
#[global] Instance NodeExecutionIdentifier_eq_dec : EqDecision NodeExecutionIdentifier.
Proof. solve_decision. Defined.

(** Phases: [core.WorkflowExecution.Phase] and [core.NodeExecution.Phase]. *)

Inductive WorkflowExecution_Phase :=
| WorkflowExecution_UNDEFINED
| WorkflowExecution_QUEUED
| WorkflowExecution_RUNNING
| WorkflowExecution_SUCCEEDING
| WorkflowExecution_SUCCEEDED
| WorkflowExecution_FAILING
| WorkflowExecution_FAILED
| WorkflowExecution_ABORTED
| WorkflowExecution_TIMED_OUT.

Inductive NodeExecution_Phase :=
| NodeExecution_UNDEFINED
| NodeExecution_QUEUED
| NodeExecution_RUNNING
| NodeExecution_SUCCEEDED
| NodeExecution_FAILING
| NodeExecution_FAILED
| NodeExecution_ABORTED
| NodeExecution_SKIPPED
| NodeExecution_TIMED_OUT.

#[global] Instance WorkflowExecution_Phase_eq_dec : EqDecision WorkflowExecution_Phase.
Proof. solve_decision. Defined.
#[global] Instance NodeExecution_Phase_eq_dec : EqDecision NodeExecution_Phase.
Proof. solve_decision. Defined.

(** [phase.String()] *)
Definition WorkflowExecution_Phase_String (p : WorkflowExecution_Phase) : string :=
  match p with
  | WorkflowExecution_UNDEFINED => "UNDEFINED"
  | WorkflowExecution_QUEUED => "QUEUED"
  | WorkflowExecution_RUNNING => "RUNNING"
  | WorkflowExecution_SUCCEEDING => "SUCCEEDING"
  | WorkflowExecution_SUCCEEDED => "SUCCEEDED"
  | WorkflowExecution_FAILING => "FAILING"
  | WorkflowExecution_FAILED => "FAILED"
  | WorkflowExecution_ABORTED => "ABORTED"
  | WorkflowExecution_TIMED_OUT => "TIMED_OUT"
  end.

Definition allWorkflowPhases : list WorkflowExecution_Phase :=
  [ WorkflowExecution_UNDEFINED; WorkflowExecution_QUEUED; WorkflowExecution_RUNNING;
    WorkflowExecution_SUCCEEDING; WorkflowExecution_SUCCEEDED; WorkflowExecution_FAILING;
    WorkflowExecution_FAILED; WorkflowExecution_ABORTED; WorkflowExecution_TIMED_OUT ].

(** [core.WorkflowExecution_Phase_value[name]]: a Go map lookup, which yields
    the zero value (UNDEFINED) for a name that is not a key. *)
Definition WorkflowExecution_Phase_value (name : string) : WorkflowExecution_Phase :=
  default WorkflowExecution_UNDEFINED
    (List.find (fun p => String.eqb (WorkflowExecution_Phase_String p) name) allWorkflowPhases).

Definition NodeExecution_Phase_String (p : NodeExecution_Phase) : string :=
  match p with
  | NodeExecution_UNDEFINED => "UNDEFINED"
  | NodeExecution_QUEUED => "QUEUED"
  | NodeExecution_RUNNING => "RUNNING"
  | NodeExecution_SUCCEEDED => "SUCCEEDED"
  | NodeExecution_FAILING => "FAILING"
  | NodeExecution_FAILED => "FAILED"
  | NodeExecution_ABORTED => "ABORTED"
  | NodeExecution_SKIPPED => "SKIPPED"
  | NodeExecution_TIMED_OUT => "TIMED_OUT"
  end.

Definition allNodePhases : list NodeExecution_Phase :=
  [ NodeExecution_UNDEFINED; NodeExecution_QUEUED; NodeExecution_RUNNING;
    NodeExecution_SUCCEEDED; NodeExecution_FAILING; NodeExecution_FAILED;
    NodeExecution_ABORTED; NodeExecution_SKIPPED; NodeExecution_TIMED_OUT ].

Definition NodeExecution_Phase_value (name : string) : NodeExecution_Phase :=
  default NodeExecution_UNDEFINED
    (List.find (fun p => String.eqb (NodeExecution_Phase_String p) name) allNodePhases).

(** Compiled workflows. *)

Record KeyValuePair := {
  kv_Key : string;
  kv_Value : string }.

Record Container := {
  Image : string;
  Command : list string;
  Args : list string;
  Env : list KeyValuePair;
  Config : list KeyValuePair }.

(** [TaskTemplate.Target] is a one-of whose only arm here is a container. *)
Record TaskTemplate := {
  tt_Id : option Identifier;
  tt_Type : string;
  tt_Target : option Container }.

Record CompiledTask := {
  Template : TaskTemplate }.

Record CompiledWorkflowClosure := {
  Primary : string;
  Tasks : list CompiledTask }.

Definition GetContainer (t : TaskTemplate) : option Container := tt_Target t.

(** Literals: only the shape the managers look at (presence, number of
    entries); the payload is opaque. *)
Inductive Literal :=
| Literal_Integer (z : Z)
| Literal_String (s : string)
| Literal_Datetime (seconds : Z).

Record LiteralMap := {
  Literals : gmap string Literal }.

End core.
Export core.

(** ** Go scalars *)

Definition bytes := list Byte.byte.

#[global] Instance byte_eq_decision : EqDecision Byte.byte := Byte.byte_eq_dec.

(** [bytes.Equal] *)
Definition bytes_Equal (a b : bytes) : bool := bool_decide (a = b).

(** [time.Time] and protobuf timestamps, as nanoseconds since the epoch. *)
Definition Time := Z.

(** Go's [int] is 64 bits wide on the platforms flyteadmin is built for;
    [a + b] wraps around. *)
Definition MaxInt : Z := 2 ^ 63 - 1.
Definition MinInt : Z := - 2 ^ 63.
Definition wrapInt (z : Z) : Z := (z + 2 ^ 63) mod 2 ^ 64 - 2 ^ 63.
Definition int_add (a b : Z) : Z := wrapInt (a + b).

(** [len(l)] as an [int]. *)
Definition len {A} (l : list A) : Z := Z.of_nat (length l).

(** [strconv.Itoa] *)
Definition Itoa (z : Z) : string := NilZero.string_of_int (Z.to_int z).

(** ** flyteidl [admin] and [event]: requests, responses, entities *)

Module admin.

Record EmailNotification := { email_RecipientsEmail : list string }.
Record PagerDutyNotification := { pagerDuty_RecipientsEmail : list string }.
Record SlackNotification := { slack_RecipientsEmail : list string }.

(** The one-of [Notification.Type]; [Notification_unset] is the nil one-of. *)
Inductive Notification_Type :=
| Notification_Email (email : EmailNotification)
| Notification_PagerDuty (pagerDuty : PagerDutyNotification)
| Notification_Slack (slack : SlackNotification)
| Notification_unset.

Record Notification := {
  Phases : list WorkflowExecution_Phase;
  Type_ : Notification_Type }.

Definition GetEmail (n : Notification) : option EmailNotification :=
  match Type_ n with Notification_Email e => Some e | _ => None end.
Definition GetPagerDuty (n : Notification) : option PagerDutyNotification :=
  match Type_ n with Notification_PagerDuty p => Some p | _ => None end.
Definition GetSlack (n : Notification) : option SlackNotification :=
  match Type_ n with Notification_Slack s => Some s | _ => None end.

Record EmailMessage := {
  RecipientsEmail : list string;
  SenderEmail : string;
  SubjectLine : string;
  Body : string }.

Inductive ExecutionMetadata_Mode :=
| ExecutionMetadata_MANUAL
| ExecutionMetadata_SCHEDULED
| ExecutionMetadata_SYSTEM
| ExecutionMetadata_RELAUNCH.

Record ExecutionMetadata := {
  Mode : ExecutionMetadata_Mode;
  ParentNodeExecution : option NodeExecutionIdentifier }.

(** The one-of [ExecutionSpec.notification_overrides].  A notification list
    is held directly; a nil list pointer and an empty list both read as []. *)
Inductive NotificationOverrides :=
| ExecutionSpec_Notifications (notifications : list Notification)
| ExecutionSpec_DisableAll (disableAll : bool)
| NotificationOverrides_unset.

(** [Labels] and [Annotations]: [Some values] when both the message and its
    [Values] map are non-nil. *)
Record ExecutionSpec := {
  spec_LaunchPlan : Identifier;
  spec_Inputs : option LiteralMap;
  spec_Metadata : option ExecutionMetadata;
  spec_NotificationOverrides : NotificationOverrides;
  spec_Labels : option (gmap string string);
  spec_Annotations : option (gmap string string) }.

(** [spec.GetNotifications()]: the list when the one-of holds one, else nil. *)
Definition GetNotifications (spec : ExecutionSpec) : option (list Notification) :=
  match spec_NotificationOverrides spec with
  | ExecutionSpec_Notifications l => Some l
  | _ => None
  end.

(** [spec.GetDisableAll()] *)
Definition GetDisableAll (spec : ExecutionSpec) : bool :=
  match spec_NotificationOverrides spec with
  | ExecutionSpec_DisableAll b => b
  | _ => false
  end.

Record LiteralMapBlob := { Uri : string }.

Record ExecutionClosure := {
  closure_Outputs : option LiteralMapBlob;
  closure_ComputedInputs : option LiteralMap;
  closure_Phase : WorkflowExecution_Phase;
  closure_Notifications : list Notification }.

Record Execution := {
  exec_Id : WorkflowExecutionIdentifier;
  exec_Spec : ExecutionSpec;
  exec_Closure : ExecutionClosure }.

Record ExecutionCreateRequest := {
  ecr_Project : string;
  ecr_Domain : string;
  ecr_Name : string;
  ecr_Spec : ExecutionSpec;
  ecr_Inputs : option LiteralMap }.

Record ExecutionCreateResponse := { ecresp_Id : WorkflowExecutionIdentifier }.

Record ExecutionRelaunchRequest := {
  err_Id : WorkflowExecutionIdentifier;
  err_Name : string }.

Record Schedule := { KickoffTimeInputArg : string }.

Record LaunchPlanMetadata := {
  lpm_Schedule : option Schedule;
  lpm_Notifications : list Notification }.

Record LaunchPlanSpec := {
  lps_WorkflowId : Identifier;
  lps_EntityMetadata : option LaunchPlanMetadata;
  lps_FixedInputs : option LiteralMap;
  lps_Labels : option (gmap string string);
  lps_Annotations : option (gmap string string) }.

(** [ParameterMap]: the expected inputs with their optional defaults. *)
Record LaunchPlanClosure := {
  lpc_ExpectedInputs : gmap string (option Literal) }.

Record LaunchPlan := {
  lp_Id : Identifier;
  lp_Spec : LaunchPlanSpec;
  lp_Closure : LaunchPlanClosure }.

Record WorkflowClosure := { wc_CompiledWorkflow : CompiledWorkflowClosure }.

Record Workflow := {
  wf_Id : Identifier;
  wf_Closure : WorkflowClosure }.

(** Events reported by the execution engine. *)
Record WorkflowExecutionEvent := {
  wev_ExecutionId : WorkflowExecutionIdentifier;
  wev_ProducerId : string;
  wev_Phase : WorkflowExecution_Phase;
  wev_OccurredAt : option Time }.

Record WorkflowExecutionEventRequest := {
  wer_RequestId : string;
  wer_Event : WorkflowExecutionEvent }.

Record WorkflowExecutionEventResponse := {}.

Record ParentTaskExecutionMetadata := { ptm_Id : TaskExecutionIdentifier }.
Record WorkflowNodeMetadata := { wnm_ExecutionId : WorkflowExecutionIdentifier }.

Record NodeExecutionEvent := {
  nev_Id : NodeExecutionIdentifier;
  nev_ProducerId : string;
  nev_Phase : NodeExecution_Phase;
  nev_OccurredAt : option Time;
  nev_InputUri : string;
  nev_ParentTaskMetadata : option ParentTaskExecutionMetadata;
  nev_WorkflowNodeMetadata : option WorkflowNodeMetadata }.

Definition GetWorkflowNodeMetadata (e : NodeExecutionEvent) := nev_WorkflowNodeMetadata e.

Record NodeExecutionEventRequest := {
  ner_RequestId : string;
  ner_Event : NodeExecutionEvent }.

Record NodeExecutionEventResponse := {}.

(** Reads. *)
Record WorkflowExecutionGetRequest := { wgr_Id : WorkflowExecutionIdentifier }.
Record WorkflowExecutionGetDataRequest := { wgdr_Id : WorkflowExecutionIdentifier }.

Record UrlBlob := { Url : string; Bytes : Z }.

Record WorkflowExecutionGetDataResponse := {
  gdr_Outputs : UrlBlob;
  gdr_Inputs : UrlBlob }.

Record Sort := { sort_Key : string; sort_Descending : bool }.

Record NamedEntityIdentifier := {
  nid_Project : string;
  nid_Domain : string;
  nid_Name : string }.

Record ResourceListRequest := {
  rlr_Id : NamedEntityIdentifier;
  rlr_Limit : N;
  rlr_Token : string;
  rlr_Filters : string;
  rlr_SortBy : option Sort }.

Record NodeExecutionListRequest := {
  nlr_WorkflowExecutionId : WorkflowExecutionIdentifier;
  nlr_Limit : N;
  nlr_Token : string;
  nlr_Filters : string;
  nlr_SortBy : option Sort }.

Record NodeExecutionForTaskListRequest := {
  ntlr_TaskExecutionId : TaskExecutionIdentifier;
  ntlr_Limit : N;
  ntlr_Token : string;
  ntlr_Filters : string;
  ntlr_SortBy : option Sort }.

Record ExecutionList := {
  Executions : list Execution;
  el_Token : string }.

Record NodeExecutionClosure := {
  nclosure_OutputUri : string;
  nclosure_Phase : NodeExecution_Phase }.

Record NodeExecution := {
  nexec_Id : NodeExecutionIdentifier;
  nexec_InputUri : string;
  nexec_Closure : NodeExecutionClosure }.

Record NodeExecutionList := {
  NodeExecutions : list NodeExecution;
  nl_Token : string }.

(** Termination. *)
Record ExecutionTerminateRequest := {
  etr_Id : WorkflowExecutionIdentifier;
  etr_Cause : string }.

Record ExecutionTerminateResponse := {}.

(** Tasks. *)
Record TaskSpec := { ts_Template : TaskTemplate }.

Record TaskCreateRequest := {
  tcr_Id : option Identifier;
  tcr_Spec : TaskSpec }.

Record TaskCreateResponse := {}.

Record TaskClosure := {
  tc_CompiledTask : CompiledTask;
  tc_CreatedAt : Time }.

Record Task := {
  task_Id : Identifier;
  task_Closure : TaskClosure }.

Record TaskList := {
  Tasks_ : list Task;
  tl_Token : string }.

End admin.
Export admin.

(** ** Repository models ([repositories/models]) *)

Module models.

Record Execution := {
  ID : N;
  ExecutionKey : WorkflowExecutionIdentifier;
  LaunchPlanID : N;
  WorkflowID : N;
  Phase : string;
  Closure : bytes;
  Spec : bytes;
  Mode_ : ExecutionMetadata_Mode;
  SourceExecutionID : N;
  ParentNodeExecutionID : N;
  Cluster : string;
  InputsURI : string;
  UserInputsURI : string;
  AbortCause : string;
  ExecutionCreatedAt : option Time }.

Record ExecutionEvent := {
  ee_RequestID : string;
  ee_ExecutionKey : WorkflowExecutionIdentifier;
  ee_OccurredAt : Time;
  ee_Phase : string }.

Record NodeExecution := {
  ne_ID : N;
  ne_NodeExecutionKey : NodeExecutionIdentifier;
  ne_Phase : string;
  ne_InputURI : string;
  ne_Closure : bytes;
  ne_ParentTaskExecutionID : N;
  ne_LaunchedExecution : option WorkflowExecutionIdentifier }.

Record NodeExecutionEvent := {
  nee_RequestID : string;
  nee_NodeExecutionKey : NodeExecutionIdentifier;
  nee_OccurredAt : Time;
  nee_Phase : string }.

Record TaskExecution := { te_ID : N }.

Record LaunchPlan := {
  lp_ID : N;
  lp_WorkflowID : N;
  lp_Spec : bytes;
  lp_Closure : bytes }.

Record Task := {
  t_ID : N;
  t_TaskKey : Identifier;
  t_Closure : bytes;
  t_Digest : bytes }.

End models.

(** ** Filters and sorting ([common]) and repository inputs *)

Inductive Entity :=
| Entity_Execution | Entity_NodeExecution | Entity_Task | Entity_TaskExecution
| Entity_LaunchPlan | Entity_Workflow.

Record InlineFilter := {
  filter_Entity : Entity;
  filter_Field : string;
  filter_Expression : string;
  filter_Value : string }.

(** [common.MapFilter]: a column-to-value map; [None] is SQL NULL. *)
Definition MapFilter := gmap string (option string).

Record SortParameter := { sortParameter_Clause : string }.

Module interfaces.

Record GetResourceInput := {
  gri_Project : string;
  gri_Domain : string;
  gri_Name : string }.

Record GetNodeExecutionInput := {
  gni_NodeExecutionIdentifier : NodeExecutionIdentifier }.

Record ListResourceInput := {
  Limit : Z;
  Offset : Z;
  InlineFilters : list InlineFilter;
  MapFilters : list MapFilter;
  SortParameter_ : option SortParameter }.

Record ExecutionCollectionOutput := { out_Executions : list models.Execution }.
Record NodeExecutionCollectionOutput := { out_NodeExecutions : list models.NodeExecution }.
Record TaskCollectionOutput := { out_Tasks : list models.Task }.

(** [workflowengine/interfaces] *)
Record ExecuteWorkflowInput := {
  ewi_ExecutionID : WorkflowExecutionIdentifier;
  ewi_WfClosure : CompiledWorkflowClosure;
  ewi_Inputs : option LiteralMap;
  ewi_Reference : LaunchPlan;
  ewi_AcceptedAt : Time;
  ewi_Labels : option (gmap string string);
  ewi_Annotations : option (gmap string string) }.

Record ExecutionInfo := { ei_Cluster : string }.

Record TerminateWorkflowInput := {
  twi_ExecutionID : WorkflowExecutionIdentifier;
  twi_Cluster : string }.

End interfaces.
Export interfaces.

(** [transformers.CreateExecutionModelInput] *)
Record CreateExecutionModelInput := {
  cem_WorkflowExecutionID : WorkflowExecutionIdentifier;
  cem_RequestSpec : ExecutionSpec;
  cem_LaunchPlanID : N;
  cem_WorkflowID : N;
  cem_Phase : WorkflowExecution_Phase;
  cem_CreatedAt : Time;
  cem_Notifications : list Notification;
  cem_WorkflowIdentifier : Identifier;
  cem_ParentNodeExecutionID : N;
  cem_Cluster : string;
  cem_InputsURI : string;
  cem_UserInputsURI : string }.

(** [transformers.ToNodeExecutionModelInput] *)
Record ToNodeExecutionModelInput := {
  tnm_Request : NodeExecutionEventRequest;
  tnm_ParentTaskExecutionID : N }.

(** ** State and errors

    [M S A] is a computation over a state [S] that returns an [A] or stops at
    the first error, the Go idiom [x, err := f(); if err != nil return err].
    The state reached so far is kept when an error stops the computation:
    writes already made are not rolled back. *)

Definition M (S A : Type) : Type := S -> (error + A) * S.

Definition ret {S A} (a : A) : M S A := fun s => (inr a, s).

Definition throw {S A} (e : error) : M S A := fun s => (inl e, s).

Definition bind {S A B} (m : M S A) (k : A -> M S B) : M S B :=
  fun s =>
    match m s with
    | (inl e, s') => (inl e, s')
    | (inr a, s') => k a s'
    end.

Notation "'let*' x ':=' m 'in' k" := (bind m (fun x => k))
  (at level 10, x name, m at level 100, k at level 200).

(** A call that fails or returns, without touching the state. *)
Definition try {S A} (r : error + A) : M S A := fun s => (r, s).

(** A call that reads the state. *)
Definition reads {S A} (f : S -> error + A) : M S A := fun s => (f s, s).

(** A call that returns only an [error] (nil is [None]). *)
Definition check {S} (o : option error) : M S unit :=
  try (match o with Some e => inl e | None => inr tt end).

Definition checks {S} (f : S -> option error) : M S unit :=
  fun s => check (f s) s.

(** [rejects m s c]: run from [s], [m] fails with an error of code [c] and
    leaves the state as it was. *)
Definition rejects {S A} (m : M S A) (s : S) (c : Code) : Prop :=
  exists e, m s = (inl e, s) /\ errCode e = Some c.

(** [readOnly m]: whatever the state, running [m] leaves it as it was. *)
Definition readOnly {S A} (m : M S A) : Prop := forall s, snd (m s) = s.

(** ** Collaborators

    The Go interfaces the managers hold, over an abstract database [DB] and
    blob store [Store]. Reads are functions of the state; a write returns the
    new state, with [inl e] when the call reported an error. *)

Class RepositoryInterface (DB : Type) := {
  (* ExecutionRepo() *)
  ExecutionRepo_Create : models.Execution -> M DB unit;
  ExecutionRepo_Get : DB -> GetResourceInput -> error + models.Execution;
  ExecutionRepo_GetByID : DB -> N -> error + models.Execution;
  ExecutionRepo_Update : models.ExecutionEvent -> models.Execution -> M DB unit;
  ExecutionRepo_UpdateExecution : models.Execution -> M DB unit;
  ExecutionRepo_List : DB -> ListResourceInput -> error + ExecutionCollectionOutput;
  (* NodeExecutionRepo() *)
  NodeExecutionRepo_Create : models.NodeExecutionEvent -> models.NodeExecution -> M DB unit;
  NodeExecutionRepo_Get : DB -> GetNodeExecutionInput -> error + models.NodeExecution;
  NodeExecutionRepo_Update : models.NodeExecutionEvent -> models.NodeExecution -> M DB unit;
  NodeExecutionRepo_List : DB -> ListResourceInput -> error + NodeExecutionCollectionOutput;
  (* TaskRepo() *)
  TaskRepo_Create : models.Task -> M DB unit;
  TaskRepo_List : DB -> ListResourceInput -> error + TaskCollectionOutput }.

(** [storage.DataStore] *)
Class DataStore (Store : Type) := {
  GetBaseContainerFQN : string;
  ConstructReference : string -> list string -> error + string;
  WriteProtobuf : string -> LiteralMap -> M Store unit;
  ReadProtobuf : Store -> string -> error + LiteralMap }.

(** [workflowengine/interfaces.Executor]: the remote engine answers. *)
Class Executor := {
  ExecuteWorkflow : ExecuteWorkflowInput -> error + ExecutionInfo;
  TerminateWorkflowExecution : TerminateWorkflowInput -> option error }.

(** [notifications/interfaces.Publisher] *)
Class Publisher := {
  Publish : string -> EmailMessage -> option error }.

(** [data/interfaces.RemoteURLInterface] *)
Class RemoteURLInterface := {
  urlData_Get : string -> error + UrlBlob }.

(** [workflowengine/interfaces.Compiler] *)
Class Compiler := {
  CompileTask : TaskTemplate -> error + CompiledTask }.

(** [runtime/interfaces.Configuration], the values the managers read
    themselves, and the clock. *)
Class Configuration := {
  GetMaxLabelEntries : Z;
  GetMaxAnnotationEntries : Z;
  NotificationsEmailer_Sender : string;
  clock_Now : Time }.

(** Package [validation]. The configuration arguments of the Go functions
    are part of the function here. *)
Class validation (DB : Type) := {
  ValidateExecutionRequest : DB -> ExecutionCreateRequest -> option error;
  CheckAndFetchInputsForExecution :
    option LiteralMap -> option LiteralMap -> gmap string (option Literal) ->
    error + option LiteralMap;
  SetDefaults : CompiledTask -> CompiledTask;
  ValidateCreateWorkflowEventRequest : WorkflowExecutionEventRequest -> option error;
  ValidateWorkflowExecutionIdentifier : WorkflowExecutionIdentifier -> option error;
  ValidateResourceListRequest : ResourceListRequest -> option error;
  ValidateNodeExecutionListRequest : NodeExecutionListRequest -> option error;
  ValidateNodeExecutionForTaskListRequest : NodeExecutionForTaskListRequest -> option error;
  ValidateToken : string -> error + Z;
  ValidateTask : DB -> TaskCreateRequest -> option error }.

(** Package [util]: look-ups through the repository. *)
Record FilterSpec := {
  fs_Project : string;
  fs_Domain : string;
  fs_Name : string;
  fs_RequestFilters : string }.

Class util (DB Store : Type) := {
  GetLaunchPlanModel : DB -> Identifier -> error + models.LaunchPlan;
  GetWorkflow : DB -> Store -> Identifier -> error + Workflow;
  GetExecutionName : ExecutionCreateRequest -> string;
  GetExecutionModel : DB -> WorkflowExecutionIdentifier -> error + models.Execution;
  GetNodeExecutionModel : DB -> NodeExecutionIdentifier -> error + models.NodeExecution;
  GetTaskExecutionModel : DB -> TaskExecutionIdentifier -> error + models.TaskExecution;
  GetTaskModel : DB -> option Identifier -> error + models.Task;
  GetTaskDigest : CompiledTask -> error + bytes;
  GetDbFilters : FilterSpec -> Entity -> error + list InlineFilter;
  AddRequestFilters : string -> Entity -> list InlineFilter -> error + list InlineFilter;
  GetWorkflowExecutionIdentifierFilters :
    WorkflowExecutionIdentifier -> error + list InlineFilter }.

(** Package [transformers]: between repository models and protobuf messages. *)
Class transformers := {
  FromLaunchPlanModel : models.LaunchPlan -> error + LaunchPlan;
  CreateExecutionModel : CreateExecutionModelInput -> error + models.Execution;
  FromExecutionModel : models.Execution -> error + Execution;
  FromExecutionModelWithReferenceExecution :
    models.Execution -> WorkflowExecutionIdentifier -> error + Execution;
  GetExecutionIdentifier : models.Execution -> WorkflowExecutionIdentifier;
  FromExecutionModels : list models.Execution -> error + list Execution;
  UpdateExecutionModelState :
    models.Execution -> WorkflowExecutionEventRequest -> error + models.Execution;
  CreateExecutionEventModel : WorkflowExecutionEventRequest -> error + models.ExecutionEvent;
  CreateNodeExecutionModel : ToNodeExecutionModelInput -> error + models.NodeExecution;
  CreateNodeExecutionEventModel : NodeExecutionEventRequest -> error + models.NodeExecutionEvent;
  UpdateNodeExecutionModel :
    NodeExecutionEventRequest -> models.NodeExecution -> option WorkflowExecutionIdentifier ->
    error + models.NodeExecution;
  FromNodeExecutionModels : list models.NodeExecution -> error + list NodeExecution;
  CreateTaskModel : TaskCreateRequest -> TaskClosure -> bytes -> error + models.Task;
  FromTaskModels : list models.Task -> error + list Task }.

(** Package [common]: terminal phases, sort parameters, filters. *)
Class common := {
  IsExecutionTerminal : WorkflowExecution_Phase -> bool;
  IsNodeExecutionTerminal : NodeExecution_Phase -> bool;
  NewSortParameter : Sort -> error + SortParameter;
  NewSingleValueFilter : Entity -> string -> string -> N -> error + InlineFilter }.

(** Package [notifications]: rendering of the configured subject and body
    templates for an event. *)
Class notifications := {
  renderSubject : WorkflowExecutionEventRequest -> Execution -> string;
  renderBody : WorkflowExecutionEventRequest -> Execution -> string }.

(** [proto.Unmarshal] at the message types the code decodes. *)
Class proto := {
  Unmarshal_ExecutionClosure : bytes -> error + ExecutionClosure;
  Unmarshal_ExecutionSpec : bytes -> error + ExecutionSpec;
  Unmarshal_EmailMessage : bytes -> error + EmailMessage;
  (* ptypes.TimestampProto *)
  TimestampProto : Time -> error + Time }.

(** Package [shared]: key names. *)
Class shared := {
  shared_Metadata : string;
  shared_Inputs : string;
  shared_UserInputs : string;
  shared_ParentTaskExecutionID : string }.

(** ** Queue allocation ([executions.QueueAllocator]) *)

Record QueueConfig := {
  PrimaryQueue : string;
  DynamicQueue : string }.

Class QueueAllocator := {
  GetQueue : Identifier -> QueueConfig }.

Definition parentContainerQueueKey : string := "parent_queue".
Definition childContainerQueueKey : string := "child_queue".

(** [container.Config = append(container.Config, kv)] *)
Definition appendConfig (container : Container) (kv : KeyValuePair) : Container :=
  {| Image := Image container; Command := Command container; Args := Args container;
     Env := Env container; Config := Config container ++ [kv] |}.

Definition withContainer (task : CompiledTask) (container : Container) : CompiledTask :=
  {| Template := {| tt_Id := tt_Id (Template task); tt_Type := tt_Type (Template task);
                    tt_Target := Some container |} |}.

(** The body of the loop of [populateExecutionQueue] for one task. *)
Definition assignQueue (queueConfig : QueueConfig) (task : CompiledTask) : CompiledTask :=
  match GetContainer (Template task) with
  | None => task (* Unrecognized target type, nothing to do *)
  | Some container =>
      let container :=
        if negb (String.eqb (PrimaryQueue queueConfig) "")
        then appendConfig container
               {| kv_Key := parentContainerQueueKey; kv_Value := PrimaryQueue queueConfig |}
        else container in
      let container :=
        if negb (String.eqb (DynamicQueue queueConfig) "")
        then appendConfig container
               {| kv_Key := childContainerQueueKey; kv_Value := DynamicQueue queueConfig |}
        else container in
      withContainer task container
  end.

(** [ExecutionManager.populateExecutionQueue]: the tasks of the compiled
    workflow are updated in place, one after the other. *)
Definition populateExecutionQueue {Queue : QueueAllocator}
    (identifier : Identifier) (compiledWorkflow : CompiledWorkflowClosure)
  : CompiledWorkflowClosure :=
  let queueConfig := GetQueue identifier in
  {| Primary := Primary compiledWorkflow;
     Tasks := List.map (assignQueue queueConfig) (Tasks compiledWorkflow) |}.

(** ** The state the execution manager acts on

    The repository, the blob store, and the calls made to the remote
    executor and to the publisher, oldest first. *)

Record World (DB Store : Type) := mkWorld {
  db : DB;
  storageClient : Store;
  dispatched : list ExecuteWorkflowInput;
  aborted : list TerminateWorkflowInput;
  published : list (string * EmailMessage);
  PublishNotificationError : nat }.

Arguments mkWorld {DB Store}.
Arguments db {DB Store}.
Arguments storageClient {DB Store}.
Arguments dispatched {DB Store}.
Arguments aborted {DB Store}.
Arguments published {DB Store}.
Arguments PublishNotificationError {DB Store}.

(** Setters for the fields of [models.Execution] the managers assign to. *)
Definition set_InputsURI (m : models.Execution) (uri : string) : models.Execution :=
  {| models.ID := models.ID m; models.ExecutionKey := models.ExecutionKey m;
     models.LaunchPlanID := models.LaunchPlanID m; models.WorkflowID := models.WorkflowID m;
     models.Phase := models.Phase m; models.Closure := models.Closure m;
     models.Spec := models.Spec m; models.Mode_ := models.Mode_ m;
     models.SourceExecutionID := models.SourceExecutionID m;
     models.ParentNodeExecutionID := models.ParentNodeExecutionID m;
     models.Cluster := models.Cluster m; models.InputsURI := uri;
     models.UserInputsURI := models.UserInputsURI m; models.AbortCause := models.AbortCause m;
     models.ExecutionCreatedAt := models.ExecutionCreatedAt m |}.

Definition set_AbortCause (m : models.Execution) (cause : string) : models.Execution :=
  {| models.ID := models.ID m; models.ExecutionKey := models.ExecutionKey m;
     models.LaunchPlanID := models.LaunchPlanID m; models.WorkflowID := models.WorkflowID m;
     models.Phase := models.Phase m; models.Closure := models.Closure m;
     models.Spec := models.Spec m; models.Mode_ := models.Mode_ m;
     models.SourceExecutionID := models.SourceExecutionID m;
     models.ParentNodeExecutionID := models.ParentNodeExecutionID m;
     models.Cluster := models.Cluster m; models.InputsURI := models.InputsURI m;
     models.UserInputsURI := models.UserInputsURI m; models.AbortCause := cause;
     models.ExecutionCreatedAt := models.ExecutionCreatedAt m |}.

Definition set_ComputedInputs (e : Execution) (inputs : option LiteralMap) : Execution :=
  {| exec_Id := exec_Id e; exec_Spec := exec_Spec e;
     exec_Closure :=
       {| closure_Outputs := closure_Outputs (exec_Closure e);
          closure_ComputedInputs := inputs;
          closure_Phase := closure_Phase (exec_Closure e);
          closure_Notifications := closure_Notifications (exec_Closure e) |} |}.

Definition set_SpecInputs (e : Execution) (inputs : option LiteralMap) : Execution :=
  {| exec_Id := exec_Id e;
     exec_Spec :=
       {| spec_LaunchPlan := spec_LaunchPlan (exec_Spec e);
          spec_Inputs := inputs;
          spec_Metadata := spec_Metadata (exec_Spec e);
          spec_NotificationOverrides := spec_NotificationOverrides (exec_Spec e);
          spec_Labels := spec_Labels (exec_Spec e);
          spec_Annotations := spec_Annotations (exec_Spec e) |};
     exec_Closure := exec_Closure e |}.

Definition set_SourceExecutionID (m : models.Execution) (id : N) : models.Execution :=
  {| models.ID := models.ID m; models.ExecutionKey := models.ExecutionKey m;
     models.LaunchPlanID := models.LaunchPlanID m; models.WorkflowID := models.WorkflowID m;
     models.Phase := models.Phase m; models.Closure := models.Closure m;
     models.Spec := models.Spec m; models.Mode_ := models.Mode_ m;
     models.SourceExecutionID := id;
     models.ParentNodeExecutionID := models.ParentNodeExecutionID m;
     models.Cluster := models.Cluster m; models.InputsURI := models.InputsURI m;
     models.UserInputsURI := models.UserInputsURI m; models.AbortCause := models.AbortCause m;
     models.ExecutionCreatedAt := models.ExecutionCreatedAt m |}.

(** [executionSpec.Metadata.Mode = mode], on a spec whose nil metadata has
    been replaced by the empty message. *)
Definition set_Mode (spec : ExecutionSpec) (mode : ExecutionMetadata_Mode) : ExecutionSpec :=
  {| spec_LaunchPlan := spec_LaunchPlan spec;
     spec_Inputs := spec_Inputs spec;
     spec_Metadata :=
       Some {| Mode := mode;
               ParentNodeExecution :=
                 match spec_Metadata spec with
                 | Some metadata => ParentNodeExecution metadata
                 | None => None
                 end |};
     spec_NotificationOverrides := spec_NotificationOverrides spec;
     spec_Labels := spec_Labels spec;
     spec_Annotations := spec_Annotations spec |}.

Definition noSourceExecutionID : N := 0.

(** [proto.MessageName(&emailNotification)] *)
Definition EmailNotification_MessageName : string := "flyteidl.admin.EmailNotification".

(** [validateMapSize]; the error is InvalidArgument. *)
Definition validateMapSize (maxEntries : Z) (candidate : option (gmap string string))
    (candidateName : string) : option error :=
  if (maxEntries =? 0)%Z then None (* Treat the max as unset *)
  else if (maxEntries <? Z.of_nat (size (default ∅ candidate)))%Z
  then Some (NewFlyteAdminErrorf InvalidArgument "%s has too many entries [%v > %v]")
  else None.

(** Which notification type an entry carries, as the e-mail notification the
    three supported types are converted into; [None] for an unrecognized type. *)
Definition toEmailNotification (notification : Notification) : option EmailNotification :=
  match GetEmail notification with
  | Some email => Some {| email_RecipientsEmail := email_RecipientsEmail email |}
  | None =>
      match GetPagerDuty notification with
      | Some pagerDuty => Some {| email_RecipientsEmail := pagerDuty_RecipientsEmail pagerDuty |}
      | None =>
          match GetSlack notification with
          | Some slack => Some {| email_RecipientsEmail := slack_RecipientsEmail slack |}
          | None => None
          end
      end
  end.

(** The inner loop of [publishNotifications]: does the notification list the
    phase of the event? *)
Definition matchPhase (notification : Notification) (phase : WorkflowExecution_Phase) : bool :=
  existsb (fun p => bool_decide (p = phase)) (Phases notification).

(** The notification settings of a new execution, as
    [launchExecutionAndPrepareModel] computes them: the request's take
    precedence over the launch plan's. *)
Definition notificationsSettings (launchPlan : LaunchPlan) (requestSpec : ExecutionSpec)
  : list Notification :=
  let notificationsSettings :=
    match lps_EntityMetadata (lp_Spec launchPlan) with
    | Some entityMetadata => lpm_Notifications entityMetadata
    | None => []
    end in
  match GetNotifications requestSpec with
  | Some (n :: l) => n :: l
  | _ => if GetDisableAll requestSpec then [] else notificationsSettings
  end.

Section ExecutionManager.

Context {DB Store : Type}.
Context {Repo : RepositoryInterface DB} {Blob : DataStore Store} {Exec : Executor}
        {Pub : Publisher} {UrlData : RemoteURLInterface} {Cfg : Configuration}
        {Queue : QueueAllocator}
        {Val : validation DB} {Utl : util DB Store} {Trn : transformers} {Cmn : common}
        {Ntf : notifications} {Pb : proto} {Shr : shared}.

#[local] Abbreviation W := (World DB Store).

(** Run a repository write, or a blob-store write, inside the world. *)
Definition onDB {A} (m : M DB A) : M W A :=
  fun w =>
    let (r, d) := m (db w) in
    (r, mkWorld d (storageClient w) (dispatched w) (aborted w) (published w)
          (PublishNotificationError w)).

Definition onStore {A} (m : M Store A) : M W A :=
  fun w =>
    let (r, st) := m (storageClient w) in
    (r, mkWorld (db w) st (dispatched w) (aborted w) (published w)
          (PublishNotificationError w)).

(** [m.workflowExecutor.ExecuteWorkflow]: the call is recorded. *)
Definition callExecuteWorkflow (input : ExecuteWorkflowInput) : M W ExecutionInfo :=
  fun w =>
    (ExecuteWorkflow input,
     mkWorld (db w) (storageClient w) (dispatched w ++ [input]) (aborted w) (published w)
       (PublishNotificationError w)).

(** [m.workflowExecutor.TerminateWorkflowExecution]: the call is recorded. *)
Definition callTerminateWorkflowExecution (input : TerminateWorkflowInput) : M W unit :=
  fun w =>
    check (TerminateWorkflowExecution input)
      (mkWorld (db w) (storageClient w) (dispatched w) (aborted w ++ [input]) (published w)
         (PublishNotificationError w)).

(** [m.notificationClient.Publish] followed by the handling of its error:
    counted, logged, and not returned. *)
Definition callPublish (name : string) (email : EmailMessage) : M W unit :=
  fun w =>
    (inr tt,
     mkWorld (db w) (storageClient w) (dispatched w) (aborted w)
       (published w ++ [(name, email)])
       (match Publish name email with
        | Some _ => S (PublishNotificationError w)
        | None => PublishNotificationError w
        end)).

(** Labels and annotations defined in the execution spec are preferred over
    those defined in the reference launch plan spec. *)
Definition addLabelsAndAnnotations (requestSpec : ExecutionSpec)
    (partiallyPopulatedInputs : ExecuteWorkflowInput) : error + ExecuteWorkflowInput :=
  let labels :=
    match spec_Labels requestSpec with
    | Some values => Some values
    | None => lps_Labels (lp_Spec (ewi_Reference partiallyPopulatedInputs))
    end in
  let annotations :=
    match spec_Annotations requestSpec with
    | Some values => Some values
    | None => lps_Annotations (lp_Spec (ewi_Reference partiallyPopulatedInputs))
    end in
  match validateMapSize GetMaxLabelEntries labels "Labels" with
  | Some err => inl err
  | None =>
      match validateMapSize GetMaxAnnotationEntries annotations "Annotations" with
      | Some err => inl err
      | None =>
          inr {| ewi_ExecutionID := ewi_ExecutionID partiallyPopulatedInputs;
                 ewi_WfClosure := ewi_WfClosure partiallyPopulatedInputs;
                 ewi_Inputs := ewi_Inputs partiallyPopulatedInputs;
                 ewi_Reference := ewi_Reference partiallyPopulatedInputs;
                 ewi_AcceptedAt := ewi_AcceptedAt partiallyPopulatedInputs;
                 ewi_Labels := labels;
                 ewi_Annotations := annotations |}
      end
  end.

(** [offloadInputs]: writes the literal map (an empty one for nil) under a
    reference derived from the execution identity and [key]. *)
Definition offloadInputs (literalMap : option LiteralMap)
    (identifier : WorkflowExecutionIdentifier) (key : string) : M W string :=
  let literalMap := default {| Literals := ∅ |} literalMap in
  let* inputsURI :=
    try (ConstructReference GetBaseContainerFQN
           [shared_Metadata; wei_Project identifier; wei_Domain identifier;
            wei_Name identifier; key]) in
  let* _ := onStore (WriteProtobuf inputsURI literalMap) in
  ret inputsURI.

Definition launchExecutionAndPrepareModel (request : ExecutionCreateRequest)
    (requestedAt : Time) : M W models.Execution :=
  let* _ := checks (fun w => ValidateExecutionRequest (db w) request) in
  let* launchPlanModel :=
    reads (fun w => GetLaunchPlanModel (db w) (spec_LaunchPlan (ecr_Spec request))) in
  let* launchPlan := try (FromLaunchPlanModel launchPlanModel) in
  let* executionInputs :=
    try (CheckAndFetchInputsForExecution (ecr_Inputs request)
           (lps_FixedInputs (lp_Spec launchPlan))
           (lpc_ExpectedInputs (lp_Closure launchPlan))) in
  let* workflow :=
    reads (fun w => GetWorkflow (db w) (storageClient w) (lps_WorkflowId (lp_Spec launchPlan))) in
  let name := GetExecutionName request in
  let workflowExecutionID :=
    {| wei_Project := ecr_Project request; wei_Domain := ecr_Domain request;
       wei_Name := name |} in
  (* Get the node execution (if any) that launched this execution *)
  let* parentNodeExecutionID :=
    match spec_Metadata (ecr_Spec request) with
    | Some metadata =>
        match ParentNodeExecution metadata with
        | Some parent =>
            let* parentNodeExecutionModel :=
              reads (fun w => GetNodeExecutionModel (db w) parent) in
            ret (models.ne_ID parentNodeExecutionModel)
        | None => ret 0%N
        end
    | None => ret 0%N
    end in
  (* Dynamically assign task resource defaults. *)
  let compiledWorkflow :=
    {| Primary := Primary (wc_CompiledWorkflow (wf_Closure workflow));
       Tasks := List.map SetDefaults (Tasks (wc_CompiledWorkflow (wf_Closure workflow))) |} in
  (* Dynamically assign execution queues. *)
  let compiledWorkflow := populateExecutionQueue (wf_Id workflow) compiledWorkflow in
  let* inputsURI := offloadInputs executionInputs workflowExecutionID shared_Inputs in
  let* userInputsURI :=
    offloadInputs (ecr_Inputs request) workflowExecutionID shared_UserInputs in
  let executeWorkflowInputs :=
    {| ewi_ExecutionID := workflowExecutionID;
       ewi_WfClosure := compiledWorkflow;
       ewi_Inputs := executionInputs;
       ewi_Reference := launchPlan;
       ewi_AcceptedAt := requestedAt;
       ewi_Labels := None;
       ewi_Annotations := None |} in
  let* executeWorkflowInputs :=
    try (addLabelsAndAnnotations (ecr_Spec request) executeWorkflowInputs) in
  let* execInfo := callExecuteWorkflow executeWorkflowInputs in
  (* Request notification settings takes precedence over the launch plan settings. *)
  let notificationsSettings := notificationsSettings launchPlan (ecr_Spec request) in
  try (CreateExecutionModel
         {| cem_WorkflowExecutionID := workflowExecutionID;
            cem_RequestSpec := ecr_Spec request;
            cem_LaunchPlanID := models.lp_ID launchPlanModel;
            cem_WorkflowID := models.lp_WorkflowID launchPlanModel;
            (* The execution is not considered running until the propeller
               sends a specific event saying so. *)
            cem_Phase := WorkflowExecution_UNDEFINED;
            cem_CreatedAt := clock_Now;
            cem_Notifications := notificationsSettings;
            cem_WorkflowIdentifier := wf_Id workflow;
            cem_ParentNodeExecutionID := parentNodeExecutionID;
            cem_Cluster := ei_Cluster execInfo;
            cem_InputsURI := inputsURI;
            cem_UserInputsURI := userInputsURI |}).

(** Inserts an execution model into the database store. *)
Definition createExecutionModel (executionModel : models.Execution)
  : M W WorkflowExecutionIdentifier :=
  let workflowExecutionIdentifier :=
    {| wei_Project := wei_Project (models.ExecutionKey executionModel);
       wei_Domain := wei_Domain (models.ExecutionKey executionModel);
       wei_Name := wei_Name (models.ExecutionKey executionModel) |} in
  let* _ := onDB (ExecutionRepo_Create executionModel) in
  ret workflowExecutionIdentifier.

Definition CreateExecution (request : ExecutionCreateRequest) (requestedAt : Time)
  : M W ExecutionCreateResponse :=
  (* Prior to flyteidl v0.15.0, Inputs was held in ExecutionSpec. *)
  let request :=
    match ecr_Inputs request with
    | Some inputs =>
        if decide (size (Literals inputs) = 0)
        then {| ecr_Project := ecr_Project request; ecr_Domain := ecr_Domain request;
                ecr_Name := ecr_Name request; ecr_Spec := ecr_Spec request;
                ecr_Inputs := spec_Inputs (ecr_Spec request) |}
        else request
    | None =>
        {| ecr_Project := ecr_Project request; ecr_Domain := ecr_Domain request;
           ecr_Name := ecr_Name request; ecr_Spec := ecr_Spec request;
           ecr_Inputs := spec_Inputs (ecr_Spec request) |}
    end in
  let* executionModel := launchExecutionAndPrepareModel request requestedAt in
  let* workflowExecutionIdentifier := createExecutionModel executionModel in
  ret {| ecresp_Id := workflowExecutionIdentifier |}.

Definition RelaunchExecution (request : ExecutionRelaunchRequest) (requestedAt : Time)
  : M W ExecutionCreateResponse :=
  let* existingExecutionModel :=
    reads (fun w => GetExecutionModel (db w) (err_Id request)) in
  let* existingExecution := try (FromExecutionModel existingExecutionModel) in
  let executionSpec := exec_Spec existingExecution in
  let* inputs :=
    if decide (0 < String.length (models.UserInputsURI existingExecutionModel)) then
      let* inputs :=
        reads (fun w =>
                 ReadProtobuf (storageClient w) (models.UserInputsURI existingExecutionModel)) in
      ret (Some inputs)
    else
      (* For old data, inputs are held in the spec *)
      match Unmarshal_ExecutionSpec (models.Spec existingExecutionModel) with
      | inl _ => throw (NewFlyteAdminErrorf Internal "failed to unmarshal spec")
      | inr spec => ret (spec_Inputs spec)
      end in
  let executionSpec := set_Mode executionSpec ExecutionMetadata_RELAUNCH in
  let* executionModel :=
    launchExecutionAndPrepareModel
      {| ecr_Project := wei_Project (err_Id request);
         ecr_Domain := wei_Domain (err_Id request);
         ecr_Name := err_Name request;
         ecr_Spec := executionSpec;
         ecr_Inputs := inputs |} requestedAt in
  let executionModel :=
    set_SourceExecutionID executionModel (models.ID existingExecutionModel) in
  let* workflowExecutionIdentifier := createExecutionModel executionModel in
  ret {| ecresp_Id := workflowExecutionIdentifier |}.


(** [ToEmailMessageFromWorkflowExecutionEvent] of package [notifications].

    Modelled from the spec: the function is not among the manager sources.
    The spec has each surviving entry normalised into one e-mail-shaped
    message addressed to the entry's configured recipients; sender, subject
    and body come from the emailer configuration. *)
Definition ToEmailMessageFromWorkflowExecutionEvent (emailNotification : EmailNotification)
    (request : WorkflowExecutionEventRequest) (execution : Execution) : EmailMessage :=
  {| RecipientsEmail := email_RecipientsEmail emailNotification;
     SenderEmail := NotificationsEmailer_Sender;
     SubjectLine := renderSubject request execution;
     Body := renderBody request execution |}.

(** The loop of [publishNotifications] over the notification list. *)
Fixpoint publishEach (request : WorkflowExecutionEventRequest) (adminExecution : Execution)
    (notificationsList : list Notification) : M W unit :=
  match notificationsList with
  | [] => ret tt
  | notification :: rest =>
      (* Check if the notification phase matches the current one. *)
      if negb (matchPhase notification (wev_Phase (wer_Event request)))
      then publishEach request adminExecution rest
      else
        (* Convert Slack and PagerDuty into an EmailNotification type. *)
        match toEmailNotification notification with
        | None =>
            (* Unsupported notification types should have been caught when
               the launch plan was being created. *)
            throw (NewFlyteAdminErrorf Internal
                     "Unsupported notification type [%v] for execution [%+v]")
        | Some emailNotification =>
            let email :=
              ToEmailMessageFromWorkflowExecutionEvent emailNotification request
                adminExecution in
            (* Errors seen while publishing a message are considered non-fatal. *)
            let* _ := callPublish EmailNotification_MessageName email in
            publishEach request adminExecution rest
        end
  end.

(** [publishNotifications] only forwards major errors. *)
Definition publishNotifications (request : WorkflowExecutionEventRequest)
    (execution : models.Execution) : M W unit :=
  (* Notifications are stored in the Spec object of an admin.Execution object. *)
  match FromExecutionModel execution with
  | inl _ =>
      throw (NewFlyteAdminErrorf Internal "Failed to transform execution [%+v] with err: %v")
  | inr adminExecution =>
      let notificationsList := closure_Notifications (exec_Closure adminExecution) in
      publishEach request adminExecution notificationsList
  end.

Definition CreateWorkflowEvent (request : WorkflowExecutionEventRequest)
  : M W WorkflowExecutionEventResponse :=
  let* _ := check (ValidateCreateWorkflowEventRequest request) in
  let* executionModel :=
    reads (fun w => GetExecutionModel (db w) (wev_ExecutionId (wer_Event request))) in
  let wfExecPhase := WorkflowExecution_Phase_value (models.Phase executionModel) in
  if decide (wfExecPhase = wev_Phase (wer_Event request)) then
    throw (NewFlyteAdminErrorf AlreadyExists
             "This phase %s was already recorded for workflow execution %v")
  else if IsExecutionTerminal wfExecPhase then
    (* Cannot go backwards in time from a terminal state to anything else *)
    let curPhase := WorkflowExecution_Phase_String wfExecPhase in
    throw (NewAlreadyInTerminalStateError
             "Invalid phase change from %s to %s for workflow execution %v" curPhase)
  else
    let* executionModel := try (UpdateExecutionModelState executionModel request) in
    let* executionEventModel := try (CreateExecutionEventModel request) in
    let* _ := onDB (ExecutionRepo_Update executionEventModel executionModel) in
    let* _ :=
      if decide (wev_Phase (wer_Event request) = WorkflowExecution_RUNNING) then
        (* the scheduled-delay stop watch is observed in the background *)
        ret tt
      else if IsExecutionTerminal (wev_Phase (wer_Event request)) then
        (* The only errors that publishNotifications will forward are those
           related to unexpected data and transformation errors. *)
        publishNotifications request executionModel
      else ret tt in
    ret (Build_WorkflowExecutionEventResponse).

Definition GetExecution (request : WorkflowExecutionGetRequest) : M W Execution :=
  let* _ := check (ValidateWorkflowExecutionIdentifier (wgr_Id request)) in
  let* executionModel := reads (fun w => GetExecutionModel (db w) (wgr_Id request)) in
  let* execution :=
    if decide (models.SourceExecutionID executionModel <> noSourceExecutionID) then
      (* Fetch parent execution to reconstruct its WorkflowExecutionIdentifier *)
      let* referenceExecutionModel :=
        reads (fun w => ExecutionRepo_GetByID (db w) (models.SourceExecutionID executionModel)) in
      let referenceExecutionID := GetExecutionIdentifier referenceExecutionModel in
      try (FromExecutionModelWithReferenceExecution executionModel referenceExecutionID)
    else try (FromExecutionModel executionModel) in
  let* execution :=
    if decide (0 < String.length (models.InputsURI executionModel)) then
      let* inputs :=
        reads (fun w => ReadProtobuf (storageClient w) (models.InputsURI executionModel)) in
      ret (set_ComputedInputs execution (Some inputs))
    else ret execution in
  let* execution :=
    if decide (0 < String.length (models.UserInputsURI executionModel)) then
      let* userInputs :=
        reads (fun w => ReadProtobuf (storageClient w) (models.UserInputsURI executionModel)) in
      ret (set_SpecInputs execution (Some userInputs))
    else ret execution in
  ret execution.

Definition GetExecutionData (request : WorkflowExecutionGetDataRequest)
  : M W WorkflowExecutionGetDataResponse :=
  let* executionModel := reads (fun w => GetExecutionModel (db w) (wgdr_Id request)) in
  let* execution := try (FromExecutionModel executionModel) in
  let* signedOutputsURLBlob :=
    match closure_Outputs (exec_Closure execution) with
    | Some outputs =>
        if negb (String.eqb (Uri outputs) "") then try (urlData_Get (Uri outputs))
        else ret {| Url := ""; Bytes := 0 |}
    | None => ret {| Url := ""; Bytes := 0 |}
    end in
  (* Prior to flyteidl v0.15.0, Inputs were held in ExecutionClosure and were
     not offloaded. Ensure we can return the inputs as expected. *)
  let* executionModel :=
    if decide (String.length (models.InputsURI executionModel) = 0) then
      let* closure := try (Unmarshal_ExecutionClosure (models.Closure executionModel)) in
      let* newInputsURI :=
        offloadInputs (closure_ComputedInputs closure) (wgdr_Id request) shared_Inputs in
      (* Update model so as not to offload again. *)
      let executionModel := set_InputsURI executionModel newInputsURI in
      let* _ := onDB (ExecutionRepo_UpdateExecution executionModel) in
      ret executionModel
    else ret executionModel in
  let* inputsURLBlob := try (urlData_Get (models.InputsURI executionModel)) in
  ret {| gdr_Outputs := signedOutputsURLBlob; gdr_Inputs := inputsURLBlob |}.

(** The continuation token of a page of [n] items: set when the page is
    exactly full.  This is the block shared, verbatim, by [ListExecutions],
    [listNodeExecutions] and [ListTasks]. *)
Definition pageToken (n : Z) (limit : N) (offset : Z) : string :=
  if (n =? Z.of_N limit)%Z then Itoa (int_add offset n) else "".

(** Clear deprecated fields during migration phase. *)
Definition clearDeprecated (execution : Execution) : Execution :=
  set_ComputedInputs (set_SpecInputs execution None) None.

Definition ListExecutions (request : ResourceListRequest) : M W ExecutionList :=
  (* Check required fields *)
  let* _ := check (ValidateResourceListRequest request) in
  let* filters :=
    try (GetDbFilters
           {| fs_Project := nid_Project (rlr_Id request);
              fs_Domain := nid_Domain (rlr_Id request);
              fs_Name := nid_Name (rlr_Id request); (* Optional, may be empty. *)
              fs_RequestFilters := rlr_Filters request |} Entity_Execution) in
  let* sortParameter :=
    match rlr_SortBy request with
    | Some sortBy => let* p := try (NewSortParameter sortBy) in ret (Some p)
    | None => ret None
    end in
  let* offset :=
    match ValidateToken (rlr_Token request) with
    | inl _ =>
        throw (NewFlyteAdminErrorf InvalidArgument
                 "invalid pagination token %s for ListExecutions")
    | inr offset => ret offset
    end in
  let listExecutionsInput :=
    {| Limit := Z.of_N (rlr_Limit request);
       Offset := offset;
       InlineFilters := filters;
       MapFilters := [];
       SortParameter_ := sortParameter |} in
  let* output := reads (fun w => ExecutionRepo_List (db w) listExecutionsInput) in
  let* executionList := try (FromExecutionModels (out_Executions output)) in
  let executionList := List.map clearDeprecated executionList in
  let token := pageToken (len executionList) (rlr_Limit request) offset in
  ret {| Executions := executionList; el_Token := token |}.

Definition TerminateExecution (request : ExecutionTerminateRequest)
  : M W ExecutionTerminateResponse :=
  let* _ := check (ValidateWorkflowExecutionIdentifier (etr_Id request)) in
  (* Save the abort reason (best effort) *)
  let* executionModel :=
    reads (fun w =>
             ExecutionRepo_Get (db w)
               {| gri_Project := wei_Project (etr_Id request);
                  gri_Domain := wei_Domain (etr_Id request);
                  gri_Name := wei_Name (etr_Id request) |}) in
  let* _ :=
    callTerminateWorkflowExecution
      {| twi_ExecutionID := etr_Id request;
         twi_Cluster := models.Cluster executionModel |} in
  let executionModel := set_AbortCause executionModel (etr_Cause request) in
  let* _ := onDB (ExecutionRepo_UpdateExecution executionModel) in
  ret (Build_ExecutionTerminateResponse).

End ExecutionManager.

(** ** Node execution manager *)

(** [updateNodeExecutionStatus].  [updateFailed] is the status that goes with
    a non-nil error, so a computation that stops with [inl e] stands for the
    Go pair [(updateFailed, e)]. *)
Inductive updateNodeExecutionStatus :=
| updateSucceeded
| updateFailed
| alreadyInTerminalStatus.

#[global] Instance updateNodeExecutionStatus_eq_dec : EqDecision updateNodeExecutionStatus.
Proof. solve_decision. Defined.

Definition addIsParentFilter : bool := true.

Section NodeExecutionManager.

Context {DB Store : Type}.
Context {Repo : RepositoryInterface DB} {Val : validation DB} {Utl : util DB Store}
        {Trn : transformers} {Cmn : common} {Shr : shared}.

(** [isParent]: the map filter selecting rows without a parent task execution. *)
Definition isParent : MapFilter := {[ shared_ParentTaskExecutionID := None ]}.

Definition createNodeExecutionWithEvent (request : NodeExecutionEventRequest) : M DB unit :=
  let* parentTaskExecutionID :=
    match nev_ParentTaskMetadata (ner_Event request) with
    | Some parentTaskMetadata =>
        let* taskExecutionModel :=
          reads (fun d => GetTaskExecutionModel d (ptm_Id parentTaskMetadata)) in
        ret (models.te_ID taskExecutionModel)
    | None => ret 0%N
    end in
  let* nodeExecutionModel :=
    try (CreateNodeExecutionModel
           {| tnm_Request := request; tnm_ParentTaskExecutionID := parentTaskExecutionID |}) in
  let* nodeExecutionEventModel := try (CreateNodeExecutionEventModel request) in
  NodeExecutionRepo_Create nodeExecutionEventModel nodeExecutionModel.

Definition updateNodeExecutionWithEvent (request : NodeExecutionEventRequest)
    (nodeExecutionModel : models.NodeExecution) : M DB updateNodeExecutionStatus :=
  (* If we have an existing execution, check if the phase change is valid *)
  let nodeExecPhase := NodeExecution_Phase_value (models.ne_Phase nodeExecutionModel) in
  if decide (nodeExecPhase = nev_Phase (ner_Event request)) then
    throw (NewFlyteAdminErrorf AlreadyExists "This phase was already recorded %v for %+v")
  else if IsNodeExecutionTerminal nodeExecPhase then
    (* Cannot go from a terminal state to anything else *)
    ret alreadyInTerminalStatus
  else
    (* if this node execution kicked off a workflow, validate that the
       execution exists *)
    let* childExecutionID :=
      match GetWorkflowNodeMetadata (ner_Event request) with
      | Some workflowNodeMetadata =>
          let childExecutionID := wnm_ExecutionId workflowNodeMetadata in
          (* an invalid identifier is logged, and the look-up goes ahead *)
          let _ := ValidateWorkflowExecutionIdentifier childExecutionID in
          let* _ := reads (fun d => GetExecutionModel d childExecutionID) in
          ret (Some childExecutionID)
      | None => ret None
      end in
    let* nodeExecutionModel :=
      try (UpdateNodeExecutionModel request nodeExecutionModel childExecutionID) in
    let* nodeExecutionEventModel := try (CreateNodeExecutionEventModel request) in
    let* _ := NodeExecutionRepo_Update nodeExecutionEventModel nodeExecutionModel in
    ret updateSucceeded.

Definition CreateNodeEvent (request : NodeExecutionEventRequest)
  : M DB NodeExecutionEventResponse :=
  let executionID := nei_ExecutionId (nev_Id (ner_Event request)) in
  fun d =>
    match GetExecutionModel d executionID with
    | inl err =>
        match err with
        | FlyteAdminError code _ _ =>
            (inl (NewFlyteAdminErrorf code
                    "Failed to get existing execution id:[%+v] with err: %v"), d)
        | GoError _ =>
            (inl (GoError "failed to get existing execution id: [%+v] with err: %v"), d)
        end
    | inr _ =>
        match NodeExecutionRepo_Get d
                {| gni_NodeExecutionIdentifier := nev_Id (ner_Event request) |} with
        | inl err =>
            match err with
            | FlyteAdminError code _ _ =>
                if decide (code <> NotFound) then (inl err, d)
                else
                  (let* _ := createNodeExecutionWithEvent request in
                   ret Build_NodeExecutionEventResponse) d
            | GoError _ =>
                (* the type assertion err.(errors.FlyteAdminError) panics *)
                (inl (GoError "panic: interface conversion"), d)
            end
        | inr nodeExecutionModel =>
            let phase := NodeExecution_Phase_value (models.ne_Phase nodeExecutionModel) in
            (let* updateStatus := updateNodeExecutionWithEvent request nodeExecutionModel in
             if decide (updateStatus = alreadyInTerminalStatus) then
               let curPhase := NodeExecution_Phase_String (nev_Phase (ner_Event request)) in
               throw (NewAlreadyInTerminalStateError
                        "Invalid phase change from %s to %s for node execution %v" curPhase)
             else ret Build_NodeExecutionEventResponse) d
        end
    end.

Definition listNodeExecutions (identifierFilters : list InlineFilter)
    (requestFilters : string) (limit : N) (requestToken : string) (sortBy : option Sort)
    (addIsParentFilter : bool) : M DB NodeExecutionList :=
  let* filters :=
    try (AddRequestFilters requestFilters Entity_NodeExecution identifierFilters) in
  let* sortParameter :=
    match sortBy with
    | Some sortBy => let* p := try (NewSortParameter sortBy) in ret (Some p)
    | None => ret None
    end in
  let* offset :=
    match ValidateToken requestToken with
    | inl _ =>
        throw (NewFlyteAdminErrorf InvalidArgument
                 "invalid pagination token %s for ListNodeExecutions")
    | inr offset => ret offset
    end in
  let listInput :=
    {| Limit := Z.of_N limit;
       Offset := offset;
       InlineFilters := filters;
       MapFilters := if addIsParentFilter then [isParent] else [];
       SortParameter_ := sortParameter |} in
  let* output := reads (fun d => NodeExecutionRepo_List d listInput) in
  let token := pageToken (len (out_NodeExecutions output)) limit offset in
  let* nodeExecutionList := try (FromNodeExecutionModels (out_NodeExecutions output)) in
  ret {| NodeExecutions := nodeExecutionList; nl_Token := token |}.

Definition ListNodeExecutions (request : NodeExecutionListRequest) : M DB NodeExecutionList :=
  (* Check required fields *)
  let* _ := check (ValidateNodeExecutionListRequest request) in
  let* identifierFilters :=
    try (GetWorkflowExecutionIdentifierFilters (nlr_WorkflowExecutionId request)) in
  listNodeExecutions identifierFilters (nlr_Filters request) (nlr_Limit request)
    (nlr_Token request) (nlr_SortBy request) addIsParentFilter.

(** Filters on node executions matching the execution parameters as well as
    the parent task execution id of the task execution in the request. *)
Definition ListNodeExecutionsForTask (request : NodeExecutionForTaskListRequest)
  : M DB NodeExecutionList :=
  let* _ := check (ValidateNodeExecutionForTaskListRequest request) in
  let* identifierFilters :=
    try (GetWorkflowExecutionIdentifierFilters
           (nei_ExecutionId (tei_NodeExecutionId (ntlr_TaskExecutionId request)))) in
  let* parentTaskExecutionModel :=
    reads (fun d => GetTaskExecutionModel d (ntlr_TaskExecutionId request)) in
  let* nodeIDFilter :=
    try (NewSingleValueFilter Entity_NodeExecution "eq" shared_ParentTaskExecutionID
           (models.te_ID parentTaskExecutionModel)) in
  let identifierFilters := (identifierFilters ++ [nodeIDFilter])%list in
  listNodeExecutions identifierFilters (ntlr_Filters request) (ntlr_Limit request)
    (ntlr_Token request) (ntlr_SortBy request) (negb addIsParentFilter).

End NodeExecutionManager.

(** ** Task manager *)

Section TaskManager.

Context {DB Store : Type}.
Context {Repo : RepositoryInterface DB} {Cmp : Compiler} {Cfg : Configuration}
        {Val : validation DB} {Utl : util DB Store} {Trn : transformers} {Cmn : common}
        {Pb : proto}.

(** [setDefaults].  [request.Spec] is a pointer: the assignment to
    [request.Spec.Template.Id] is seen through the caller's [request] too. *)
Definition setDefaults (request : TaskCreateRequest) : error + TaskCreateRequest :=
  match tcr_Id request with
  | None => inl (NewFlyteAdminError InvalidArgument "missing identifier for TaskCreateRequest")
  | Some id =>
      inr {| tcr_Id := tcr_Id request;
             tcr_Spec :=
               {| ts_Template :=
                    {| tt_Id := Some id;
                       tt_Type := tt_Type (ts_Template (tcr_Spec request));
                       tt_Target := tt_Target (ts_Template (tcr_Spec request)) |} |} |}
  end.

Definition CreateTask (request : TaskCreateRequest) : M DB TaskCreateResponse :=
  let* _ := checks (fun d => ValidateTask d request) in
  let* finalizedRequest := try (setDefaults request) in
  (* request.Spec and finalizedRequest.Spec are the same object from here on *)
  let request := finalizedRequest in
  (* Compile task and store the compiled version in the database. *)
  let* compiledTask := try (CompileTask (ts_Template (tcr_Spec finalizedRequest))) in
  let* createdAt :=
    match TimestampProto clock_Now with
    | inl _ =>
        throw (NewFlyteAdminErrorf Internal
                 "Failed to serialize CreatedAt: %v when creating task: %+v")
    | inr createdAt => ret createdAt
    end in
  let* taskDigest := try (GetTaskDigest compiledTask) in
  (* See if a task exists and confirm whether it's an identical task or one
     that with a separate definition. *)
  fun d =>
    match GetTaskModel d (tt_Id (ts_Template (tcr_Spec request))) with
    | inr existingTask =>
        if bytes_Equal taskDigest (models.t_Digest existingTask) then
          (inl (NewFlyteAdminErrorf AlreadyExists
                  "identical task already exists with id %s"), d)
        else
          (inl (NewFlyteAdminErrorf InvalidArgument
                  "task with different structure already exists with id %v"), d)
    | inl _ =>
        (let* taskModel :=
           try (CreateTaskModel finalizedRequest
                  {| tc_CompiledTask := compiledTask; tc_CreatedAt := createdAt |}
                  taskDigest) in
         let* _ := TaskRepo_Create taskModel in
         ret Build_TaskCreateResponse) d
    end.

Definition ListTasks (request : ResourceListRequest) : M DB TaskList :=
  (* Check required fields *)
  let* _ := check (ValidateResourceListRequest request) in
  let spec :=
    {| fs_Project := nid_Project (rlr_Id request);
       fs_Domain := nid_Domain (rlr_Id request);
       fs_Name := nid_Name (rlr_Id request);
       fs_RequestFilters := rlr_Filters request |} in
  let* filters := try (GetDbFilters spec Entity_Task) in
  let* sortParameter :=
    match rlr_SortBy request with
    | Some sortBy => let* p := try (NewSortParameter sortBy) in ret (Some p)
    | None => ret None
    end in
  let* offset :=
    match ValidateToken (rlr_Token request) with
    | inl _ =>
        throw (NewFlyteAdminErrorf InvalidArgument "invalid pagination token %s for ListTasks")
    | inr offset => ret offset
    end in
  (* And finally, query the database *)
  let listTasksInput :=
    {| Limit := Z.of_N (rlr_Limit request);
       Offset := offset;
       InlineFilters := filters;
       MapFilters := [];
       SortParameter_ := sortParameter |} in
  let* output := reads (fun d => TaskRepo_List d listTasksInput) in
  let* taskList := try (FromTaskModels (out_Tasks output)) in
  let token := pageToken (len taskList) (rlr_Limit request) offset in
  ret {| Tasks_ := taskList; tl_Token := token |}.

End TaskManager.

(** ** Notification processor ([async/notifications/implementations]) *)

(** What [encoding/json] decodes into an [interface{}]. *)
#[local] Unset Elimination Schemes.
Inductive JSONValue :=
| JSON_null
| JSON_bool (b : bool)
| JSON_number (digits : string)
| JSON_string (s : string)
| JSON_array (elements : list JSONValue)
| JSON_object (members : list (string * JSONValue)).
#[local] Set Elimination Schemes.

(** [pubsub.SubscriberMessage]: the payload, and what [Done()] answers. *)
Record SubscriberMessage := {
  Message : bytes;
  Done : option error }.

#[global] Instance SubscriberMessage_eq_dec : EqDecision SubscriberMessage.
Proof. solve_decision. Defined.

(** [pubsub.Subscriber]: the messages [Start()]'s channel delivers before it
    closes, and what [Err()] reports afterwards. *)
Record Subscriber := {
  Start : list SubscriberMessage;
  Err : option error }.

(** [interfaces.Emailer] *)
Class Emailer := {
  SendEmail : EmailMessage -> option error }.

(** [encoding/json] and [encoding/base64] *)
Class encoding := {
  json_Unmarshal : bytes -> error + gmap string JSONValue;
  base64_DecodeString : string -> error + bytes }.

Record processorSystemMetrics := {
  MessageTotal : nat;
  MessageDoneError : nat;
  MessageDecodingError : nat;
  MessageDataError : nat;
  MessageProcessorError : nat;
  MessageSuccess : nat;
  ChannelClosedError : nat }.

(** The processor's effects: the messages [Done()] was called on and the
    e-mails handed to the emailer, oldest first, and the counters. *)
Record Processor := {
  acknowledged : list SubscriberMessage;
  emailed : list EmailMessage;
  systemMetrics : processorSystemMetrics }.

Inductive counter :=
| cMessageTotal | cMessageDoneError | cMessageDecodingError | cMessageDataError
| cMessageProcessorError | cMessageSuccess | cChannelClosedError.

(** [p.systemMetrics.<counter>.Inc()] *)
Definition Inc (c : counter) (p : Processor) : Processor :=
  let m := systemMetrics p in
  let bump (c' : counter) (n : nat) : nat :=
    match c, c' with
    | cMessageTotal, cMessageTotal
    | cMessageDoneError, cMessageDoneError
    | cMessageDecodingError, cMessageDecodingError
    | cMessageDataError, cMessageDataError
    | cMessageProcessorError, cMessageProcessorError
    | cMessageSuccess, cMessageSuccess
    | cChannelClosedError, cChannelClosedError => S n
    | _, _ => n
    end in
  {| acknowledged := acknowledged p;
     emailed := emailed p;
     systemMetrics :=
       {| MessageTotal := bump cMessageTotal (MessageTotal m);
          MessageDoneError := bump cMessageDoneError (MessageDoneError m);
          MessageDecodingError := bump cMessageDecodingError (MessageDecodingError m);
          MessageDataError := bump cMessageDataError (MessageDataError m);
          MessageProcessorError := bump cMessageProcessorError (MessageProcessorError m);
          MessageSuccess := bump cMessageSuccess (MessageSuccess m);
          ChannelClosedError := bump cChannelClosedError (ChannelClosedError m) |} |}.

(** [markMessageDone]: calls [message.Done()] and counts its failure. *)
Definition markMessageDone (message : SubscriberMessage) (p : Processor) : Processor :=
  let p :=
    {| acknowledged := (acknowledged p ++ [message])%list;
       emailed := emailed p;
       systemMetrics := systemMetrics p |} in
  match Done message with
  | Some _ => Inc cMessageDoneError p
  | None => p
  end.

Section Processor.

Context {Mail : Emailer} {Enc : encoding} {Pb : proto}.

(** [p.email.SendEmail] and the counting of its outcome. *)
Definition sendEmail (emailMessage : EmailMessage) (p : Processor) : Processor :=
  let p :=
    {| acknowledged := acknowledged p;
       emailed := (emailed p ++ [emailMessage])%list;
       systemMetrics := systemMetrics p |} in
  match SendEmail emailMessage with
  | Some _ => Inc cMessageProcessorError p
  | None => Inc cMessageSuccess p
  end.

(** One iteration of the loop of [StartProcessing]. *)
Definition processMessage (msg : SubscriberMessage) (p : Processor) : Processor :=
  let p := Inc cMessageTotal p in
  match json_Unmarshal (Message msg) with
  | inl _ => markMessageDone msg (Inc cMessageDecodingError p)
  | inr snsJSONFormat =>
      match snsJSONFormat !! "Message" with
      | None => markMessageDone msg (Inc cMessageDataError p)
      | Some value =>
          match value with
          | JSON_string valueString =>
              (* The Publish method for SNS encodes the notification using
                 Base64. Do the inverse to retrieve the notification. *)
              match base64_DecodeString valueString with
              | inl _ => markMessageDone msg (Inc cMessageDecodingError p)
              | inr notificationBytes =>
                  match Unmarshal_EmailMessage notificationBytes with
                  | inl _ => markMessageDone msg (Inc cMessageDecodingError p)
                  | inr emailMessage => markMessageDone msg (sendEmail emailMessage p)
                  end
              end
          | _ => markMessageDone msg (Inc cMessageDataError p)
          end
      end
  end.

(** [StartProcessing]: ranges over the subscriber's channel until it closes,
    then returns the subscriber's error, if any. *)
Definition StartProcessing (sub : Subscriber) (p : Processor) : option error * Processor :=
  let p := fold_left (fun p msg => processMessage msg p) (Start sub) p in
  match Err sub with
  | Some err => (Some err, Inc cChannelClosedError p)
  | None => (None, p)
  end.

End Processor.

(** ** What the notification fan-out is expected to publish

    The reading of the notification rules that [publishNotifications] is
    compared with: the entries that list the phase survive; each surviving
    entry of a known channel type stands for one e-mail to its recipients. *)

(** The recipients an entry is configured with, whatever its channel type. *)
Definition recipients (notification : Notification) : list string :=
  match Type_ notification with
  | Notification_Email email => email_RecipientsEmail email
  | Notification_PagerDuty pagerDuty => pagerDuty_RecipientsEmail pagerDuty
  | Notification_Slack slack => slack_RecipientsEmail slack
  | Notification_unset => []
  end.

(** An entry of one of the three known channel types. *)
Definition supported (notification : Notification) : bool :=
  match Type_ notification with
  | Notification_unset => false
  | _ => true
  end.

(** The entries whose trigger phases include [phase], in order. *)
Definition surviving (phase : WorkflowExecution_Phase) (entries : list Notification)
  : list Notification :=
  filter (fun notification => phase ∈ Phases notification) entries.

(** The entries before the first one of an unknown channel type. *)
Fixpoint supportedPrefix (entries : list Notification) : list Notification :=
  match entries with
  | [] => []
  | notification :: rest =>
      if supported notification then notification :: supportedPrefix rest else []
  end.

Section ExpectedNotifications.

Context {Pub : Publisher} {Cfg : Configuration} {Ntf : notifications}.

(** The e-mail-shaped message of an entry. *)
Definition messageOf (request : WorkflowExecutionEventRequest) (execution : Execution)
    (notification : Notification) : string * EmailMessage :=
  (EmailNotification_MessageName,
   {| RecipientsEmail := recipients notification;
      SenderEmail := NotificationsEmailer_Sender;
      SubjectLine := renderSubject request execution;
      Body := renderBody request execution |}).

(** How many of the messages the publisher refuses. *)
Definition refused (messages : list (string * EmailMessage)) : nat :=
  length (List.filter (fun m => bool_decide (is_Some (Publish (fst m) (snd m)))) messages).

End ExpectedNotifications.

(** ** Termination, as seen by the executor and the repository *)

(** The abort request [TerminateExecution] sends for a stored execution. *)
Definition abortInput (request : ExecutionTerminateRequest)
    (executionModel : models.Execution) : TerminateWorkflowInput :=
  {| twi_ExecutionID := etr_Id request; twi_Cluster := models.Cluster executionModel |}.

(** The repository look-up [TerminateExecution] starts with. *)
Definition storedExecution {DB} {Repo : RepositoryInterface DB}
    (request : ExecutionTerminateRequest) (d : DB) : error + models.Execution :=
  ExecutionRepo_Get d
    {| gri_Project := wei_Project (etr_Id request);
       gri_Domain := wei_Domain (etr_Id request);
       gri_Name := wei_Name (etr_Id request) |}.

(** ** The pagination contract

    What a list response owes its caller: for a page of [n] items asked with
    limit [limit] from offset [offset], the token is set exactly when the
    page is full, and then it is the decimal rendering of [offset + n]
    (computed in Go's [int]); otherwise it is empty. *)
Definition continuationToken (token : string) (n : Z) (limit : N) (offset : Z) : Prop :=
  (token <> "" <-> n = Z.of_N limit) /\
  (n = Z.of_N limit -> token = Itoa (int_add offset n)) /\
  (n = Z.of_N limit -> (MinInt <= offset + n <= MaxInt)%Z -> token = Itoa (offset + n)) /\
  (n <> Z.of_N limit -> token = "").

(** The contract for a page of node executions read from the repository
    [d] with limit [limit] and request token [requestToken].  The items of
    the response are the rows the repository returned for the one query, as
    the transformer renders them; the token is computed from the rows, and
    so obeys the contract on the items when the transformer renders as many
    items as it is given rows. *)
Definition nodePageContract {DB} {Repo : RepositoryInterface DB} {Val : validation DB}
    {Trn : transformers}
    (limit : N) (requestToken : string) (d : DB) (response : NodeExecutionList) : Prop :=
  exists offset input output,
    ValidateToken requestToken = inr offset /\
    Limit input = Z.of_N limit /\ Offset input = offset /\
    NodeExecutionRepo_List d input = inr output /\
    FromNodeExecutionModels (out_NodeExecutions output) = inr (NodeExecutions response) /\
    continuationToken (nl_Token response) (len (out_NodeExecutions output)) limit offset /\
    (length (NodeExecutions response) = length (out_NodeExecutions output) ->
     continuationToken (nl_Token response) (len (NodeExecutions response)) limit offset).

(** ** How a received message fares

    The stages of one iteration of the processor's loop, as the outcome the
    message ends with. *)
Inductive outcome :=
| JSONDecodeFailed
| MessageFieldMissing
| MessageFieldNotString
| Base64DecodeFailed
| PayloadDecodeFailed
| EmailFailed (emailMessage : EmailMessage)
| EmailSent (emailMessage : EmailMessage).

Section Outcome.

Context {Mail : Emailer} {Enc : encoding} {Pb : proto}.

Definition outcomeOf (msg : SubscriberMessage) : outcome :=
  match json_Unmarshal (Message msg) with
  | inl _ => JSONDecodeFailed
  | inr snsJSONFormat =>
      match snsJSONFormat !! "Message" with
      | None => MessageFieldMissing
      | Some (JSON_string valueString) =>
          match base64_DecodeString valueString with
          | inl _ => Base64DecodeFailed
          | inr notificationBytes =>
              match Unmarshal_EmailMessage notificationBytes with
              | inl _ => PayloadDecodeFailed
              | inr emailMessage =>
                  match SendEmail emailMessage with
                  | Some _ => EmailFailed emailMessage
                  | None => EmailSent emailMessage
                  end
              end
          end
      | Some _ => MessageFieldNotString
      end
  end.

(** The e-mail handed to the emailer, if the message got that far. *)
Definition attempted (o : outcome) : list EmailMessage :=
  match o with
  | EmailFailed emailMessage | EmailSent emailMessage => [emailMessage]
  | _ => []
  end.

End Outcome.

(** ** In-memory collaborators

    One instance of every interface, used to run the managers on concrete
    requests. *)

Module InMemory.

(** Modelled from the spec: the repository implementation is not among the
    manager sources.  The spec's Repository abstraction has Create, Get,
    GetByID, Update and List for workflow executions and Create, Get, Update
    and List for node executions, keyed by (project, domain, name) and by
    (workflow execution identity, node id); events are append-only. *)
Record DB := mkDB {
  executions : gmap (string * string * string) models.Execution;
  executionEvents : list models.ExecutionEvent;
  nodeExecutions : gmap (string * (string * string * string)) models.NodeExecution;
  nodeExecutionEvents : list models.NodeExecutionEvent;
  taskExecutions : list (TaskExecutionIdentifier * models.TaskExecution);
  tasks : gmap (string * string * string * string) models.Task;
  launchPlans : gmap (string * string * string * string) models.LaunchPlan;
  workflows : gmap (string * string * string * string) Workflow }.

Definition executionKey (id : WorkflowExecutionIdentifier) : string * string * string :=
  (wei_Project id, wei_Domain id, wei_Name id).

Definition nodeExecutionKey (id : NodeExecutionIdentifier)
  : string * (string * string * string) :=
  (nei_NodeId id, executionKey (nei_ExecutionId id)).

Definition taskKey (id : Identifier) : string * string * string * string :=
  (id_Project id, id_Domain id, id_Name id, id_Version id).

Definition notFound {A} : error + A := inl (NewFlyteAdminErrorf NotFound "entry not found").

Definition page {A} (input : ListResourceInput) (rows : list A) : list A :=
  take (Z.to_nat (Limit input)) (drop (Z.to_nat (Offset input)) rows).

Definition setExecutions (d : DB) (m : gmap (string * string * string) models.Execution)
    (events : list models.ExecutionEvent) : DB :=
  mkDB m events (nodeExecutions d) (nodeExecutionEvents d) (taskExecutions d) (tasks d)
    (launchPlans d) (workflows d).

Definition setNodeExecutions (d : DB)
    (m : gmap (string * (string * string * string)) models.NodeExecution)
    (events : list models.NodeExecutionEvent) : DB :=
  mkDB (executions d) (executionEvents d) m events (taskExecutions d) (tasks d)
    (launchPlans d) (workflows d).

#[export] Instance repository : RepositoryInterface DB := {
  ExecutionRepo_Create model := fun d =>
    match executions d !! executionKey (models.ExecutionKey model) with
    | Some _ => (inl (NewFlyteAdminErrorf AlreadyExists "execution already exists"), d)
    | None =>
        (inr tt,
         setExecutions d (<[executionKey (models.ExecutionKey model) := model]> (executions d))
           (executionEvents d))
    end;
  ExecutionRepo_Get d input :=
    match executions d !! (gri_Project input, gri_Domain input, gri_Name input) with
    | Some model => inr model
    | None => notFound
    end;
  ExecutionRepo_GetByID d id :=
    match List.find (fun m => N.eqb (models.ID m) id) (snd <$> map_to_list (executions d)) with
    | Some model => inr model
    | None => notFound
    end;
  ExecutionRepo_Update event model := fun d =>
    (inr tt,
     setExecutions d (<[executionKey (models.ExecutionKey model) := model]> (executions d))
       (executionEvents d ++ [event]));
  ExecutionRepo_UpdateExecution model := fun d =>
    (inr tt,
     setExecutions d (<[executionKey (models.ExecutionKey model) := model]> (executions d))
       (executionEvents d));
  ExecutionRepo_List d input :=
    inr {| out_Executions := page input (snd <$> map_to_list (executions d)) |};
  NodeExecutionRepo_Create event model := fun d =>
    match nodeExecutions d !! nodeExecutionKey (models.ne_NodeExecutionKey model) with
    | Some _ => (inl (NewFlyteAdminErrorf AlreadyExists "node execution already exists"), d)
    | None =>
        (inr tt,
         setNodeExecutions d
           (<[nodeExecutionKey (models.ne_NodeExecutionKey model) := model]> (nodeExecutions d))
           (nodeExecutionEvents d ++ [event]))
    end;
  NodeExecutionRepo_Get d input :=
    match nodeExecutions d !! nodeExecutionKey (gni_NodeExecutionIdentifier input) with
    | Some model => inr model
    | None => notFound
    end;
  NodeExecutionRepo_Update event model := fun d =>
    (inr tt,
     setNodeExecutions d
       (<[nodeExecutionKey (models.ne_NodeExecutionKey model) := model]> (nodeExecutions d))
       (nodeExecutionEvents d ++ [event]));
  NodeExecutionRepo_List d input :=
    inr {| out_NodeExecutions := page input (snd <$> map_to_list (nodeExecutions d)) |};
  TaskRepo_Create model := fun d =>
    (inr tt,
     mkDB (executions d) (executionEvents d) (nodeExecutions d) (nodeExecutionEvents d)
       (taskExecutions d) (<[taskKey (models.t_TaskKey model) := model]> (tasks d))
       (launchPlans d) (workflows d));
  TaskRepo_List d input :=
    inr {| out_Tasks := page input (snd <$> map_to_list (tasks d)) |} }.

(** Modelled from the spec: the content store is a key/value store whose
    references are hierarchical, deterministic paths derived from the
    execution identity and a fixed key name. *)
Definition Store := gmap string LiteralMap.

#[export] Instance dataStore : DataStore Store := {
  GetBaseContainerFQN := "s3://flyte";
  ConstructReference base parts :=
    inr (fold_left (fun acc part => acc +:+ "/" +:+ part) parts base);
  WriteProtobuf reference literalMap := fun st => (inr tt, <[reference := literalMap]> st);
  ReadProtobuf st reference :=
    match st !! reference with
    | Some literalMap => inr literalMap
    | None => inl (GoError "not found")
    end }.

#[export] Instance executor : Executor := {
  ExecuteWorkflow _ := inr {| ei_Cluster := "cluster-1" |};
  TerminateWorkflowExecution _ := None }.

(** An executor whose abort call fails. *)
Definition unreachableExecutor : Executor := {|
  ExecuteWorkflow _ := inl (GoError "connection refused");
  TerminateWorkflowExecution _ := Some (GoError "connection refused") |}.

#[export] Instance publisher : Publisher := {
  Publish _ _ := None }.

#[export] Instance remoteURL : RemoteURLInterface := {
  urlData_Get uri := inr {| Url := "https://signed.example.com/" +:+ uri; Bytes := 0%Z |} }.

#[export] Instance compiler : Compiler := {
  CompileTask template := inr {| Template := template |} }.

#[export] Instance configuration : Configuration := {
  GetMaxLabelEntries := 0%Z;
  GetMaxAnnotationEntries := 0%Z;
  NotificationsEmailer_Sender := "flyte-notifications@example.com";
  clock_Now := 0%Z }.

(** The sample configuration's first execution queue. *)
#[export] Instance queueAllocator : QueueAllocator := {
  GetQueue _ := {| PrimaryQueue := "gpu_primary"; DynamicQueue := "gpu_dynamic" |} }.

#[export] Instance sharedKeys : shared := {
  shared_Metadata := "metadata";
  shared_Inputs := "inputs";
  shared_UserInputs := "user_inputs";
  shared_ParentTaskExecutionID := "parent_task_execution_id" }.

(** Terminal phases.

    Modelled from the spec: package [common] is not among the manager
    sources.  The glossary lists succeeded, failed, aborted and timed-out as
    the terminal phases. *)
#[export] Instance commonFns : common := {
  IsExecutionTerminal phase :=
    match phase with
    | WorkflowExecution_SUCCEEDED | WorkflowExecution_FAILED
    | WorkflowExecution_ABORTED | WorkflowExecution_TIMED_OUT => true
    | _ => false
    end;
  IsNodeExecutionTerminal phase :=
    match phase with
    | NodeExecution_SUCCEEDED | NodeExecution_FAILED
    | NodeExecution_ABORTED | NodeExecution_TIMED_OUT => true
    | _ => false
    end;
  NewSortParameter sort := inr {| sortParameter_Clause := sort_Key sort |};
  NewSingleValueFilter entity expression field value :=
    inr {| filter_Entity := entity; filter_Field := field;
           filter_Expression := expression; filter_Value := "" |} }.

#[export] Instance validators : validation DB := {
  ValidateExecutionRequest _ _ := None;
  CheckAndFetchInputsForExecution userInputs _ _ := inr userInputs;
  SetDefaults task := task;
  ValidateCreateWorkflowEventRequest _ := None;
  ValidateWorkflowExecutionIdentifier _ := None;
  ValidateResourceListRequest _ := None;
  ValidateNodeExecutionListRequest _ := None;
  ValidateNodeExecutionForTaskListRequest _ := None;
  ValidateToken token :=
    if String.eqb token "" then inr 0%Z
    else
      match NilZero.uint_of_string token with
      | Some offset => inr (Z.of_uint offset)
      | None => inl (GoError "strconv.Atoi: invalid syntax")
      end;
  ValidateTask _ _ := None }.

#[export] Instance utilFns : util DB Store := {
  GetLaunchPlanModel d id :=
    match launchPlans d !! taskKey id with Some m => inr m | None => notFound end;
  GetWorkflow d _ id :=
    match workflows d !! taskKey id with Some wf => inr wf | None => notFound end;
  GetExecutionName request := ecr_Name request;
  GetExecutionModel d id :=
    ExecutionRepo_Get d
      {| gri_Project := wei_Project id; gri_Domain := wei_Domain id;
         gri_Name := wei_Name id |};
  GetNodeExecutionModel d id :=
    NodeExecutionRepo_Get d {| gni_NodeExecutionIdentifier := id |};
  GetTaskExecutionModel d id := notFound;
  GetTaskModel d id :=
    match id with
    | Some id => match tasks d !! taskKey id with Some t => inr t | None => notFound end
    | None => notFound
    end;
  GetTaskDigest compiledTask :=
    inr (String.list_byte_of_string (tt_Type (Template compiledTask)));
  GetDbFilters _ _ := inr [];
  AddRequestFilters _ _ filters := inr filters;
  GetWorkflowExecutionIdentifierFilters _ := inr [] }.

Definition emptySpec : ExecutionSpec :=
  {| spec_LaunchPlan := {| id_Project := ""; id_Domain := ""; id_Name := ""; id_Version := "" |};
     spec_Inputs := None; spec_Metadata := None;
     spec_NotificationOverrides := NotificationOverrides_unset;
     spec_Labels := None; spec_Annotations := None |}.

Definition setPhase (m : models.Execution) (phase : string) : models.Execution :=
  {| models.ID := models.ID m; models.ExecutionKey := models.ExecutionKey m;
     models.LaunchPlanID := models.LaunchPlanID m; models.WorkflowID := models.WorkflowID m;
     models.Phase := phase; models.Closure := models.Closure m;
     models.Spec := models.Spec m; models.Mode_ := models.Mode_ m;
     models.SourceExecutionID := models.SourceExecutionID m;
     models.ParentNodeExecutionID := models.ParentNodeExecutionID m;
     models.Cluster := models.Cluster m; models.InputsURI := models.InputsURI m;
     models.UserInputsURI := models.UserInputsURI m; models.AbortCause := models.AbortCause m;
     models.ExecutionCreatedAt := models.ExecutionCreatedAt m |}.

(** Transformers that decode every stored closure to the notification list
    [notificationList], and a stored launch plan to the entry of
    [launchPlanTable] for its id. *)
Definition transformersWith (notificationList : list Notification)
    (launchPlanTable : list (N * LaunchPlan)) : transformers := {|
  FromLaunchPlanModel m :=
    match List.find (fun entry => N.eqb (fst entry) (models.lp_ID m)) launchPlanTable with
    | Some entry => inr (snd entry)
    | None => inl (GoError "cannot unmarshal launch plan")
    end;
  CreateExecutionModel input :=
    inr {| models.ID := 0; models.ExecutionKey := cem_WorkflowExecutionID input;
           models.LaunchPlanID := cem_LaunchPlanID input;
           models.WorkflowID := cem_WorkflowID input;
           models.Phase := WorkflowExecution_Phase_String (cem_Phase input);
           models.Closure := []; models.Spec := [];
           models.Mode_ :=
             match spec_Metadata (cem_RequestSpec input) with
             | Some metadata => Mode metadata
             | None => ExecutionMetadata_MANUAL
             end;
           models.SourceExecutionID := 0;
           models.ParentNodeExecutionID := cem_ParentNodeExecutionID input;
           models.Cluster := cem_Cluster input;
           models.InputsURI := cem_InputsURI input;
           models.UserInputsURI := cem_UserInputsURI input;
           models.AbortCause := "";
           models.ExecutionCreatedAt := Some (cem_CreatedAt input) |};
  FromExecutionModel m :=
    inr {| exec_Id := models.ExecutionKey m; exec_Spec := emptySpec;
           exec_Closure :=
             {| closure_Outputs := None; closure_ComputedInputs := None;
                closure_Phase := WorkflowExecution_Phase_value (models.Phase m);
                closure_Notifications := notificationList |} |};
  FromExecutionModelWithReferenceExecution m _ :=
    inr {| exec_Id := models.ExecutionKey m; exec_Spec := emptySpec;
           exec_Closure :=
             {| closure_Outputs := None; closure_ComputedInputs := None;
                closure_Phase := WorkflowExecution_Phase_value (models.Phase m);
                closure_Notifications := notificationList |} |};
  GetExecutionIdentifier m := models.ExecutionKey m;
  FromExecutionModels ms :=
    inr ((fun m =>
            {| exec_Id := models.ExecutionKey m; exec_Spec := emptySpec;
               exec_Closure :=
                 {| closure_Outputs := None; closure_ComputedInputs := None;
                    closure_Phase := WorkflowExecution_Phase_value (models.Phase m);
                    closure_Notifications := notificationList |} |}) <$> ms);
  UpdateExecutionModelState m request :=
    inr (setPhase m (WorkflowExecution_Phase_String (wev_Phase (wer_Event request))));
  CreateExecutionEventModel request :=
    inr {| models.ee_RequestID := wer_RequestId request;
           models.ee_ExecutionKey := wev_ExecutionId (wer_Event request);
           models.ee_OccurredAt := default 0%Z (wev_OccurredAt (wer_Event request));
           models.ee_Phase := WorkflowExecution_Phase_String (wev_Phase (wer_Event request)) |};
  CreateNodeExecutionModel input :=
    inr {| models.ne_ID := 0%N;
           models.ne_NodeExecutionKey := nev_Id (ner_Event (tnm_Request input));
           models.ne_Phase :=
             NodeExecution_Phase_String (nev_Phase (ner_Event (tnm_Request input)));
           models.ne_InputURI := nev_InputUri (ner_Event (tnm_Request input));
           models.ne_Closure := [];
           models.ne_ParentTaskExecutionID := tnm_ParentTaskExecutionID input;
           models.ne_LaunchedExecution := None |};
  CreateNodeExecutionEventModel request :=
    inr {| models.nee_RequestID := ner_RequestId request;
           models.nee_NodeExecutionKey := nev_Id (ner_Event request);
           models.nee_OccurredAt := default 0%Z (nev_OccurredAt (ner_Event request));
           models.nee_Phase := NodeExecution_Phase_String (nev_Phase (ner_Event request)) |};
  UpdateNodeExecutionModel request m child :=
    inr {| models.ne_ID := models.ne_ID m;
           models.ne_NodeExecutionKey := models.ne_NodeExecutionKey m;
           models.ne_Phase := NodeExecution_Phase_String (nev_Phase (ner_Event request));
           models.ne_InputURI := models.ne_InputURI m;
           models.ne_Closure := models.ne_Closure m;
           models.ne_ParentTaskExecutionID := models.ne_ParentTaskExecutionID m;
           models.ne_LaunchedExecution := child |};
  FromNodeExecutionModels ms :=
    inr ((fun m =>
            {| nexec_Id := models.ne_NodeExecutionKey m;
               nexec_InputUri := models.ne_InputURI m;
               nexec_Closure :=
                 {| nclosure_OutputUri := "";
                    nclosure_Phase := NodeExecution_Phase_value (models.ne_Phase m) |} |})
           <$> ms);
  CreateTaskModel request closure digest :=
    match tcr_Id request with
    | Some id =>
        inr {| models.t_ID := 0%N; models.t_TaskKey := id; models.t_Closure := [];
               models.t_Digest := digest |}
    | None => inl (GoError "missing identifier")
    end;
  FromTaskModels ms :=
    inr ((fun m =>
            {| task_Id := models.t_TaskKey m;
               task_Closure :=
                 {| tc_CompiledTask :=
                      {| Template := {| tt_Id := Some (models.t_TaskKey m); tt_Type := "";
                                        tt_Target := None |} |};
                    tc_CreatedAt := 0%Z |} |}) <$> ms) |}.

#[export] Instance transformersFns : transformers := transformersWith [] [].

#[export] Instance renderer : notifications := {
  renderSubject request execution :=
    "Notice: Execution has " +:+ WorkflowExecution_Phase_String (wev_Phase (wer_Event request));
  renderBody request execution :=
    "Execution has " +:+ WorkflowExecution_Phase_String (wev_Phase (wer_Event request)) }.

(** Protobuf decoding that accepts every payload as an empty message. *)
#[export] Instance protoFns : proto := {
  Unmarshal_ExecutionClosure _ :=
    inr {| closure_Outputs := None; closure_ComputedInputs := None;
           closure_Phase := WorkflowExecution_UNDEFINED; closure_Notifications := [] |};
  Unmarshal_ExecutionSpec _ := inr emptySpec;
  Unmarshal_EmailMessage _ :=
    inr {| RecipientsEmail := []; SenderEmail := ""; SubjectLine := ""; Body := "" |};
  TimestampProto t := inr t }.

Definition emptyDB : DB := mkDB ∅ [] ∅ [] [] ∅ ∅ ∅.

Definition emptyWorld : World DB Store := mkWorld emptyDB ∅ [] [] [] 0.

End InMemory.

(** ** Sample data *)

Module Scenario.

Definition workflowId : Identifier :=
  {| id_Project := "p"; id_Domain := "d"; id_Name := "wf"; id_Version := "v1" |}.

Definition gpuContainer : Container :=
  {| Image := "trainer:1"; Command := ["train"]; Args := []; Env := [];
     Config := [{| kv_Key := "tag"; kv_Value := "gpu" |}] |}.

Definition containerTask : CompiledTask :=
  {| Template := {| tt_Id := Some workflowId; tt_Type := "container";
                    tt_Target := Some gpuContainer |} |}.

Definition sparkTask : CompiledTask :=
  {| Template := {| tt_Id := None; tt_Type := "spark"; tt_Target := None |} |}.

Definition compiledWorkflow : CompiledWorkflowClosure :=
  {| Primary := "wf"; Tasks := [containerTask; sparkTask] |}.

Definition executionId : WorkflowExecutionIdentifier :=
  {| wei_Project := "p"; wei_Domain := "d"; wei_Name := "n" |}.

(** The stored execution p/d/n in the given phase. *)
Definition execution (phase : string) (inputsURI : string) : models.Execution :=
  {| models.ID := 1; models.ExecutionKey := executionId;
     models.LaunchPlanID := 1; models.WorkflowID := 1;
     models.Phase := phase; models.Closure := []; models.Spec := [];
     models.Mode_ := ExecutionMetadata_MANUAL;
     models.SourceExecutionID := 0; models.ParentNodeExecutionID := 0;
     models.Cluster := "cluster-1"; models.InputsURI := inputsURI;
     models.UserInputsURI := ""; models.AbortCause := "";
     models.ExecutionCreatedAt := Some 0%Z |}.

Definition nodeId : NodeExecutionIdentifier :=
  {| nei_NodeId := "node-1"; nei_ExecutionId := executionId |}.

Definition nodeExecution (phase : string) : models.NodeExecution :=
  {| models.ne_ID := 1; models.ne_NodeExecutionKey := nodeId;
     models.ne_Phase := phase; models.ne_InputURI := "s3://flyte/in";
     models.ne_Closure := []; models.ne_ParentTaskExecutionID := 0;
     models.ne_LaunchedExecution := None |}.

(** A repository holding execution p/d/n and its node node-1. *)
Definition store (phase nodePhase inputsURI : string) : InMemory.DB :=
  InMemory.mkDB
    {[ InMemory.executionKey executionId := execution phase inputsURI ]} []
    {[ InMemory.nodeExecutionKey nodeId := nodeExecution nodePhase ]} []
    [] ∅ ∅ ∅.

Definition world (phase : string) : World InMemory.DB InMemory.Store :=
  mkWorld (store phase phase "s3://flyte/metadata/p/d/n/inputs") ∅ [] [] [] 0.

Definition event (phase : WorkflowExecution_Phase) : WorkflowExecutionEventRequest :=
  {| wer_RequestId := "request-1";
     wer_Event := {| wev_ExecutionId := executionId; wev_ProducerId := "propeller";
                     wev_Phase := phase; wev_OccurredAt := Some 1%Z |} |}.

Definition nodeEvent (phase : NodeExecution_Phase) : NodeExecutionEventRequest :=
  {| ner_RequestId := "request-1";
     ner_Event := {| nev_Id := nodeId; nev_ProducerId := "propeller";
                     nev_Phase := phase; nev_OccurredAt := Some 1%Z;
                     nev_InputUri := "s3://flyte/in";
                     nev_ParentTaskMetadata := None;
                     nev_WorkflowNodeMetadata := None |} |}.

(** A launch plan for the workflow, notifying a@x.com by chat. *)
Definition launchPlanId : Identifier :=
  {| id_Project := "p"; id_Domain := "d"; id_Name := "lp"; id_Version := "v1" |}.

Definition launchPlanModel : models.LaunchPlan :=
  {| models.lp_ID := 7; models.lp_WorkflowID := 3; models.lp_Spec := [];
     models.lp_Closure := [] |}.

Definition pagerEntry : Notification :=
  {| Phases := [WorkflowExecution_FAILED];
     Type_ := Notification_PagerDuty {| pagerDuty_RecipientsEmail := ["oncall@x.com"] |} |}.

Definition emailEntry : Notification :=
  {| Phases := [WorkflowExecution_SUCCEEDED];
     Type_ := Notification_Email {| email_RecipientsEmail := ["me@x.com"] |} |}.

Definition launchPlan : LaunchPlan :=
  {| lp_Id := launchPlanId;
     lp_Spec :=
       {| lps_WorkflowId := workflowId;
          lps_EntityMetadata :=
            Some {| lpm_Schedule := None; lpm_Notifications := [pagerEntry] |};
          lps_FixedInputs := None; lps_Labels := None; lps_Annotations := None |};
     lp_Closure := {| lpc_ExpectedInputs := ∅ |} |}.

Definition workflow : Workflow :=
  {| wf_Id := workflowId; wf_Closure := {| wc_CompiledWorkflow := compiledWorkflow |} |}.

(** A repository that knows the launch plan and its workflow, and no
    execution yet. *)
Definition registry : World InMemory.DB InMemory.Store :=
  mkWorld
    (InMemory.mkDB ∅ [] ∅ [] [] ∅
       {[ InMemory.taskKey launchPlanId := launchPlanModel ]}
       {[ InMemory.taskKey workflowId := workflow ]})
    ∅ [] [] [] 0.

(** A request to run the launch plan as p/d/n with the given overrides. *)
Definition createRequest (overrides : NotificationOverrides) : ExecutionCreateRequest :=
  {| ecr_Project := "p"; ecr_Domain := "d"; ecr_Name := "n";
     ecr_Spec :=
       {| spec_LaunchPlan := launchPlanId; spec_Inputs := None; spec_Metadata := None;
          spec_NotificationOverrides := overrides;
          spec_Labels := None; spec_Annotations := None |};
     ecr_Inputs := None |}.

(** List requests over project p, domain d. *)
Definition listRequest (limit : N) (token : string) : ResourceListRequest :=
  {| rlr_Id := {| nid_Project := "p"; nid_Domain := "d"; nid_Name := "" |};
     rlr_Limit := limit; rlr_Token := token; rlr_Filters := ""; rlr_SortBy := None |}.

(** A stored task, and a repository holding it. *)
Definition taskId : Identifier :=
  {| id_Project := "p"; id_Domain := "d"; id_Name := "t"; id_Version := "v1" |}.

Definition taskModel : models.Task :=
  {| models.t_ID := 1; models.t_TaskKey := taskId; models.t_Closure := [];
     models.t_Digest := String.list_byte_of_string "container" |}.

Definition taskStore : InMemory.DB :=
  InMemory.mkDB ∅ [] ∅ [] [] {[ InMemory.taskKey taskId := taskModel ]} ∅ ∅.

(** A world whose execution p/d/n predates offloaded inputs: its record
    carries no inputs reference. *)
Definition legacyWorld : World InMemory.DB InMemory.Store :=
  mkWorld (store "SUCCEEDED" "SUCCEEDED" "") ∅ [] [] [] 0.

(** A request to register a task of the given type under the stored id. *)
Definition taskRequest (taskType : string) : TaskCreateRequest :=
  {| tcr_Id := Some taskId;
     tcr_Spec :=
       {| ts_Template := {| tt_Id := None; tt_Type := taskType; tt_Target := None |} |} |}.

Definition terminateRequest : ExecutionTerminateRequest :=
  {| etr_Id := executionId; etr_Cause := "stopped by user" |}.

(** The notification settings of the spec's scenario: one chat entry for
    succeeded and failed, addressed to a@x.com. *)
Definition chatEntry : Notification :=
  {| Phases := [WorkflowExecution_SUCCEEDED; WorkflowExecution_FAILED];
     Type_ := Notification_Slack {| slack_RecipientsEmail := ["a@x.com"] |} |}.

Definition notificationList : list Notification := [chatEntry].

(** An entry of no channel type, triggered by failed. *)
Definition untypedEntry : Notification :=
  {| Phases := [WorkflowExecution_FAILED]; Type_ := Notification_unset |}.

End Scenario.

(** ** Accepted events, as seen by the repository *)

(** The world after the repository write of an accepted workflow event. *)
Definition afterUpdate {DB Store} {Repo : RepositoryInterface DB} (w : World DB Store)
    (event : models.ExecutionEvent) (model : models.Execution) : World DB Store :=
  mkWorld (snd (ExecutionRepo_Update event model (db w))) (storageClient w) (dispatched w)
    (aborted w) (published w) (PublishNotificationError w).

(** ** Frames

    [keeps f m]: running [m] leaves the component [f] of the state as it
    was, whether [m] fails or not. *)
Definition keeps {S A X} (f : S -> X) (m : M S A) : Prop :=
  forall s, f (snd (m s)) = f s.

(** The inputs a creation request is launched with: before flyteidl v0.15.0
    the inputs were held in the spec, and a request without inputs of its
    own falls back on them ([CreateExecution]). *)
Definition effectiveInputs (request : ExecutionCreateRequest) : option LiteralMap :=
  match ecr_Inputs request with
  | Some inputs =>
      if decide (size (Literals inputs) = 0) then spec_Inputs (ecr_Spec request)
      else Some inputs
  | None => spec_Inputs (ecr_Spec request)
  end.

(** The labels (or annotations) an execution is dispatched with: those of the
    request when it has any, else those of the launch plan. *)
Definition preferred (fromRequest fromLaunchPlan : option (gmap string string))
  : option (gmap string string) :=
  match fromRequest with
  | Some values => Some values
  | None => fromLaunchPlan
  end.

(** A map within the configured maximum; a maximum of 0 is no maximum. *)
Definition withinLimit (maxEntries : Z) (candidate : option (gmap string string)) : Prop :=
  maxEntries = 0%Z \/ (Z.of_nat (size (default ∅ candidate)) <= maxEntries)%Z.

(** A creation request with its inputs replaced. *)
Definition withInputs (request : ExecutionCreateRequest) (inputs : option LiteralMap)
  : ExecutionCreateRequest :=
  {| ecr_Project := ecr_Project request; ecr_Domain := ecr_Domain request;
     ecr_Name := ecr_Name request; ecr_Spec := ecr_Spec request;
     ecr_Inputs := inputs |}.

(** [m] hands at most one workflow to the executor. *)
Definition dispatchesAtMostOnce {DB Store A} (m : M (World DB Store) A) : Prop :=
  forall w,
    dispatched (snd (m w)) = dispatched w \/
    exists input, dispatched (snd (m w)) = (dispatched w ++ [input])%list.

(** ** A relaunch on the in-memory collaborators *)

Module Relaunch.

(** Transformers that decode every stored execution to the given spec, and
    are [base] otherwise. *)
Definition transformersFrom (spec : ExecutionSpec) (base : transformers) : transformers := {|
  FromLaunchPlanModel := FromLaunchPlanModel (transformers := base);
  CreateExecutionModel := CreateExecutionModel (transformers := base);
  FromExecutionModel m :=
    inr {| exec_Id := models.ExecutionKey m; exec_Spec := spec;
           exec_Closure :=
             {| closure_Outputs := None; closure_ComputedInputs := None;
                closure_Phase := WorkflowExecution_Phase_value (models.Phase m);
                closure_Notifications := [] |} |};
  FromExecutionModelWithReferenceExecution :=
    FromExecutionModelWithReferenceExecution (transformers := base);
  GetExecutionIdentifier := GetExecutionIdentifier (transformers := base);
  FromExecutionModels := FromExecutionModels (transformers := base);
  UpdateExecutionModelState := UpdateExecutionModelState (transformers := base);
  CreateExecutionEventModel := CreateExecutionEventModel (transformers := base);
  CreateNodeExecutionModel := CreateNodeExecutionModel (transformers := base);
  CreateNodeExecutionEventModel := CreateNodeExecutionEventModel (transformers := base);
  UpdateNodeExecutionModel := UpdateNodeExecutionModel (transformers := base);
  FromNodeExecutionModels := FromNodeExecutionModels (transformers := base);
  CreateTaskModel := CreateTaskModel (transformers := base);
  FromTaskModels := FromTaskModels (transformers := base) |}.

Definition transformersFns : transformers :=
  transformersFrom (ecr_Spec (Scenario.createRequest NotificationOverrides_unset))
    (InMemory.transformersWith [] [(7%N, Scenario.launchPlan)]).

(** The registry of the scenario, with execution p/d/n succeeded; its
    record predates the user-inputs reference. *)
Definition world : World InMemory.DB InMemory.Store :=
  mkWorld
    (InMemory.mkDB
       {[ InMemory.executionKey Scenario.executionId :=
            Scenario.execution "SUCCEEDED" "s3://flyte/metadata/p/d/n/inputs" ]}
       [] ∅ [] [] ∅
       {[ InMemory.taskKey Scenario.launchPlanId := Scenario.launchPlanModel ]}
       {[ InMemory.taskKey Scenario.workflowId := Scenario.workflow ]})
    ∅ [] [] [] 0.

Definition request : ExecutionRelaunchRequest :=
  {| err_Id := Scenario.executionId; err_Name := "n2" |}.

End Relaunch.

(** ** Node events on the in-memory collaborators *)

Module NodeScenario.

(** A repository that holds execution p/d/n, running, and none of its nodes. *)
Definition fresh : InMemory.DB :=
  InMemory.mkDB
    {[ InMemory.executionKey Scenario.executionId :=
         Scenario.execution "RUNNING" "s3://flyte/metadata/p/d/n/inputs" ]}
    [] ∅ [] [] ∅ ∅ ∅.

(** The phase on record for node-1 of p/d/n. *)
Definition recordedPhase (d : InMemory.DB) : option string :=
  models.ne_Phase <$> InMemory.nodeExecutions d !! InMemory.nodeExecutionKey Scenario.nodeId.

End NodeScenario.

(** ** The processor's counters *)

#[global] Instance counter_eq_dec : EqDecision counter.
Proof. solve_decision. Defined.

(** The value of a counter. *)
Definition valueOf (c : counter) (m : processorSystemMetrics) : nat :=
  match c with
  | cMessageTotal => MessageTotal m
  | cMessageDoneError => MessageDoneError m
  | cMessageDecodingError => MessageDecodingError m
  | cMessageDataError => MessageDataError m
  | cMessageProcessorError => MessageProcessorError m
  | cMessageSuccess => MessageSuccess m
  | cChannelClosedError => ChannelClosedError m
  end.

(** The kind of an outcome: undecodable, ill-formed, not sent, or sent. *)
Inductive outcomeKind := Undecodable | IllFormed | NotSent | Sent.

#[global] Instance outcomeKind_eq_dec : EqDecision outcomeKind.
Proof. solve_decision. Defined.

Definition kindOf (o : outcome) : outcomeKind :=
  match o with
  | JSONDecodeFailed | Base64DecodeFailed | PayloadDecodeFailed => Undecodable
  | MessageFieldMissing | MessageFieldNotString => IllFormed
  | EmailFailed _ => NotSent
  | EmailSent _ => Sent
  end.

(** The counter an outcome of the given kind is counted under. *)
Definition counterOf (kind : outcomeKind) : counter :=
  match kind with
  | Undecodable => cMessageDecodingError
  | IllFormed => cMessageDataError
  | NotSent => cMessageProcessorError
  | Sent => cMessageSuccess
  end.

(** How many of the messages satisfy [P]. *)
Definition howMany (P : SubscriberMessage -> Prop) `{forall msg, Decision (P msg)}
    (msgs : list SubscriberMessage) : nat :=
  length (filter P msgs).

(** ** Pages

    The sort parameter a list request asks for: none without a sort key. *)
Definition sortParameterOf {Cmn : common} (sortBy : option Sort)
    (sortParameter : option SortParameter) : Prop :=
  match sortBy with
  | Some sortBy => exists p, NewSortParameter sortBy = inr p /\ sortParameter = Some p
  | None => sortParameter = None
  end.

(** A sort key, if any, that [NewSortParameter] accepts. *)
Definition sortable {Cmn : common} (sortBy : option Sort) : Prop :=
  match sortBy with
  | Some sortBy => exists p, NewSortParameter sortBy = inr p
  | None => True
  end.

(** ** Nodes of a task execution, on the in-memory collaborators *)

#[global] Instance TaskExecutionIdentifier_eq_dec : EqDecision TaskExecutionIdentifier.
Proof. solve_decision. Defined.

Module ForTask.

(** The look-ups of [InMemory.utilFns], with task executions looked up in
    the table of the repository. *)
Definition utilFns : util InMemory.DB InMemory.Store := {|
  GetLaunchPlanModel := GetLaunchPlanModel (util := InMemory.utilFns);
  GetWorkflow := GetWorkflow (util := InMemory.utilFns);
  GetExecutionName := GetExecutionName (util := InMemory.utilFns);
  GetExecutionModel := GetExecutionModel (util := InMemory.utilFns);
  GetNodeExecutionModel := GetNodeExecutionModel (util := InMemory.utilFns);
  GetTaskExecutionModel d id :=
    match List.find (fun entry => bool_decide (fst entry = id)) (InMemory.taskExecutions d) with
    | Some entry => inr (snd entry)
    | None => InMemory.notFound
    end;
  GetTaskModel := GetTaskModel (util := InMemory.utilFns);
  GetTaskDigest := GetTaskDigest (util := InMemory.utilFns);
  GetDbFilters := GetDbFilters (util := InMemory.utilFns);
  AddRequestFilters := AddRequestFilters (util := InMemory.utilFns);
  GetWorkflowExecutionIdentifierFilters :=
    GetWorkflowExecutionIdentifierFilters (util := InMemory.utilFns) |}.

Definition taskExecutionId : TaskExecutionIdentifier :=
  {| tei_TaskId := Scenario.taskId; tei_NodeExecutionId := Scenario.nodeId;
     tei_RetryAttempt := 0 |}.

(** The repository of the scenario, with one task execution of node-1 on
    record under id 9. *)
Definition store : InMemory.DB :=
  InMemory.mkDB
    {[ InMemory.executionKey Scenario.executionId :=
         Scenario.execution "RUNNING" "s3://flyte/metadata/p/d/n/inputs" ]} []
    {[ InMemory.nodeExecutionKey Scenario.nodeId := Scenario.nodeExecution "RUNNING" ]} []
    [(taskExecutionId, {| models.te_ID := 9 |})] ∅ ∅ ∅.

Definition request : NodeExecutionForTaskListRequest :=
  {| ntlr_TaskExecutionId := taskExecutionId; ntlr_Limit := 5; ntlr_Token := "";
     ntlr_Filters := ""; ntlr_SortBy := None |}.

Definition nodesRequest : NodeExecutionListRequest :=
  {| nlr_WorkflowExecutionId := Scenario.executionId; nlr_Limit := 5; nlr_Token := "";
     nlr_Filters := ""; nlr_SortBy := None |}.

End ForTask.

(** ** Unique task identifiers ([TaskManager.ListUniqueTaskIdentifiers]) *)

Record NamedEntityIdentifierListRequest := {
  nilr_Project : string;
  nilr_Domain : string;
  nilr_Limit : N;
  nilr_Token : string;
  nilr_SortBy : option Sort }.

Record NamedEntityIdentifierList := {
  Entities : list NamedEntityIdentifier;
  nil_Token : string }.

(** What [ListUniqueTaskIdentifiers] asks of the packages [validation],
    [repositories] and [transformers] besides the above. *)
Class TaskIdentifiers (DB : Type) := {
  ValidateNamedEntityIdentifierListRequest : NamedEntityIdentifierListRequest -> option error;
  TaskRepo_ListTaskIdentifiers : DB -> ListResourceInput -> error + TaskCollectionOutput;
  FromTaskModelsToIdentifiers : list models.Task -> list NamedEntityIdentifier }.

Section UniqueTaskIdentifiers.

Context {DB Store : Type}.
Context {Val : validation DB} {Utl : util DB Store} {Cmn : common} {Ids : TaskIdentifiers DB}.

(** This queries the unique tasks for the given query parameters. *)
Definition ListUniqueTaskIdentifiers (request : NamedEntityIdentifierListRequest)
  : M DB NamedEntityIdentifierList :=
  let* _ := check (ValidateNamedEntityIdentifierListRequest request) in
  let* filters :=
    try (GetDbFilters
           {| fs_Project := nilr_Project request;
              fs_Domain := nilr_Domain request;
              fs_Name := "";
              fs_RequestFilters := "" |} Entity_Task) in
  let* sortParameter :=
    match nilr_SortBy request with
    | Some sortBy => let* p := try (NewSortParameter sortBy) in ret (Some p)
    | None => ret None
    end in
  let* offset :=
    match ValidateToken (nilr_Token request) with
    | inl _ =>
        throw (NewFlyteAdminErrorf InvalidArgument
                 "invalid pagination token %s for ListUniqueTaskIdentifiers")
    | inr offset => ret offset
    end in
  let listTasksInput :=
    {| Limit := Z.of_N (nilr_Limit request);
       Offset := offset;
       InlineFilters := filters;
       MapFilters := [];
       SortParameter_ := sortParameter |} in
  let* output := reads (fun d => TaskRepo_ListTaskIdentifiers d listTasksInput) in
  let idList := FromTaskModelsToIdentifiers (out_Tasks output) in
  let token := pageToken (len idList) (nilr_Limit request) offset in
  ret {| Entities := idList; nil_Token := token |}.

End UniqueTaskIdentifiers.

(** Modelled from the spec: the repository is not among the manager
    sources, and the spec is silent on this query; by the comment on
    [ListUniqueTaskIdentifiers] it returns one task of each project, domain
    and name, whatever the number of versions. *)
Module Identifiers.

Definition nameOf (task : models.Task) : NamedEntityIdentifier :=
  {| nid_Project := id_Project (models.t_TaskKey task);
     nid_Domain := id_Domain (models.t_TaskKey task);
     nid_Name := id_Name (models.t_TaskKey task) |}.

Definition sameName (a b : models.Task) : bool :=
  String.eqb (id_Project (models.t_TaskKey a)) (id_Project (models.t_TaskKey b))
  && String.eqb (id_Domain (models.t_TaskKey a)) (id_Domain (models.t_TaskKey b))
  && String.eqb (id_Name (models.t_TaskKey a)) (id_Name (models.t_TaskKey b)).

(** The first task of each name. *)
Fixpoint unique (seen rows : list models.Task) : list models.Task :=
  match rows with
  | [] => []
  | row :: rows =>
      if existsb (sameName row) seen then unique seen rows
      else row :: unique (row :: seen) rows
  end.

#[export] Instance taskIdentifiers : TaskIdentifiers InMemory.DB := {
  ValidateNamedEntityIdentifierListRequest request :=
    if String.eqb (nilr_Project request) "" then
      Some (NewFlyteAdminErrorf InvalidArgument "missing project")
    else None;
  TaskRepo_ListTaskIdentifiers d input :=
    inr {| out_Tasks :=
             InMemory.page input (unique [] (snd <$> map_to_list (InMemory.tasks d))) |};
  FromTaskModelsToIdentifiers rows := nameOf <$> rows }.

(** Two versions of task t of p/d. *)
Definition twoVersions : InMemory.DB :=
  InMemory.mkDB ∅ [] ∅ [] []
    {[ InMemory.taskKey Scenario.taskId := Scenario.taskModel;
       InMemory.taskKey
         {| id_Project := "p"; id_Domain := "d"; id_Name := "t"; id_Version := "v2" |} :=
         {| models.t_ID := 2;
            models.t_TaskKey :=
              {| id_Project := "p"; id_Domain := "d"; id_Name := "t"; id_Version := "v2" |};
            models.t_Closure := []; models.t_Digest := [] |} ]}
    ∅ ∅.

Definition request (limit : N) : NamedEntityIdentifierListRequest :=
  {| nilr_Project := "p"; nilr_Domain := "d"; nilr_Limit := limit; nilr_Token := "";
     nilr_SortBy := None |}.

End Identifiers.

(** The pairs queue allocation has to add to a container configuration: one
    for each queue name that is not empty, the primary queue first. *)
Definition queueAnnotations (queueConfig : QueueConfig) : list KeyValuePair :=
  ((if decide (PrimaryQueue queueConfig = "") then []
    else [ {| kv_Key := parentContainerQueueKey; kv_Value := PrimaryQueue queueConfig |} ])
   ++
   (if decide (DynamicQueue queueConfig = "") then []
    else [ {| kv_Key := childContainerQueueKey;
              kv_Value := DynamicQueue queueConfig |} ]))%list.

(** ** User metrics of the execution manager

    [promutils.StopWatch]: what was observed, oldest first. *)
Record StopWatch := {
  sw_Name : string;
  sw_Observed : list (Time * Time) }.

(** [watch.Observe(start, end)] *)
Definition Observe (watch : StopWatch) (start finish : Time) : StopWatch :=
  {| sw_Name := sw_Name watch;
     sw_Observed := (sw_Observed watch ++ [(start, finish)])%list |}.

(** Map of [project] -> map of [domain] -> stop watch *)
Definition projectDomainScopedStopWatchMap := gmap string (gmap string StopWatch).

(** [m.systemMetrics.Scope.NewSubScope(project).NewSubScope(domain).NewStopWatch],
    [ptypes.Timestamp] and [util.GetLaunchPlan]. *)
Class Metrics (DB : Type) := {
  NewStopWatch : string -> string -> string -> error + StopWatch;
  ptypes_Timestamp : Time -> error + Time;
  GetLaunchPlan : DB -> Identifier -> error + LaunchPlan }.

(** The stop watch of a project and domain, if there is one. *)
Definition watchOf (watches : projectDomainScopedStopWatchMap) (project domain : string)
  : option StopWatch :=
  watches !! project ≫= fun domainCounterMap => domainCounterMap !! domain.

(** [literal.GetScalar().GetPrimitive().GetDatetime()] *)
Definition GetDatetime (literal : Literal) : option Time :=
  match literal with
  | Literal_Datetime seconds => Some seconds
  | _ => None
  end.

Section UserMetrics.

Context {DB Store : Type}.
Context {Blob : DataStore Store} {Trn : transformers} {Mtr : Metrics DB}.

(** [emitOverallWorkflowExecutionTime], run on the map
    [m.userMetrics.WorkflowExecutionDurations]. *)
Definition emitOverallWorkflowExecutionTime (executionModel : option models.Execution)
    (terminalEventTimeProto : option Time)
    (WorkflowExecutionDurations : projectDomainScopedStopWatchMap)
  : projectDomainScopedStopWatchMap :=
  match executionModel, terminalEventTimeProto with
  | Some executionModel, Some terminalEventTimeProto =>
      let project := wei_Project (models.ExecutionKey executionModel) in
      let domain := wei_Domain (models.ExecutionKey executionModel) in
      let '(domainCounterMap, durations) :=
        match WorkflowExecutionDurations !! project with
        | Some domainCounterMap => (domainCounterMap, WorkflowExecutionDurations)
        | None => (∅, <[project := ∅]> WorkflowExecutionDurations)
        end in
      let found :=
        match domainCounterMap !! domain with
        | Some watch => Some (watch, durations)
        | None =>
            match NewStopWatch project domain "workflow_execution_duration" with
            | inl _ => None (* Could be related to a concurrent exception. *)
            | inr newWatch =>
                Some (newWatch, <[project := <[domain := newWatch]> domainCounterMap]> durations)
            end
        end in
      match found with
      | None => durations
      | Some (watch, durations) =>
          match ptypes_Timestamp terminalEventTimeProto with
          | inl _ => durations
          | inr terminalEventTime =>
              match models.ExecutionCreatedAt executionModel with
              | None => durations
              | Some createdAt =>
                  (* the watch is shared with the map *)
                  <[project :=
                      <[domain := Observe watch createdAt terminalEventTime]>
                        (default ∅ (durations !! project))]> durations
              end
          end
      end
  | _, _ => WorkflowExecutionDurations
  end.

(** [emitScheduledWorkflowMetrics], run on the map
    [m.userMetrics.ScheduledExecutionDelays]. *)
Definition emitScheduledWorkflowMetrics (d : DB) (storageClient : Store)
    (executionModel : option models.Execution) (runningEventTimeProto : option Time)
    (ScheduledExecutionDelays : projectDomainScopedStopWatchMap)
  : projectDomainScopedStopWatchMap :=
  match executionModel, runningEventTimeProto with
  | Some executionModel, Some runningEventTimeProto =>
      (* Find the reference launch plan to get the kickoff time argument *)
      match FromExecutionModel executionModel with
      | inl _ => ScheduledExecutionDelays
      | inr execution =>
          match GetLaunchPlan d (spec_LaunchPlan (exec_Spec execution)) with
          | inl _ => ScheduledExecutionDelays
          | inr launchPlan =>
              match lps_EntityMetadata (lp_Spec launchPlan) ≫= lpm_Schedule with
              | None => ScheduledExecutionDelays
              | Some schedule =>
                  if decide (KickoffTimeInputArg schedule = "") then
                    (* Kickoff time arguments aren't always required. *)
                    ScheduledExecutionDelays
                  else
                    match ReadProtobuf storageClient (models.InputsURI executionModel) with
                    | inl _ => ScheduledExecutionDelays
                    | inr inputs =>
                        match Literals inputs !! KickoffTimeInputArg schedule
                                ≫= GetDatetime with
                        | None => ScheduledExecutionDelays
                        | Some scheduledKickoffTimeProto =>
                            match ptypes_Timestamp scheduledKickoffTimeProto,
                                  ptypes_Timestamp runningEventTimeProto with
                            | inr scheduledKickoffTime, inr runningEventTime =>
                                let project := wei_Project (exec_Id execution) in
                                let domain := wei_Domain (exec_Id execution) in
                                let '(domainCounterMap, delays) :=
                                  match ScheduledExecutionDelays !! project with
                                  | Some domainCounterMap =>
                                      (domainCounterMap, ScheduledExecutionDelays)
                                  | None => (∅, <[project := ∅]> ScheduledExecutionDelays)
                                  end in
                                match domainCounterMap !! domain with
                                | Some watch =>
                                    <[project :=
                                        <[domain :=
                                            Observe watch scheduledKickoffTime
                                              runningEventTime]> domainCounterMap]> delays
                                | None =>
                                    match NewStopWatch project domain
                                            "scheduled_execution_delay" with
                                    | inl _ => delays
                                    | inr newWatch =>
                                        <[project :=
                                            <[domain :=
                                                Observe newWatch scheduledKickoffTime
                                                  runningEventTime]> domainCounterMap]> delays
                                    end
                                end
                            | _, _ => ScheduledExecutionDelays
                            end
                        end
                    end
              end
          end
      end
  | _, _ => ScheduledExecutionDelays
  end.

End UserMetrics.

(** The watch an observation goes to: the one of the project and domain, or
    else a new one, if one can be made. *)
Definition watchFor {DB} {Mtr : Metrics DB} (watches : projectDomainScopedStopWatchMap)
    (project domain name : string) : option StopWatch :=
  match watchOf watches project domain with
  | Some watch => Some watch
  | None =>
      match NewStopWatch project domain name with
      | inl _ => None
      | inr newWatch => Some newWatch
      end
  end.

(** The map with [watch] as the stop watch of the project and domain; with
    no watch, the map with the project registered and its domains as they
    were. *)
Definition recorded (watches : projectDomainScopedStopWatchMap) (project domain : string)
    (watch : option StopWatch) : projectDomainScopedStopWatchMap :=
  let domainCounterMap := default ∅ (watches !! project) in
  match watch with
  | Some watch => <[project := <[domain := watch]> domainCounterMap]> watches
  | None => <[project := domainCounterMap]> watches
  end.

(** ** Legacy records, as [GetExecutionData] handles them

    The signed outputs of an execution: those of its outputs reference, when
    it has one that is not empty. *)
Definition signedOutputs {UrlData : RemoteURLInterface} (execution : Execution)
  : error + UrlBlob :=
  match closure_Outputs (exec_Closure execution) with
  | Some outputs =>
      if negb (String.eqb (Uri outputs) "") then urlData_Get (Uri outputs)
      else inr {| Url := ""; Bytes := 0 |}
  | None => inr {| Url := ""; Bytes := 0 |}
  end.

(** * Properties *)

(** ** Sequencing *)

(** Case analysis on the result of a call, keeping the equation and the
    goal as they are. *)
Ltac on_result X H :=
  let r := fresh "r" in
  destruct (ex_intro (fun r => X = r) X eq_refl) as [r H].

(** Inversion of a bind that succeeded. *)
Lemma bind_inr {S A B} (m : M S A) (k : A -> M S B) s b s' :
  bind m k s = (inr b, s') ->
  exists a s0, m s = (inr a, s0) /\ k a s0 = (inr b, s').
Proof.
  unfold bind. destruct (m s) as [[e|a] s0]; [discriminate|]. eauto.
Qed.

(** ** Queue allocation *)

Section QueueAllocation.

Context {Queue : QueueAllocator}.

Lemma assignQueue_without_container queueConfig task :
  GetContainer (Template task) = None ->
  assignQueue queueConfig task = task.
Proof. intros Hc. unfold assignQueue. now rewrite Hc. Qed.

Lemma assignQueue_with_container queueConfig task container :
  GetContainer (Template task) = Some container ->
  PrimaryQueue queueConfig <> "" ->
  DynamicQueue queueConfig <> "" ->
  assignQueue queueConfig task =
    withContainer task
      (appendConfig
         (appendConfig container
            {| kv_Key := parentContainerQueueKey; kv_Value := PrimaryQueue queueConfig |})
         {| kv_Key := childContainerQueueKey; kv_Value := DynamicQueue queueConfig |}).
Proof.
  intros Hc Hp Hd. unfold assignQueue. rewrite Hc.
  apply String.eqb_neq in Hp, Hd. now rewrite Hp, Hd.
Qed.

(** C3. With a non-empty primary and dynamic queue name, queue allocation
    keeps the number and order of the tasks; a task without a container
    target is left as it is; a task with a container target keeps its
    identity and container, and its container configuration gains exactly
    the two pairs parent_queue = primary and child_queue = dynamic, appended
    in that order. *)
Theorem populateExecutionQueue_annotates_container_tasks
    (identifier : Identifier) (compiledWorkflow : CompiledWorkflowClosure) :
  PrimaryQueue (GetQueue identifier) <> "" ->
  DynamicQueue (GetQueue identifier) <> "" ->
  length (Tasks (populateExecutionQueue identifier compiledWorkflow))
    = length (Tasks compiledWorkflow) /\
  forall (i : nat) (task : CompiledTask),
    Tasks compiledWorkflow !! i = Some task ->
    match GetContainer (Template task) with
    | None => Tasks (populateExecutionQueue identifier compiledWorkflow) !! i = Some task
    | Some container =>
        exists task' container',
          Tasks (populateExecutionQueue identifier compiledWorkflow) !! i = Some task' /\
          GetContainer (Template task') = Some container' /\
          Config container' =
            (Config container ++
               [ {| kv_Key := "parent_queue"; kv_Value := PrimaryQueue (GetQueue identifier) |};
                 {| kv_Key := "child_queue";
                    kv_Value := DynamicQueue (GetQueue identifier) |} ])%list /\
          Image container' = Image container /\
          Command container' = Command container /\
          Args container' = Args container /\
          Env container' = Env container /\
          tt_Id (Template task') = tt_Id (Template task) /\
          tt_Type (Template task') = tt_Type (Template task)
    end.
Proof.
  intros Hp Hd. unfold populateExecutionQueue. cbn [Tasks]. split.
  - apply length_map.
  - intros i task Hi.
    assert (Hmap : List.map (assignQueue (GetQueue identifier)) (Tasks compiledWorkflow) !! i
                   = Some (assignQueue (GetQueue identifier) task)).
    { change (List.map ?f ?l) with (f <$> l). now rewrite list_lookup_fmap, Hi. }
    destruct (GetContainer (Template task)) as [container|] eqn:Hc.
    + rewrite (assignQueue_with_container _ _ _ Hc Hp Hd) in Hmap.
      eexists _, _. split; [exact Hmap|].
      cbn. split; [reflexivity|]. cbn. rewrite <- app_assoc. repeat split; reflexivity.
    + now rewrite (assignQueue_without_container _ _ Hc) in Hmap.
Qed.

End QueueAllocation.

(** ** Phase transitions of workflow and node executions *)

Section Events.

Context {DB Store : Type}.
Context {Repo : RepositoryInterface DB} {Blob : DataStore Store} {Pub : Publisher}
        {Cfg : Configuration} {Val : validation DB} {Utl : util DB Store}
        {Trn : transformers} {Cmn : common} {Ntf : notifications}.

Lemma CreateWorkflowEvent_duplicate (w : World DB Store) request executionModel :
  ValidateCreateWorkflowEventRequest request = None ->
  GetExecutionModel (db w) (wev_ExecutionId (wer_Event request)) = inr executionModel ->
  WorkflowExecution_Phase_value (models.Phase executionModel) = wev_Phase (wer_Event request) ->
  CreateWorkflowEvent request w =
    (inl (NewFlyteAdminErrorf AlreadyExists
            "This phase %s was already recorded for workflow execution %v"), w).
Proof.
  intros Hvalid Hget Hsame.
  unfold CreateWorkflowEvent, bind, check, try, reads. rewrite Hvalid, Hget.
  destruct (decide _) as [_|Hne]; [reflexivity | contradiction].
Qed.

Lemma CreateWorkflowEvent_terminal (w : World DB Store) request executionModel :
  ValidateCreateWorkflowEventRequest request = None ->
  GetExecutionModel (db w) (wev_ExecutionId (wer_Event request)) = inr executionModel ->
  IsExecutionTerminal (WorkflowExecution_Phase_value (models.Phase executionModel)) = true ->
  WorkflowExecution_Phase_value (models.Phase executionModel) <> wev_Phase (wer_Event request) ->
  CreateWorkflowEvent request w =
    (inl (NewAlreadyInTerminalStateError
            "Invalid phase change from %s to %s for workflow execution %v"
            (WorkflowExecution_Phase_String
               (WorkflowExecution_Phase_value (models.Phase executionModel)))), w).
Proof.
  intros Hvalid Hget Hterm Hne.
  unfold CreateWorkflowEvent, bind, check, try, reads. rewrite Hvalid, Hget.
  destruct (decide _) as [Heq|_]; [contradiction|].
  now rewrite Hterm.
Qed.

Lemma updateNodeExecutionWithEvent_duplicate (d : DB) request nodeExecutionModel :
  NodeExecution_Phase_value (models.ne_Phase nodeExecutionModel) = nev_Phase (ner_Event request) ->
  updateNodeExecutionWithEvent request nodeExecutionModel d =
    (inl (NewFlyteAdminErrorf AlreadyExists "This phase was already recorded %v for %+v"), d).
Proof.
  intros Hsame. unfold updateNodeExecutionWithEvent.
  destruct (decide _) as [_|Hne]; [reflexivity | contradiction].
Qed.

Lemma updateNodeExecutionWithEvent_terminal (d : DB) request nodeExecutionModel :
  IsNodeExecutionTerminal (NodeExecution_Phase_value (models.ne_Phase nodeExecutionModel)) = true ->
  NodeExecution_Phase_value (models.ne_Phase nodeExecutionModel) <> nev_Phase (ner_Event request) ->
  updateNodeExecutionWithEvent request nodeExecutionModel d = (inr alreadyInTerminalStatus, d).
Proof.
  intros Hterm Hne. unfold updateNodeExecutionWithEvent.
  destruct (decide _) as [Heq|_]; [contradiction|].
  now rewrite Hterm.
Qed.

Lemma CreateNodeEvent_existing (d : DB) request executionModel nodeExecutionModel :
  GetExecutionModel d (nei_ExecutionId (nev_Id (ner_Event request))) = inr executionModel ->
  NodeExecutionRepo_Get d {| gni_NodeExecutionIdentifier := nev_Id (ner_Event request) |}
    = inr nodeExecutionModel ->
  CreateNodeEvent request d =
    match updateNodeExecutionWithEvent request nodeExecutionModel d with
    | (inl e, d') => (inl e, d')
    | (inr updateStatus, d') =>
        if decide (updateStatus = alreadyInTerminalStatus) then
          (inl (NewAlreadyInTerminalStateError
                  "Invalid phase change from %s to %s for node execution %v"
                  (NodeExecution_Phase_String (nev_Phase (ner_Event request)))), d')
        else (inr Build_NodeExecutionEventResponse, d')
    end.
Proof.
  intros Hexec Hnode. unfold CreateNodeEvent. rewrite Hexec, Hnode.
  unfold bind. destruct (updateNodeExecutionWithEvent _ _ _) as [[e|st] d']; [reflexivity|].
  destruct (decide _); reflexivity.
Qed.

(** C2. An event that reports the phase currently persisted is rejected with
    AlreadyExists, whatever that phase is, and nothing stored changes:
    neither the execution record nor the event log (both live in the
    repository), nor anything else of the state.  For a workflow execution
    the request is one that passes validation; for a node execution the
    record exists and so does its owning workflow execution. *)
Theorem duplicate_phase_report_is_rejected :
  (forall (w : World DB Store) request executionModel,
      ValidateCreateWorkflowEventRequest request = None ->
      GetExecutionModel (db w) (wev_ExecutionId (wer_Event request)) = inr executionModel ->
      WorkflowExecution_Phase_value (models.Phase executionModel)
        = wev_Phase (wer_Event request) ->
      rejects (CreateWorkflowEvent request) w AlreadyExists) /\
  (forall (d : DB) request executionModel nodeExecutionModel,
      GetExecutionModel d (nei_ExecutionId (nev_Id (ner_Event request))) = inr executionModel ->
      NodeExecutionRepo_Get d {| gni_NodeExecutionIdentifier := nev_Id (ner_Event request) |}
        = inr nodeExecutionModel ->
      NodeExecution_Phase_value (models.ne_Phase nodeExecutionModel)
        = nev_Phase (ner_Event request) ->
      rejects (updateNodeExecutionWithEvent request nodeExecutionModel) d AlreadyExists /\
      rejects (CreateNodeEvent request) d AlreadyExists).
Proof.
  split.
  - intros w request executionModel Hvalid Hget Hsame.
    eexists. split; [eapply CreateWorkflowEvent_duplicate; eassumption | reflexivity].
  - intros d request executionModel nodeExecutionModel Hexec Hnode Hsame.
    pose proof (updateNodeExecutionWithEvent_duplicate d request nodeExecutionModel Hsame) as Hupd.
    split.
    + eexists. split; [exact Hupd | reflexivity].
    + eexists. split;
        [rewrite (CreateNodeEvent_existing d request _ _ Hexec Hnode), Hupd; reflexivity
        |reflexivity].
Qed.

(** C1, amended.  Once the persisted phase of a workflow execution or of a
    node execution is terminal, an event for it that reports any other phase
    is rejected with FailedPrecondition (already in terminal state), and an
    event that repeats the persisted phase is rejected with AlreadyExists;
    in both cases nothing stored changes. *)
Theorem terminal_phase_rejects_every_event :
  (forall (w : World DB Store) request executionModel,
      ValidateCreateWorkflowEventRequest request = None ->
      GetExecutionModel (db w) (wev_ExecutionId (wer_Event request)) = inr executionModel ->
      IsExecutionTerminal (WorkflowExecution_Phase_value (models.Phase executionModel)) = true ->
      if decide (WorkflowExecution_Phase_value (models.Phase executionModel)
                 = wev_Phase (wer_Event request))
      then rejects (CreateWorkflowEvent request) w AlreadyExists
      else rejects (CreateWorkflowEvent request) w FailedPrecondition) /\
  (forall (d : DB) request executionModel nodeExecutionModel,
      GetExecutionModel d (nei_ExecutionId (nev_Id (ner_Event request))) = inr executionModel ->
      NodeExecutionRepo_Get d {| gni_NodeExecutionIdentifier := nev_Id (ner_Event request) |}
        = inr nodeExecutionModel ->
      IsNodeExecutionTerminal (NodeExecution_Phase_value (models.ne_Phase nodeExecutionModel))
        = true ->
      if decide (NodeExecution_Phase_value (models.ne_Phase nodeExecutionModel)
                 = nev_Phase (ner_Event request))
      then rejects (CreateNodeEvent request) d AlreadyExists
      else
        updateNodeExecutionWithEvent request nodeExecutionModel d
          = (inr alreadyInTerminalStatus, d) /\
        rejects (CreateNodeEvent request) d FailedPrecondition).
Proof.
  split.
  - intros w request executionModel Hvalid Hget Hterm.
    destruct (decide _) as [Hsame|Hne].
    + eexists. split; [eapply CreateWorkflowEvent_duplicate; eassumption | reflexivity].
    + eexists. split; [eapply CreateWorkflowEvent_terminal; eassumption | reflexivity].
  - intros d request executionModel nodeExecutionModel Hexec Hnode Hterm.
    destruct (decide _) as [Hsame|Hne].
    + eexists. split;
        [rewrite (CreateNodeEvent_existing d request _ _ Hexec Hnode),
           (updateNodeExecutionWithEvent_duplicate d request _ Hsame); reflexivity
        |reflexivity].
    + pose proof (updateNodeExecutionWithEvent_terminal d request _ Hterm Hne) as Hupd.
      split; [exact Hupd|].
      eexists. split;
        [rewrite (CreateNodeEvent_existing d request _ _ Hexec Hnode), Hupd; reflexivity
        |reflexivity].
Qed.

End Events.

(** ** Notification fan-out *)

Section Notifications.

Context {DB Store : Type}.
Context {Pub : Publisher} {Cfg : Configuration} {Trn : transformers} {Ntf : notifications}.

Lemma matchPhase_elem_of notification phase :
  matchPhase notification phase = true <-> phase ∈ Phases notification.
Proof.
  unfold matchPhase. rewrite existsb_exists. split.
  - intros (p & Hin & Hp). apply bool_decide_eq_true in Hp. subst.
    now apply list_elem_of_In.
  - intros Hin. exists phase. split; [now apply list_elem_of_In | now apply bool_decide_eq_true].
Qed.

Lemma toEmailNotification_recipients notification :
  toEmailNotification notification =
    if supported notification
    then Some {| email_RecipientsEmail := recipients notification |}
    else None.
Proof.
  unfold toEmailNotification, supported, recipients, GetEmail, GetPagerDuty, GetSlack.
  now destruct (Type_ notification).
Qed.

Lemma refused_cons name email (l : list (string * EmailMessage)) :
  refused ((name, email) :: l) =
    match Publish name email with
    | Some _ => S (refused l)
    | None => refused l
    end.
Proof.
  unfold refused. cbn [List.filter fst snd].
  destruct (Publish name email) as [e|].
  - now rewrite bool_decide_eq_true_2 by eauto.
  - now rewrite bool_decide_eq_false_2 by (intros [? ?]; discriminate).
Qed.

(** The loop, in one equation: it stops at the first surviving entry of an
    unknown type, having published one message for each surviving entry
    before it. *)
Lemma publishEach_spec request adminExecution entries :
  forall w : World DB Store,
    let phase := wev_Phase (wer_Event request) in
    let messages :=
      messageOf request adminExecution <$> supportedPrefix (surviving phase entries) in
    publishEach request adminExecution entries w =
      (if forallb supported (surviving phase entries) then inr tt
       else inl (NewFlyteAdminErrorf Internal
                   "Unsupported notification type [%v] for execution [%+v]"),
       mkWorld (db w) (storageClient w) (dispatched w) (aborted w)
         (published w ++ messages) (PublishNotificationError w + refused messages)).
Proof.
  induction entries as [|notification rest IH]; intros w; cbn zeta.
  - cbn. rewrite app_nil_r, Nat.add_0_r. now destruct w.
  - cbn [publishEach]. unfold surviving. rewrite filter_cons.
    fold (surviving (wev_Phase (wer_Event request)) rest).
    destruct (matchPhase notification (wev_Phase (wer_Event request))) eqn:Hmatch; cbn [negb].
    + apply matchPhase_elem_of in Hmatch. rewrite decide_True by exact Hmatch.
      rewrite toEmailNotification_recipients. cbn [forallb supportedPrefix].
      destruct (supported notification) eqn:Hsup; cbn [andb].
      * unfold bind, callPublish. rewrite IH.
        cbn [db storageClient dispatched aborted published PublishNotificationError].
        rewrite fmap_cons.
        change (messageOf request adminExecution notification)
          with (EmailNotification_MessageName,
                ToEmailMessageFromWorkflowExecutionEvent
                  {| email_RecipientsEmail := recipients notification |} request
                  adminExecution).
        rewrite refused_cons.
        unfold ToEmailMessageFromWorkflowExecutionEvent. cbn [email_RecipientsEmail].
        f_equal. f_equal.
        { rewrite <- app_assoc. reflexivity. }
        { destruct (Publish _ _); lia. }
      * cbn. rewrite app_nil_r, Nat.add_0_r. now destruct w.
    + assert (Hnot : ~ wev_Phase (wer_Event request) ∈ Phases notification).
      { intros Hin. apply matchPhase_elem_of in Hin. congruence. }
      rewrite decide_False by exact Hnot. apply IH.
Qed.

Lemma supportedPrefix_prefix l : supportedPrefix l `prefix_of` l.
Proof.
  induction l as [|n l IHl]; cbn; [reflexivity|].
  destruct (supported n); [now apply prefix_cons | apply prefix_nil].
Qed.

Lemma supportedPrefix_supported l :
  Forall (fun n => supported n = true) (supportedPrefix l).
Proof.
  induction l as [|n l IHl]; cbn; [constructor|].
  destruct (supported n) eqn:Hn; [now constructor | constructor].
Qed.

Lemma supportedPrefix_all l : forallb supported l = true -> supportedPrefix l = l.
Proof.
  induction l as [|n l IHl]; cbn; [reflexivity|].
  destruct (supported n); cbn; [intros Hl; now rewrite IHl | discriminate].
Qed.

(** The first entry of an unknown type splits the list. *)
Lemma supportedPrefix_split l :
  forallb supported l = false ->
  exists unknown rest,
    l = (supportedPrefix l ++ unknown :: rest)%list /\ Type_ unknown = Notification_unset.
Proof.
  induction l as [|n l IHl]; cbn; [discriminate|].
  destruct (supported n) eqn:Hn; cbn.
  - intros Hl. destruct (IHl Hl) as (unknown & rest & Hsplit & Hunknown).
    exists unknown, rest. split; [now rewrite <- Hsplit | exact Hunknown].
  - intros _. exists n, l. split; [reflexivity|].
    unfold supported in Hn. now destruct (Type_ n).
Qed.

(** C4, amended.  The notification list is the one resolved in the stored
    execution.  Whatever the list, the entries are gone through in order: an
    entry whose trigger phases do not contain the reported phase is skipped;
    a surviving entry of type email, pager or slack is published as exactly
    one e-mail message addressed to its recipients; the first surviving entry
    of none of the three types stops the call with Internal.  So the messages
    published are exactly those of the surviving entries before the first
    surviving entry of unknown type, one each and in order: all the surviving
    entries when each is of a known type, and then the call succeeds; when
    one is not, the surviving entries after the first such entry get no
    message, whatever their type.  Nothing but the publisher is touched. *)
Theorem publishNotifications_fan_out
    (request : WorkflowExecutionEventRequest) (execution : models.Execution)
    (adminExecution : Execution) (w : World DB Store) :
  FromExecutionModel execution = inr adminExecution ->
  let phase := wev_Phase (wer_Event request) in
  let entries := closure_Notifications (exec_Closure adminExecution) in
  let outcome := publishNotifications request execution w in
  let sent := supportedPrefix (surviving phase entries) in
  (* what is published: one message for each surviving entry before the
     first surviving entry of unknown type *)
  (published (snd outcome) = (published w ++ (messageOf request adminExecution <$> sent))%list /\
   sent `prefix_of` surviving phase entries /\
   Forall (fun notification => supported notification = true) sent /\
   Forall2 (fun notification message =>
              RecipientsEmail (snd message) = recipients notification)
     sent (drop (length (published w)) (published (snd outcome))) /\
   length (published (snd outcome)) = length (published w) + length sent) /\
  db (snd outcome) = db w /\
  storageClient (snd outcome) = storageClient w /\
  (* every surviving entry is of a known type: one message each *)
  (Forall (fun notification => Type_ notification <> Notification_unset)
     (surviving phase entries) ->
   fst outcome = inr tt /\
   published (snd outcome)
     = (published w ++ (messageOf request adminExecution <$> surviving phase entries))%list /\
   length (published (snd outcome))
     = length (published w) + length (surviving phase entries)) /\
  (* a surviving entry of no known type: Internal, and nothing for the
     surviving entries after the first such entry *)
  (Exists (fun notification => Type_ notification = Notification_unset)
     (surviving phase entries) ->
   failsWith (fst outcome) Internal /\
   exists unknown rest,
     surviving phase entries = (sent ++ unknown :: rest)%list /\
     Type_ unknown = Notification_unset /\
     length (published (snd outcome)) + S (length rest)
       = length (published w) + length (surviving phase entries)).
Proof.
  intros Hexec. cbn zeta. unfold publishNotifications. rewrite Hexec.
  rewrite publishEach_spec. cbn [fst snd db storageClient published].
  set (survivors := surviving _ _).
  split; [|split; [reflexivity|split; [reflexivity|split]]].
  - split; [reflexivity|]. split; [apply supportedPrefix_prefix|].
    split; [apply supportedPrefix_supported|]. split.
    + rewrite drop_app_length. apply Forall2_fmap_r, Forall_Forall2_diag, Forall_true.
      reflexivity.
    + now rewrite length_app, length_fmap.
  - intros Hknown.
    assert (Hb : forallb supported survivors = true).
    { apply forallb_forall. intros n Hn. rewrite Forall_forall in Hknown.
      apply list_elem_of_In, Hknown in Hn. unfold supported. now destruct (Type_ n). }
    rewrite Hb, (supportedPrefix_all _ Hb). repeat split.
    now rewrite length_app, length_fmap.
  - intros Hunknown.
    assert (Hb : forallb supported survivors = false).
    { apply not_true_is_false. intros Hb. rewrite forallb_forall in Hb.
      apply Exists_exists in Hunknown as (n & Hn & Hunset).
      apply list_elem_of_In, Hb in Hn. unfold supported in Hn. now rewrite Hunset in Hn. }
    rewrite Hb. split; [eexists; split; reflexivity|].
    destruct (supportedPrefix_split _ Hb) as (unknown & rest & Hsplit & Hunset).
    exists unknown, rest. split; [exact Hsplit|]. split; [exact Hunset|].
    rewrite length_app, length_fmap. rewrite Hsplit at 2.
    rewrite length_app. cbn [length]. lia.
Qed.

End Notifications.

(** ** Notification settings of a new execution *)

Section Creation.

Context {DB Store : Type}.
Context {Repo : RepositoryInterface DB} {Blob : DataStore Store} {Exec : Executor}
        {Cfg : Configuration} {Queue : QueueAllocator}
        {Val : validation DB} {Utl : util DB Store} {Trn : transformers} {Shr : shared}.

(** A model that [launchExecutionAndPrepareModel] returns was produced by
    [CreateExecutionModel] from the launch plan the request names, with the
    notification settings computed by [notificationsSettings]. *)
Lemma launchExecutionAndPrepareModel_input request requestedAt
    (w w' : World DB Store) executionModel :
  launchExecutionAndPrepareModel request requestedAt w = (inr executionModel, w') ->
  exists launchPlanModel launchPlan input,
    GetLaunchPlanModel (db w) (spec_LaunchPlan (ecr_Spec request)) = inr launchPlanModel /\
    FromLaunchPlanModel launchPlanModel = inr launchPlan /\
    CreateExecutionModel input = inr executionModel /\
    cem_RequestSpec input = ecr_Spec request /\
    cem_Phase input = WorkflowExecution_UNDEFINED /\
    cem_Notifications input = notificationsSettings launchPlan (ecr_Spec request).
Proof.
  unfold launchExecutionAndPrepareModel. intros Hrun.
  apply bind_inr in Hrun as ([] & w1 & Hvalid & Hrun).
  unfold checks, check, try in Hvalid.
  destruct (ValidateExecutionRequest (db w) request); [discriminate|].
  injection Hvalid as <-.
  apply bind_inr in Hrun as (launchPlanModel & w2 & Hlp & Hrun).
  unfold reads in Hlp. injection Hlp as Hlp <-.
  apply bind_inr in Hrun as (launchPlan & w3 & Hfrom & Hrun).
  unfold try in Hfrom. injection Hfrom as Hfrom <-.
  apply bind_inr in Hrun as (executionInputs & w4 & _ & Hrun).
  apply bind_inr in Hrun as (workflow & w5 & _ & Hrun).
  apply bind_inr in Hrun as (parentNodeExecutionID & w6 & _ & Hrun).
  apply bind_inr in Hrun as (inputsURI & w7 & _ & Hrun).
  apply bind_inr in Hrun as (userInputsURI & w8 & _ & Hrun).
  apply bind_inr in Hrun as (executeWorkflowInputs & w9 & _ & Hrun).
  apply bind_inr in Hrun as (execInfo & w10 & _ & Hrun).
  unfold try in Hrun. injection Hrun as Hcreate _.
  eexists launchPlanModel, launchPlan, _.
  split; [exact Hlp|]. split; [exact Hfrom|]. split; [exact Hcreate|].
  repeat split.
Qed.

(** C5. The notification list of a new execution: a non-empty list on the
    request overrides the launch plan's list, whatever that is; an explicit
    disable-all on the request yields the empty list; otherwise (no override,
    an empty list, or disable-all set to false) the launch plan's list is
    used.  Every execution model that [launchExecutionAndPrepareModel]
    returns was created with the list so computed. *)
Theorem request_notifications_override_launch_plan :
  (forall (launchPlan : LaunchPlan) (requestSpec : ExecutionSpec) notification rest,
      spec_NotificationOverrides requestSpec
        = ExecutionSpec_Notifications (notification :: rest) ->
      notificationsSettings launchPlan requestSpec = notification :: rest) /\
  (forall (launchPlan : LaunchPlan) (requestSpec : ExecutionSpec),
      spec_NotificationOverrides requestSpec = ExecutionSpec_DisableAll true ->
      notificationsSettings launchPlan requestSpec = []) /\
  (forall (launchPlan : LaunchPlan) (requestSpec : ExecutionSpec),
      spec_NotificationOverrides requestSpec = NotificationOverrides_unset \/
      spec_NotificationOverrides requestSpec = ExecutionSpec_Notifications [] \/
      spec_NotificationOverrides requestSpec = ExecutionSpec_DisableAll false ->
      notificationsSettings launchPlan requestSpec =
        match lps_EntityMetadata (lp_Spec launchPlan) with
        | Some entityMetadata => lpm_Notifications entityMetadata
        | None => []
        end) /\
  (forall request requestedAt (w w' : World DB Store) executionModel,
      launchExecutionAndPrepareModel request requestedAt w = (inr executionModel, w') ->
      exists launchPlanModel launchPlan input,
        GetLaunchPlanModel (db w) (spec_LaunchPlan (ecr_Spec request)) = inr launchPlanModel /\
        FromLaunchPlanModel launchPlanModel = inr launchPlan /\
        CreateExecutionModel input = inr executionModel /\
        cem_Notifications input = notificationsSettings launchPlan (ecr_Spec request)).
Proof.
  split; [|split; [|split]].
  - intros launchPlan requestSpec notification rest Hreq.
    unfold notificationsSettings, GetNotifications. now rewrite Hreq.
  - intros launchPlan requestSpec Hreq.
    unfold notificationsSettings, GetNotifications, GetDisableAll. now rewrite Hreq.
  - intros launchPlan requestSpec [Hreq|[Hreq|Hreq]];
      unfold notificationsSettings, GetNotifications, GetDisableAll; now rewrite Hreq.
  - intros request requestedAt w w' executionModel Hrun.
    destruct (launchExecutionAndPrepareModel_input _ _ _ _ _ Hrun)
      as (launchPlanModel & launchPlan & input & Hlp & Hfrom & Hcreate & _ & _ & Hnotif).
    now exists launchPlanModel, launchPlan, input.
Qed.

End Creation.

(** ** Pagination *)

Section Pagination.

Context {DB Store : Type}.
Context {Repo : RepositoryInterface DB} {Val : validation DB} {Utl : util DB Store}
        {Trn : transformers} {Cmn : common} {Shr : shared}.

Lemma Itoa_nonempty z : Itoa z <> "".
Proof.
  unfold Itoa, NilZero.string_of_int.
  destruct (Z.to_int z) as [d|d]; [|discriminate].
  unfold NilZero.string_of_uint. destruct d; discriminate.
Qed.

Lemma int_add_in_range a b : (MinInt <= a + b <= MaxInt)%Z -> int_add a b = (a + b)%Z.
Proof.
  unfold int_add, wrapInt, MinInt, MaxInt. intros Hrange.
  rewrite Z.mod_small by lia. lia.
Qed.

Lemma pageToken_contract n limit offset :
  continuationToken (pageToken n limit offset) n limit offset.
Proof.
  unfold continuationToken, pageToken.
  destruct (Z.eqb_spec n (Z.of_N limit)) as [Heq|Hne].
  - split; [|split; [|split]].
    + split; [tauto | intros _; apply Itoa_nonempty].
    + reflexivity.
    + intros _ Hrange. now rewrite int_add_in_range.
    + contradiction.
  - split; [|split; [|split]]; try contradiction; [|reflexivity].
    split; [congruence | contradiction].
Qed.

Lemma ListExecutions_token request (w w' : World DB Store) response :
  ListExecutions request w = (inr response, w') ->
  exists offset,
    ValidateToken (rlr_Token request) = inr offset /\
    el_Token response = pageToken (len (Executions response)) (rlr_Limit request) offset.
Proof.
  unfold ListExecutions. intros Hrun.
  apply bind_inr in Hrun as (? & ? & _ & Hrun).
  apply bind_inr in Hrun as (filters & ? & _ & Hrun).
  apply bind_inr in Hrun as (sortParameter & ? & _ & Hrun).
  apply bind_inr in Hrun as (offset & ? & Hoffset & Hrun).
  apply bind_inr in Hrun as (output & ? & _ & Hrun).
  apply bind_inr in Hrun as (executionList & ? & _ & Hrun).
  injection Hrun as <- _.
  exists offset. split; [|reflexivity].
  destruct (ValidateToken (rlr_Token request)); [discriminate|].
  now injection Hoffset as -> _.
Qed.

Lemma listNodeExecutions_token identifierFilters requestFilters limit requestToken sortBy
    addIsParentFilter (d d' : DB) response :
  listNodeExecutions identifierFilters requestFilters limit requestToken sortBy
    addIsParentFilter d = (inr response, d') ->
  exists offset input output,
    ValidateToken requestToken = inr offset /\
    Limit input = Z.of_N limit /\ Offset input = offset /\
    NodeExecutionRepo_List d input = inr output /\
    FromNodeExecutionModels (out_NodeExecutions output) = inr (NodeExecutions response) /\
    nl_Token response = pageToken (len (out_NodeExecutions output)) limit offset.
Proof.
  unfold listNodeExecutions. intros Hrun.
  apply bind_inr in Hrun as (filters & d1 & Hfilters & Hrun).
  apply bind_inr in Hrun as (sortParameter & d2 & Hsort & Hrun).
  apply bind_inr in Hrun as (offset & d3 & Hoffset & Hrun).
  apply bind_inr in Hrun as (output & d4 & Hlist & Hrun).
  apply bind_inr in Hrun as (nodeExecutionList & d5 & Hfrom & Hrun).
  injection Hrun as <- _.
  unfold try in Hfilters, Hfrom. unfold reads in Hlist.
  injection Hfilters as _ <-. injection Hfrom as Hfrom _. injection Hlist as Hlist _.
  assert (d2 = d) as ->.
  { destruct sortBy; [|now injection Hsort].
    apply bind_inr in Hsort as (? & ? & Htry & Hret).
    unfold try in Htry. injection Htry as _ <-. now injection Hret. }
  assert (ValidateToken requestToken = inr offset /\ d3 = d) as [Htoken ->].
  { destruct (ValidateToken requestToken); [discriminate|]. now injection Hoffset as -> ->. }
  eexists offset, _, output. repeat split; [exact Htoken| | |exact Hlist|exact Hfrom].
  all: reflexivity.
Qed.

Lemma ListTasks_token request (d d' : DB) response :
  ListTasks request d = (inr response, d') ->
  exists offset,
    ValidateToken (rlr_Token request) = inr offset /\
    tl_Token response = pageToken (len (Tasks_ response)) (rlr_Limit request) offset.
Proof.
  unfold ListTasks. intros Hrun.
  apply bind_inr in Hrun as (? & ? & _ & Hrun).
  apply bind_inr in Hrun as (filters & ? & _ & Hrun).
  apply bind_inr in Hrun as (sortParameter & ? & _ & Hrun).
  apply bind_inr in Hrun as (offset & ? & Hoffset & Hrun).
  apply bind_inr in Hrun as (output & ? & _ & Hrun).
  apply bind_inr in Hrun as (taskList & ? & _ & Hrun).
  injection Hrun as <- _.
  exists offset. split; [|reflexivity].
  destruct (ValidateToken (rlr_Token request)); [discriminate|].
  now injection Hoffset as -> _.
Qed.

Lemma listNodeExecutions_contract identifierFilters requestFilters limit requestToken sortBy
    addIsParentFilter (d d' : DB) response :
  listNodeExecutions identifierFilters requestFilters limit requestToken sortBy
    addIsParentFilter d = (inr response, d') ->
  nodePageContract limit requestToken d response.
Proof.
  intros Hrun.
  destruct (listNodeExecutions_token _ _ _ _ _ _ _ _ _ Hrun)
    as (offset & input & output & Hoffset & Hlimit & Hoff & Hlist & Hfrom & Htoken).
  exists offset, input, output. rewrite Htoken.
  split; [exact Hoffset|]. split; [exact Hlimit|]. split; [exact Hoff|].
  split; [exact Hlist|]. split; [exact Hfrom|]. split; [apply pageToken_contract|].
  intros Hlen. unfold len. rewrite Hlen. apply pageToken_contract.
Qed.

(** C6. Every response of ListExecutions, of ListNodeExecutions and
    ListNodeExecutionsForTask (both through listNodeExecutions) and of
    ListTasks obeys the pagination contract for the request's limit and the
    offset its token decodes to: the token is non-empty exactly when the
    number of returned items equals the limit, it then renders offset +
    number of items, and it is the empty string otherwise.  For node
    executions the token is computed from the rows the repository returned
    for the one query of the call, and the items of the response are those
    rows as the transformer renders them: the contract holds of the number of
    rows, and of the number of items whenever the transformer renders as many
    items as it is given rows. *)
Theorem continuation_token_iff_page_is_full :
  (forall request (w w' : World DB Store) response,
      ListExecutions request w = (inr response, w') ->
      exists offset,
        ValidateToken (rlr_Token request) = inr offset /\
        continuationToken (el_Token response) (len (Executions response))
          (rlr_Limit request) offset) /\
  (forall identifierFilters requestFilters limit requestToken sortBy addIsParentFilter
          (d d' : DB) response,
      listNodeExecutions identifierFilters requestFilters limit requestToken sortBy
        addIsParentFilter d = (inr response, d') ->
      nodePageContract limit requestToken d response) /\
  (forall request (d d' : DB) response,
      ListNodeExecutions request d = (inr response, d') ->
      nodePageContract (nlr_Limit request) (nlr_Token request) d response) /\
  (forall request (d d' : DB) response,
      ListNodeExecutionsForTask request d = (inr response, d') ->
      nodePageContract (ntlr_Limit request) (ntlr_Token request) d response) /\
  (forall request (d d' : DB) response,
      ListTasks request d = (inr response, d') ->
      exists offset,
        ValidateToken (rlr_Token request) = inr offset /\
        continuationToken (tl_Token response) (len (Tasks_ response))
          (rlr_Limit request) offset).
Proof.
  split; [|split; [|split; [|split]]].
  - intros request w w' response Hrun.
    destruct (ListExecutions_token _ _ _ _ Hrun) as (offset & Hoffset & ->).
    exists offset. split; [exact Hoffset | apply pageToken_contract].
  - intros identifierFilters requestFilters limit requestToken sortBy addIsParentFilter
      d d' response Hrun.
    exact (listNodeExecutions_contract _ _ _ _ _ _ _ _ _ Hrun).
  - intros request d d' response Hrun. unfold ListNodeExecutions in Hrun.
    apply bind_inr in Hrun as ([] & d1 & Hvalid & Hrun).
    unfold check, try in Hvalid. injection Hvalid as _ <-.
    apply bind_inr in Hrun as (identifierFilters & d2 & Hfilters & Hrun).
    unfold try in Hfilters. injection Hfilters as _ <-.
    exact (listNodeExecutions_contract _ _ _ _ _ _ _ _ _ Hrun).
  - intros request d d' response Hrun. unfold ListNodeExecutionsForTask in Hrun.
    apply bind_inr in Hrun as ([] & d1 & Hvalid & Hrun).
    unfold check, try in Hvalid. injection Hvalid as _ <-.
    apply bind_inr in Hrun as (identifierFilters & d2 & Hfilters & Hrun).
    unfold try in Hfilters. injection Hfilters as _ <-.
    apply bind_inr in Hrun as (parentTaskExecutionModel & d3 & Hparent & Hrun).
    unfold reads in Hparent. injection Hparent as _ <-.
    apply bind_inr in Hrun as (nodeIDFilter & d4 & Hfilter & Hrun).
    unfold try in Hfilter. injection Hfilter as _ <-.
    exact (listNodeExecutions_contract _ _ _ _ _ _ _ _ _ Hrun).
  - intros request d d' response Hrun.
    destruct (ListTasks_token _ _ _ _ Hrun) as (offset & Hoffset & ->).
    exists offset. split; [exact Hoffset | apply pageToken_contract].
Qed.

End Pagination.

(** ** Termination *)

Section Termination.

Context {DB Store : Type}.
Context {Repo : RepositoryInterface DB} {Exec : Executor} {Val : validation DB}.

Lemma TerminateExecution_abort_fails request (w : World DB Store) executionModel err :
  ValidateWorkflowExecutionIdentifier (etr_Id request) = None ->
  storedExecution request (db w) = inr executionModel ->
  TerminateWorkflowExecution (abortInput request executionModel) = Some err ->
  TerminateExecution request w =
    (inl err,
     mkWorld (db w) (storageClient w) (dispatched w)
       (aborted w ++ [abortInput request executionModel]) (published w)
       (PublishNotificationError w)).
Proof.
  unfold storedExecution, abortInput. intros Hvalid Hget Habort.
  unfold TerminateExecution, bind, check, try, reads, callTerminateWorkflowExecution.
  rewrite Hvalid, Hget. unfold check, try. now rewrite Habort.
Qed.

Lemma TerminateExecution_abort_succeeds request (w : World DB Store) executionModel :
  ValidateWorkflowExecutionIdentifier (etr_Id request) = None ->
  storedExecution request (db w) = inr executionModel ->
  TerminateWorkflowExecution (abortInput request executionModel) = None ->
  TerminateExecution request w =
    (match fst (ExecutionRepo_UpdateExecution
                  (set_AbortCause executionModel (etr_Cause request)) (db w)) with
     | inl e => inl e
     | inr _ => inr Build_ExecutionTerminateResponse
     end,
     mkWorld
       (snd (ExecutionRepo_UpdateExecution
               (set_AbortCause executionModel (etr_Cause request)) (db w)))
       (storageClient w) (dispatched w)
       (aborted w ++ [abortInput request executionModel]) (published w)
       (PublishNotificationError w)).
Proof.
  unfold storedExecution, abortInput. intros Hvalid Hget Habort.
  unfold TerminateExecution, bind, check, try, reads, callTerminateWorkflowExecution.
  rewrite Hvalid, Hget. unfold check, try. rewrite Habort.
  unfold onDB. cbn [db storageClient dispatched aborted published PublishNotificationError].
  now destruct (ExecutionRepo_UpdateExecution _ _) as [[e|[]] d'].
Qed.

(** C7. For a valid terminate request on an existing execution: if the
    executor's abort call fails, its error is returned and the repository
    (hence every stored execution record and its abort cause) and the blob
    store are as before; if it succeeds, the record with the request's cause
    as abort cause is handed to the repository's update.  Conversely,
    whatever the request, a repository that differs after the call means the
    abort call was made for a stored execution and succeeded. *)
Theorem TerminateExecution_persists_cause_only_after_abort :
  (forall request (w : World DB Store) executionModel,
      ValidateWorkflowExecutionIdentifier (etr_Id request) = None ->
      storedExecution request (db w) = inr executionModel ->
      (forall err,
          TerminateWorkflowExecution (abortInput request executionModel) = Some err ->
          fst (TerminateExecution request w) = inl err /\
          db (snd (TerminateExecution request w)) = db w /\
          storageClient (snd (TerminateExecution request w)) = storageClient w) /\
      (TerminateWorkflowExecution (abortInput request executionModel) = None ->
       db (snd (TerminateExecution request w))
         = snd (ExecutionRepo_UpdateExecution
                  (set_AbortCause executionModel (etr_Cause request)) (db w)) /\
       models.AbortCause (set_AbortCause executionModel (etr_Cause request))
         = etr_Cause request)) /\
  (forall request (w : World DB Store),
      db (snd (TerminateExecution request w)) <> db w ->
      exists executionModel,
        storedExecution request (db w) = inr executionModel /\
        TerminateWorkflowExecution (abortInput request executionModel) = None /\
        In (abortInput request executionModel) (aborted (snd (TerminateExecution request w)))).
Proof.
  split.
  - intros request w executionModel Hvalid Hget. split.
    + intros err Habort.
      now rewrite (TerminateExecution_abort_fails _ _ _ _ Hvalid Hget Habort).
    + intros Habort.
      now rewrite (TerminateExecution_abort_succeeds _ _ _ Hvalid Hget Habort).
  - intros request w Hchanged.
    destruct (ValidateWorkflowExecutionIdentifier (etr_Id request)) as [e|] eqn:Hvalid.
    { exfalso. apply Hchanged.
      unfold TerminateExecution, bind, check, try. now rewrite Hvalid. }
    destruct (storedExecution request (db w)) as [e|executionModel] eqn:Hget.
    { exfalso. apply Hchanged. unfold storedExecution in Hget.
      unfold TerminateExecution, bind, check, try, reads. now rewrite Hvalid, Hget. }
    exists executionModel. split; [reflexivity|].
    destruct (TerminateWorkflowExecution (abortInput request executionModel)) as [err|] eqn:Habort.
    { exfalso. apply Hchanged.
      now rewrite (TerminateExecution_abort_fails _ _ _ _ Hvalid Hget Habort). }
    split; [reflexivity|].
    rewrite (TerminateExecution_abort_succeeds _ _ _ Hvalid Hget Habort).
    cbn [snd aborted]. apply in_or_app. right. now left.
Qed.

End Termination.

(** ** The notification processor *)

Section Delivery.

Context {Mail : Emailer} {Enc : encoding} {Pb : proto}.

Lemma Inc_effects c p :
  acknowledged (Inc c p) = acknowledged p /\ emailed (Inc c p) = emailed p.
Proof. split; reflexivity. Qed.

Lemma markMessageDone_effects msg p :
  acknowledged (markMessageDone msg p) = (acknowledged p ++ [msg])%list /\
  emailed (markMessageDone msg p) = emailed p.
Proof. unfold markMessageDone. destruct (Done msg); split; reflexivity. Qed.

Lemma sendEmail_effects emailMessage p :
  acknowledged (sendEmail emailMessage p) = acknowledged p /\
  emailed (sendEmail emailMessage p) = (emailed p ++ [emailMessage])%list.
Proof. unfold sendEmail. destruct (SendEmail emailMessage); split; reflexivity. Qed.

Lemma Inc_MessageTotal c p :
  MessageTotal (systemMetrics (Inc c p)) =
    match c with
    | cMessageTotal => S (MessageTotal (systemMetrics p))
    | _ => MessageTotal (systemMetrics p)
    end.
Proof. now destruct c. Qed.

Lemma markMessageDone_MessageTotal msg p :
  MessageTotal (systemMetrics (markMessageDone msg p)) = MessageTotal (systemMetrics p).
Proof. unfold markMessageDone. now destruct (Done msg). Qed.

Lemma sendEmail_MessageTotal emailMessage p :
  MessageTotal (systemMetrics (sendEmail emailMessage p)) = MessageTotal (systemMetrics p).
Proof. unfold sendEmail. now destruct (SendEmail emailMessage). Qed.

(** One iteration: whatever the outcome, the message is marked done once,
    after at most one e-mail attempt, and counted once. *)
Lemma processMessage_effects msg p :
  acknowledged (processMessage msg p) = (acknowledged p ++ [msg])%list /\
  emailed (processMessage msg p) = (emailed p ++ attempted (outcomeOf msg))%list /\
  MessageTotal (systemMetrics (processMessage msg p)) = S (MessageTotal (systemMetrics p)).
Proof.
  unfold processMessage, outcomeOf.
  destruct (json_Unmarshal (Message msg)) as [e|snsJSONFormat].
  { rewrite markMessageDone_MessageTotal.
    destruct (markMessageDone_effects msg (Inc cMessageDecodingError (Inc cMessageTotal p)))
      as [-> ->].
    cbn [attempted]. rewrite app_nil_r. repeat split. }
  destruct (snsJSONFormat !! "Message") as [value|].
  2: { rewrite markMessageDone_MessageTotal.
       destruct (markMessageDone_effects msg (Inc cMessageDataError (Inc cMessageTotal p)))
         as [-> ->].
       cbn [attempted]. rewrite app_nil_r. repeat split. }
  destruct value as [ |b|digits|valueString|elements|members];
    try (rewrite markMessageDone_MessageTotal;
         destruct (markMessageDone_effects msg (Inc cMessageDataError (Inc cMessageTotal p)))
           as [-> ->];
         cbn [attempted]; rewrite app_nil_r; repeat split).
  destruct (base64_DecodeString valueString) as [e|notificationBytes].
  { rewrite markMessageDone_MessageTotal.
    destruct (markMessageDone_effects msg (Inc cMessageDecodingError (Inc cMessageTotal p)))
      as [-> ->].
    cbn [attempted]. rewrite app_nil_r. repeat split. }
  destruct (Unmarshal_EmailMessage notificationBytes) as [e|emailMessage].
  { rewrite markMessageDone_MessageTotal.
    destruct (markMessageDone_effects msg (Inc cMessageDecodingError (Inc cMessageTotal p)))
      as [-> ->].
    cbn [attempted]. rewrite app_nil_r. repeat split. }
  rewrite markMessageDone_MessageTotal, sendEmail_MessageTotal.
  destruct (markMessageDone_effects msg (sendEmail emailMessage (Inc cMessageTotal p)))
    as [-> ->].
  destruct (sendEmail_effects emailMessage (Inc cMessageTotal p)) as [-> ->].
  destruct (SendEmail emailMessage); repeat split.
Qed.

Lemma fold_processMessage_effects msgs :
  forall p,
    let p' := fold_left (fun p msg => processMessage msg p) msgs p in
    acknowledged p' = (acknowledged p ++ msgs)%list /\
    emailed p' = (emailed p ++ concat ((fun msg => attempted (outcomeOf msg)) <$> msgs))%list /\
    MessageTotal (systemMetrics p') = MessageTotal (systemMetrics p) + length msgs.
Proof.
  induction msgs as [|msg msgs IH]; intros p; cbn zeta.
  - cbn. rewrite !app_nil_r. repeat split. lia.
  - cbn [fold_left]. destruct (IH (processMessage msg p)) as (Hack & Hmail & Htotal).
    destruct (processMessage_effects msg p) as (Hack1 & Hmail1 & Htotal1).
    rewrite Hack, Hmail, Htotal, Hack1, Hmail1, Htotal1.
    rewrite fmap_cons. cbn [concat length]. rewrite <- !app_assoc. repeat split. lia.
Qed.

(** C8. Every message the subscription delivers before its channel closes
    is marked done exactly once, in the order received, whichever way its
    processing ends: JSON decoding failure, missing or non-string "Message"
    field, base64 failure, payload deserialization failure, e-mail sent or
    e-mail failed.  At most one e-mail is attempted per message and none is
    retried.  The loop goes through all the delivered messages and then
    returns what the subscription reports as its error. *)
Theorem StartProcessing_acknowledges_every_message_once :
  (forall (msg : SubscriberMessage) (p : Processor),
      acknowledged (processMessage msg p) = (acknowledged p ++ [msg])%list /\
      emailed (processMessage msg p) = (emailed p ++ attempted (outcomeOf msg))%list /\
      length (attempted (outcomeOf msg)) <= 1) /\
  (forall (sub : Subscriber) (p : Processor),
      acknowledged (snd (StartProcessing sub p)) = (acknowledged p ++ Start sub)%list /\
      (forall msg : SubscriberMessage,
          count_occ SubscriberMessage_eq_dec (acknowledged (snd (StartProcessing sub p))) msg
          = count_occ SubscriberMessage_eq_dec (acknowledged p) msg
            + count_occ SubscriberMessage_eq_dec (Start sub) msg) /\
      emailed (snd (StartProcessing sub p))
        = (emailed p ++ concat ((fun msg => attempted (outcomeOf msg)) <$> Start sub))%list /\
      MessageTotal (systemMetrics (snd (StartProcessing sub p)))
        = MessageTotal (systemMetrics p) + length (Start sub) /\
      fst (StartProcessing sub p) = Err sub).
Proof.
  split.
  - intros msg p. destruct (processMessage_effects msg p) as (Hack & Hmail & _).
    split; [exact Hack|]. split; [exact Hmail|].
    destruct (outcomeOf msg); cbn; lia.
  - intros sub p. destruct (fold_processMessage_effects (Start sub) p) as (Hack & Hmail & Htotal).
    assert (Hsnd : acknowledged (snd (StartProcessing sub p)) = (acknowledged p ++ Start sub)%list
                   /\ emailed (snd (StartProcessing sub p))
                      = (emailed p
                           ++ concat ((fun msg => attempted (outcomeOf msg)) <$> Start sub))%list
                   /\ MessageTotal (systemMetrics (snd (StartProcessing sub p)))
                      = MessageTotal (systemMetrics p) + length (Start sub)
                   /\ fst (StartProcessing sub p) = Err sub).
    { unfold StartProcessing. destruct (Err sub); cbn [fst snd].
      - rewrite Inc_MessageTotal. destruct (Inc_effects cChannelClosedError
          (fold_left (fun p msg => processMessage msg p) (Start sub) p)) as [-> ->].
        now rewrite Hack, Hmail, Htotal.
      - now rewrite Hack, Hmail, Htotal. }
    destruct Hsnd as (Hack' & Hmail' & Htotal' & Herr).
    split; [exact Hack'|]. split; [|split; [exact Hmail'|split; [exact Htotal'|exact Herr]]].
    intros msg. rewrite Hack'. apply count_occ_app.
Qed.

End Delivery.

(** ** Reads *)

Section Reads.

Context {DB Store : Type}.
Context {Repo : RepositoryInterface DB} {Blob : DataStore Store} {UrlData : RemoteURLInterface}
        {Val : validation DB} {Utl : util DB Store} {Trn : transformers} {Cmn : common}
        {Pb : proto} {Shr : shared}.

Lemma readOnly_ret {S A} (a : A) : readOnly (@ret S A a).
Proof. now intros s. Qed.

Lemma readOnly_throw {S A} (e : error) : readOnly (@throw S A e).
Proof. now intros s. Qed.

Lemma readOnly_try {S A} (r : error + A) : readOnly (@try S A r).
Proof. now intros s. Qed.

Lemma readOnly_reads {S A} (f : S -> error + A) : readOnly (reads f).
Proof. now intros s. Qed.

Lemma readOnly_check {S} (o : option error) : readOnly (@check S o).
Proof. now intros s. Qed.

Lemma readOnly_checks {S} (f : S -> option error) : readOnly (checks f).
Proof. now intros s. Qed.

Lemma readOnly_bind {S A B} (m : M S A) (k : A -> M S B) :
  readOnly m -> (forall a, readOnly (k a)) -> readOnly (bind m k).
Proof.
  intros Hm Hk s. unfold bind. specialize (Hm s).
  destruct (m s) as [[e|a] s']; cbn in Hm; subst s'; [reflexivity | apply Hk].
Qed.

Create HintDb read_only.

#[local] Hint Resolve readOnly_ret readOnly_throw readOnly_try readOnly_reads
  readOnly_check readOnly_checks : read_only.

Ltac read_only :=
  repeat first
    [ apply readOnly_bind; [|intros ?]
    | solve [auto with read_only]
    | match goal with
      | |- readOnly (if ?c then _ else _) => destruct c
      | |- readOnly (match ?x with _ => _ end) => destruct x
      end ].

Lemma GetExecution_readOnly request : readOnly (GetExecution (DB := DB) (Store := Store) request).
Proof. unfold GetExecution. read_only. Qed.

Lemma ListExecutions_readOnly request :
  readOnly (ListExecutions (DB := DB) (Store := Store) request).
Proof. unfold ListExecutions. read_only. Qed.

Lemma length_zero_empty (s : string) : String.length s = 0 <-> s = "".
Proof. destruct s; cbn; split; congruence. Qed.

(** A record that already carries an inputs reference is only read. *)
Lemma GetExecutionData_offloaded request (w : World DB Store) executionModel :
  GetExecutionModel (db w) (wgdr_Id request) = inr executionModel ->
  models.InputsURI executionModel <> "" ->
  snd (GetExecutionData request w) = w.
Proof.
  intros Hget Hnew. unfold GetExecutionData, bind at 1, reads. rewrite Hget.
  rewrite decide_False by (now rewrite length_zero_empty).
  match goal with |- snd (?m w) = w => enough (Hm : readOnly m) by apply Hm end.
  read_only.
Qed.

Lemma GetExecutionData_not_found request (w : World DB Store) e :
  GetExecutionModel (db w) (wgdr_Id request) = inl e ->
  GetExecutionData request w = (inl e, w).
Proof.
  intros Hget. unfold GetExecutionData, bind at 1, reads. now rewrite Hget.
Qed.

(** A record without an inputs reference: the state after the call.  The
    call returns before any write when the record does not transform, its
    outputs cannot be signed or its closure does not decode; otherwise the
    computed inputs held in the closure are offloaded and, if that succeeds,
    the record is updated with the new reference. *)
Lemma GetExecutionData_legacy_state request (w : World DB Store) executionModel :
  GetExecutionModel (db w) (wgdr_Id request) = inr executionModel ->
  models.InputsURI executionModel = "" ->
  snd (GetExecutionData request w) =
    match FromExecutionModel executionModel with
    | inl _ => w
    | inr execution =>
        match signedOutputs execution with
        | inl _ => w
        | inr _ =>
            match Unmarshal_ExecutionClosure (models.Closure executionModel) with
            | inl _ => w
            | inr closure =>
                match offloadInputs (closure_ComputedInputs closure) (wgdr_Id request)
                        shared_Inputs w with
                | (inl _, w1) => w1
                | (inr newInputsURI, w1) =>
                    snd (onDB (ExecutionRepo_UpdateExecution
                                 (set_InputsURI executionModel newInputsURI)) w1)
                end
            end
        end
    end.
Proof.
  intros Hget Hlegacy. unfold GetExecutionData, bind at 1, reads. rewrite Hget.
  unfold bind at 1, try at 1.
  destruct (FromExecutionModel executionModel) as [e|execution]; [reflexivity|].
  unfold bind at 1.
  assert (Hsigned :
    match closure_Outputs (exec_Closure execution) with
    | Some outputs =>
        if negb (String.eqb (Uri outputs) "") then try (urlData_Get (Uri outputs))
        else ret {| Url := ""; Bytes := 0 |}
    | None => ret {| Url := ""; Bytes := 0 |}
    end w = (signedOutputs execution, w)).
  { unfold signedOutputs. destruct (closure_Outputs (exec_Closure execution)) as [outputs|];
      [|reflexivity].
    now destruct (negb (String.eqb (Uri outputs) "")). }
  rewrite Hsigned. destruct (signedOutputs execution) as [e|blob]; [reflexivity|].
  rewrite decide_True by (now rewrite length_zero_empty).
  unfold bind at 1. unfold bind at 1. unfold bind at 1, try at 1.
  destruct (Unmarshal_ExecutionClosure (models.Closure executionModel)) as [e|closure];
    [reflexivity|].
  unfold bind at 1.
  destruct (offloadInputs (closure_ComputedInputs closure) (wgdr_Id request) shared_Inputs w)
    as [[e|newInputsURI] w1]; [reflexivity|].
  unfold bind at 1.
  destruct (onDB _ w1) as [[e|[]] w2]; [reflexivity|].
  unfold ret at 1. cbn [snd]. unfold try.
  now destruct (urlData_Get _).
Qed.

Lemma offloadInputs_db literalMap identifier key (w : World DB Store) :
  db (snd (offloadInputs literalMap identifier key w)) = db w.
Proof.
  unfold offloadInputs, bind at 1, try at 1.
  destruct (ConstructReference _ _) as [e|uri]; [reflexivity|].
  unfold bind, onStore. now destruct (WriteProtobuf uri _ (storageClient w)) as [[e|[]] st].
Qed.

(** C9, amended.  GetExecution and ListExecutions leave the whole state as
    it was, whatever the request.  GetExecutionData leaves it as it was when
    the execution is not found or its stored record carries an inputs
    reference.  It changes the state only for a record without one (an
    execution created before inputs were offloaded), and only once the
    record has been transformed, its outputs, if it records any, signed, and
    its closure decoded.  It then offloads the computed inputs held in the
    closure: whatever the outputs of the execution are, if the offload
    succeeds the blob store is the one the offload left and the repository
    is the one left by the update of the record with the new reference as
    its inputs reference; if the offload fails the repository is as it
    was. *)
Theorem reads_leave_the_state_unchanged :
  (forall request (w : World DB Store), snd (GetExecution request w) = w) /\
  (forall request (w : World DB Store), snd (ListExecutions request w) = w) /\
  (forall request (w : World DB Store) executionModel,
      GetExecutionModel (db w) (wgdr_Id request) = inr executionModel ->
      models.InputsURI executionModel <> "" ->
      snd (GetExecutionData request w) = w) /\
  (forall request (w : World DB Store),
      snd (GetExecutionData request w) <> w ->
      exists executionModel execution signedOutputsURLBlob closure,
        GetExecutionModel (db w) (wgdr_Id request) = inr executionModel /\
        models.InputsURI executionModel = "" /\
        FromExecutionModel executionModel = inr execution /\
        signedOutputs execution = inr signedOutputsURLBlob /\
        Unmarshal_ExecutionClosure (models.Closure executionModel) = inr closure /\
        exists inputsURI,
          ConstructReference GetBaseContainerFQN
            [shared_Metadata; wei_Project (wgdr_Id request); wei_Domain (wgdr_Id request);
             wei_Name (wgdr_Id request); shared_Inputs] = inr inputsURI) /\
  (forall request (w : World DB Store) executionModel execution signedOutputsURLBlob closure,
      GetExecutionModel (db w) (wgdr_Id request) = inr executionModel ->
      models.InputsURI executionModel = "" ->
      FromExecutionModel executionModel = inr execution ->
      signedOutputs execution = inr signedOutputsURLBlob ->
      Unmarshal_ExecutionClosure (models.Closure executionModel) = inr closure ->
      (forall newInputsURI w1,
          offloadInputs (closure_ComputedInputs closure) (wgdr_Id request) shared_Inputs w
            = (inr newInputsURI, w1) ->
          db (snd (GetExecutionData request w))
            = snd (ExecutionRepo_UpdateExecution
                     (set_InputsURI executionModel newInputsURI) (db w)) /\
          storageClient (snd (GetExecutionData request w)) = storageClient w1 /\
          models.InputsURI (set_InputsURI executionModel newInputsURI) = newInputsURI) /\
      (forall e w1,
          offloadInputs (closure_ComputedInputs closure) (wgdr_Id request) shared_Inputs w
            = (inl e, w1) ->
          snd (GetExecutionData request w) = w1 /\ db w1 = db w)) /\
  (forall request (w : World DB Store) executionModel,
      GetExecutionModel (db w) (wgdr_Id request) = inr executionModel ->
      models.InputsURI executionModel = "" ->
      (forall e, FromExecutionModel executionModel = inl e ->
                 snd (GetExecutionData request w) = w) /\
      (forall execution e,
          FromExecutionModel executionModel = inr execution ->
          signedOutputs execution = inl e \/
          Unmarshal_ExecutionClosure (models.Closure executionModel) = inl e ->
          snd (GetExecutionData request w) = w)).
Proof.
  split; [exact GetExecution_readOnly|].
  split; [exact ListExecutions_readOnly|].
  split; [exact GetExecutionData_offloaded|].
  split; [|split].
  - intros request w Hchanged.
    destruct (GetExecutionModel (db w) (wgdr_Id request)) as [e|executionModel] eqn:Hget.
    { exfalso. apply Hchanged. now rewrite (GetExecutionData_not_found _ _ _ Hget). }
    destruct (decide (models.InputsURI executionModel = "")) as [Hlegacy|Hnew].
    2: { exfalso. apply Hchanged. exact (GetExecutionData_offloaded _ _ _ Hget Hnew). }
    rewrite (GetExecutionData_legacy_state _ _ _ Hget Hlegacy) in Hchanged.
    destruct (FromExecutionModel executionModel) as [e|execution] eqn:Hfrom;
      [contradiction|].
    destruct (signedOutputs execution) as [e|blob] eqn:Hsigned; [contradiction|].
    destruct (Unmarshal_ExecutionClosure (models.Closure executionModel)) as [e|closure]
      eqn:Hclosure; [contradiction|].
    exists executionModel, execution, blob, closure.
    repeat (split; [first [assumption | reflexivity]|]).
    destruct (ConstructReference GetBaseContainerFQN
                [shared_Metadata; wei_Project (wgdr_Id request);
                 wei_Domain (wgdr_Id request); wei_Name (wgdr_Id request); shared_Inputs])
      as [e|inputsURI] eqn:Href; [|now exists inputsURI].
    exfalso. apply Hchanged.
    unfold offloadInputs, bind at 1, try at 1. now rewrite Href.
  - intros request w executionModel execution blob closure Hget Hlegacy Hfrom Hsigned
      Hclosure.
    pose proof (GetExecutionData_legacy_state _ _ _ Hget Hlegacy) as Hstate.
    rewrite Hfrom, Hsigned, Hclosure in Hstate. split.
    + intros newInputsURI w1 Hoffload. rewrite Hoffload in Hstate. rewrite Hstate.
      assert (Hdb : db w1 = db w).
      { pose proof (offloadInputs_db (closure_ComputedInputs closure) (wgdr_Id request)
                      shared_Inputs w) as Hkeep.
        now rewrite Hoffload in Hkeep. }
      unfold onDB. rewrite Hdb.
      destruct (ExecutionRepo_UpdateExecution _ (db w)) as [r d']. repeat split.
    + intros e w1 Hoffload. rewrite Hoffload in Hstate. split; [exact Hstate|].
      pose proof (offloadInputs_db (closure_ComputedInputs closure) (wgdr_Id request)
                    shared_Inputs w) as Hkeep.
      now rewrite Hoffload in Hkeep.
  - intros request w executionModel Hget Hlegacy.
    pose proof (GetExecutionData_legacy_state _ _ _ Hget Hlegacy) as Hstate. split.
    + intros e Hfrom. now rewrite Hfrom in Hstate.
    + intros execution e Hfrom [Hsigned|Hclosure]; rewrite Hfrom in Hstate.
      * now rewrite Hsigned in Hstate.
      * rewrite Hclosure in Hstate. now destruct (signedOutputs execution).
Qed.

End Reads.

(** ** Task registration *)

Section Tasks.

Context {DB Store : Type}.
Context {Repo : RepositoryInterface DB} {Cmp : Compiler} {Cfg : Configuration}
        {Val : validation DB} {Utl : util DB Store} {Trn : transformers} {Pb : proto}.

Lemma setDefaults_identifier request id :
  tcr_Id request = Some id ->
  exists finalizedRequest,
    setDefaults request = inr finalizedRequest /\
    tcr_Id finalizedRequest = Some id /\
    tt_Id (ts_Template (tcr_Spec finalizedRequest)) = Some id /\
    tt_Type (ts_Template (tcr_Spec finalizedRequest))
      = tt_Type (ts_Template (tcr_Spec request)) /\
    tt_Target (ts_Template (tcr_Spec finalizedRequest))
      = tt_Target (ts_Template (tcr_Spec request)).
Proof.
  intros Hid. unfold setDefaults. rewrite Hid. eexists. split; [reflexivity|].
  repeat split.
Qed.

Lemma CreateTask_existing request (d : DB) id finalizedRequest compiledTask createdAt
    taskDigest existingTask :
  ValidateTask d request = None ->
  tcr_Id request = Some id ->
  setDefaults request = inr finalizedRequest ->
  CompileTask (ts_Template (tcr_Spec finalizedRequest)) = inr compiledTask ->
  TimestampProto clock_Now = inr createdAt ->
  GetTaskDigest compiledTask = inr taskDigest ->
  GetTaskModel d (Some id) = inr existingTask ->
  CreateTask request d =
    (inl (if bytes_Equal taskDigest (models.t_Digest existingTask)
          then NewFlyteAdminErrorf AlreadyExists "identical task already exists with id %s"
          else NewFlyteAdminErrorf InvalidArgument
                 "task with different structure already exists with id %v"), d).
Proof.
  intros Hvalid Hid Hdefaults Hcompile Htime Hdigest Hget.
  destruct (setDefaults_identifier request id Hid) as (f & Hf & _ & Hfid & _).
  rewrite Hdefaults in Hf. injection Hf as <-.
  unfold CreateTask, bind, checks, check, try.
  rewrite Hvalid, Hdefaults, Hcompile, Htime, Hdigest. unfold ret at 1.
  rewrite Hfid, Hget. now destruct (bytes_Equal _ _).
Qed.

(** C10. A CreateTask request that passes validation, names an identifier
    under which a task is already stored, and whose template compiles and
    digests (the creation time being serializable), fails and leaves the
    repository as it was: with AlreadyExists when the digest of the newly
    compiled task equals the stored digest, with InvalidArgument when the
    two differ. *)
Theorem CreateTask_rejects_stored_identifier
    (request : TaskCreateRequest) (d : DB) (id : Identifier)
    (finalizedRequest : TaskCreateRequest) (compiledTask : CompiledTask)
    (createdAt : Time) (taskDigest : bytes) (existingTask : models.Task) :
  ValidateTask d request = None ->
  tcr_Id request = Some id ->
  setDefaults request = inr finalizedRequest ->
  CompileTask (ts_Template (tcr_Spec finalizedRequest)) = inr compiledTask ->
  TimestampProto clock_Now = inr createdAt ->
  GetTaskDigest compiledTask = inr taskDigest ->
  GetTaskModel d (Some id) = inr existingTask ->
  (taskDigest = models.t_Digest existingTask -> rejects (CreateTask request) d AlreadyExists) /\
  (taskDigest <> models.t_Digest existingTask ->
   rejects (CreateTask request) d InvalidArgument).
Proof.
  intros Hvalid Hid Hdefaults Hcompile Htime Hdigest Hget.
  pose proof (CreateTask_existing _ _ _ _ _ _ _ _
                Hvalid Hid Hdefaults Hcompile Htime Hdigest Hget) as Hrun.
  unfold bytes_Equal in Hrun. split; intros Hcmp.
  - rewrite bool_decide_eq_true_2 in Hrun by exact Hcmp.
    eexists. split; [exact Hrun | reflexivity].
  - rewrite bool_decide_eq_false_2 in Hrun by exact Hcmp.
    eexists. split; [exact Hrun | reflexivity].
Qed.

End Tasks.

(** ** Accepted workflow events *)

Section AcceptedEvents.

Context {DB Store : Type}.
Context {Repo : RepositoryInterface DB} {Blob : DataStore Store} {Pub : Publisher}
        {Cfg : Configuration} {Val : validation DB} {Utl : util DB Store}
        {Trn : transformers} {Cmn : common} {Ntf : notifications}.

(** What [publishNotifications] leaves alone, whether it fails or not. *)
Lemma publishNotifications_frame request execution (w : World DB Store) :
  db (snd (publishNotifications request execution w)) = db w /\
  storageClient (snd (publishNotifications request execution w)) = storageClient w /\
  dispatched (snd (publishNotifications request execution w)) = dispatched w /\
  aborted (snd (publishNotifications request execution w)) = aborted w.
Proof.
  unfold publishNotifications.
  destruct (FromExecutionModel execution) as [e|adminExecution]; [now cbn|].
  rewrite publishEach_spec. now cbn.
Qed.

(** An event that passes the two guards: the shape of the whole call. *)
Lemma CreateWorkflowEvent_accepted (w : World DB Store) request stored model event :
  ValidateCreateWorkflowEventRequest request = None ->
  GetExecutionModel (db w) (wev_ExecutionId (wer_Event request)) = inr stored ->
  WorkflowExecution_Phase_value (models.Phase stored) <> wev_Phase (wer_Event request) ->
  IsExecutionTerminal (WorkflowExecution_Phase_value (models.Phase stored)) = false ->
  UpdateExecutionModelState stored request = inr model ->
  CreateExecutionEventModel request = inr event ->
  CreateWorkflowEvent request w =
    match fst (ExecutionRepo_Update event model (db w)) with
    | inl e => (inl e, afterUpdate w event model)
    | inr _ =>
        if decide (wev_Phase (wer_Event request) = WorkflowExecution_RUNNING)
        then (inr Build_WorkflowExecutionEventResponse, afterUpdate w event model)
        else if IsExecutionTerminal (wev_Phase (wer_Event request))
        then
          (match fst (publishNotifications request model (afterUpdate w event model)) with
           | inl e => inl e
           | inr _ => inr Build_WorkflowExecutionEventResponse
           end,
           snd (publishNotifications request model (afterUpdate w event model)))
        else (inr Build_WorkflowExecutionEventResponse, afterUpdate w event model)
    end.
Proof.
  intros Hvalid Hget Hne Hnonterminal Hupdate Hevent.
  unfold CreateWorkflowEvent, bind at 1, check, try at 1. rewrite Hvalid.
  unfold bind at 1, reads. rewrite Hget.
  rewrite decide_False by exact Hne. rewrite Hnonterminal.
  unfold bind at 1, try at 1. rewrite Hupdate.
  unfold bind at 1, try at 1. rewrite Hevent.
  unfold bind at 1, onDB, afterUpdate.
  destruct (ExecutionRepo_Update event model (db w)) as [[e|[]] d']; cbn [fst snd];
    [reflexivity|].
  unfold bind at 1.
  destruct (decide (wev_Phase (wer_Event request) = WorkflowExecution_RUNNING));
    [reflexivity|].
  destruct (IsExecutionTerminal (wev_Phase (wer_Event request))); [|reflexivity].
  now destruct (publishNotifications request model _) as [[e|[]] w2].
Qed.

(** An accepted transition into the running phase, or into a phase that is
    not terminal: the call succeeds exactly when [ExecutionRepo().Update]
    of the event and the updated model does, and returns its error
    otherwise; either way the repository is the one that call left, nothing
    is published and the blob store is as it was. *)
Theorem CreateWorkflowEvent_accepts_nonterminal_transition
    (w : World DB Store) request stored model event :
  ValidateCreateWorkflowEventRequest request = None ->
  GetExecutionModel (db w) (wev_ExecutionId (wer_Event request)) = inr stored ->
  WorkflowExecution_Phase_value (models.Phase stored) <> wev_Phase (wer_Event request) ->
  IsExecutionTerminal (WorkflowExecution_Phase_value (models.Phase stored)) = false ->
  UpdateExecutionModelState stored request = inr model ->
  CreateExecutionEventModel request = inr event ->
  wev_Phase (wer_Event request) = WorkflowExecution_RUNNING \/
  IsExecutionTerminal (wev_Phase (wer_Event request)) = false ->
  fst (CreateWorkflowEvent request w) =
    match fst (ExecutionRepo_Update event model (db w)) with
    | inl e => inl e
    | inr _ => inr Build_WorkflowExecutionEventResponse
    end /\
  (fst (CreateWorkflowEvent request w) = inr Build_WorkflowExecutionEventResponse <->
   fst (ExecutionRepo_Update event model (db w)) = inr tt) /\
  db (snd (CreateWorkflowEvent request w)) = snd (ExecutionRepo_Update event model (db w)) /\
  published (snd (CreateWorkflowEvent request w)) = published w /\
  storageClient (snd (CreateWorkflowEvent request w)) = storageClient w /\
  dispatched (snd (CreateWorkflowEvent request w)) = dispatched w /\
  aborted (snd (CreateWorkflowEvent request w)) = aborted w.
Proof.
  intros Hvalid Hget Hne Hnonterminal Hupdate Hevent Hphase.
  rewrite (CreateWorkflowEvent_accepted _ _ _ _ _ Hvalid Hget Hne Hnonterminal Hupdate Hevent).
  destruct (fst (ExecutionRepo_Update event model (db w))) as [e|[]] eqn:Hstored.
  { cbn. repeat split; discriminate. }
  destruct (decide (wev_Phase (wer_Event request) = WorkflowExecution_RUNNING)) as [|Hnr];
    [now cbn|].
  destruct Hphase as [Hrunning|Hnt]; [contradiction|]. rewrite Hnt. now cbn.
Qed.

(** An accepted transition into a terminal phase other than running: the
    event and the updated model are stored first, then the notifications of
    the updated model are published.  An error of the notification step is
    returned to the caller, and the stored transition stays. *)
Theorem CreateWorkflowEvent_terminal_transition_notifies_after_storing
    (w : World DB Store) request stored model event :
  ValidateCreateWorkflowEventRequest request = None ->
  GetExecutionModel (db w) (wev_ExecutionId (wer_Event request)) = inr stored ->
  WorkflowExecution_Phase_value (models.Phase stored) <> wev_Phase (wer_Event request) ->
  IsExecutionTerminal (WorkflowExecution_Phase_value (models.Phase stored)) = false ->
  UpdateExecutionModelState stored request = inr model ->
  CreateExecutionEventModel request = inr event ->
  fst (ExecutionRepo_Update event model (db w)) = inr tt ->
  wev_Phase (wer_Event request) <> WorkflowExecution_RUNNING ->
  IsExecutionTerminal (wev_Phase (wer_Event request)) = true ->
  db (snd (CreateWorkflowEvent request w)) = snd (ExecutionRepo_Update event model (db w)) /\
  published (snd (CreateWorkflowEvent request w))
    = published (snd (publishNotifications request model (afterUpdate w event model))) /\
  (forall e,
      fst (publishNotifications request model (afterUpdate w event model)) = inl e ->
      fst (CreateWorkflowEvent request w) = inl e) /\
  (fst (publishNotifications request model (afterUpdate w event model)) = inr tt ->
   fst (CreateWorkflowEvent request w) = inr Build_WorkflowExecutionEventResponse).
Proof.
  intros Hvalid Hget Hne Hnonterminal Hupdate Hevent Hstored Hnr Hterminal.
  rewrite (CreateWorkflowEvent_accepted _ _ _ _ _ Hvalid Hget Hne Hnonterminal Hupdate Hevent).
  rewrite Hstored, decide_False by exact Hnr. rewrite Hterminal. cbn [fst snd].
  destruct (publishNotifications_frame request model (afterUpdate w event model)) as (Hdb & _).
  split; [exact Hdb|]. split; [reflexivity|].
  split; [intros e He; now rewrite He | intros Hok; now rewrite Hok].
Qed.

Lemma CreateWorkflowEvent_invalid (w : World DB Store) request e :
  ValidateCreateWorkflowEventRequest request = Some e ->
  CreateWorkflowEvent request w = (inl e, w).
Proof.
  intros Hvalid. unfold CreateWorkflowEvent, bind at 1, check, try at 1. now rewrite Hvalid.
Qed.

Lemma CreateWorkflowEvent_not_found (w : World DB Store) request e :
  ValidateCreateWorkflowEventRequest request = None ->
  GetExecutionModel (db w) (wev_ExecutionId (wer_Event request)) = inl e ->
  CreateWorkflowEvent request w = (inl e, w).
Proof.
  intros Hvalid Hget. unfold CreateWorkflowEvent, bind at 1, check, try at 1. rewrite Hvalid.
  unfold bind at 1, reads. now rewrite Hget.
Qed.

Lemma CreateWorkflowEvent_transformer_fails (w : World DB Store) request stored :
  ValidateCreateWorkflowEventRequest request = None ->
  GetExecutionModel (db w) (wev_ExecutionId (wer_Event request)) = inr stored ->
  WorkflowExecution_Phase_value (models.Phase stored) <> wev_Phase (wer_Event request) ->
  IsExecutionTerminal (WorkflowExecution_Phase_value (models.Phase stored)) = false ->
  (forall e, UpdateExecutionModelState stored request = inl e ->
             CreateWorkflowEvent request w = (inl e, w)) /\
  (forall model e,
      UpdateExecutionModelState stored request = inr model ->
      CreateExecutionEventModel request = inl e ->
      CreateWorkflowEvent request w = (inl e, w)).
Proof.
  intros Hvalid Hget Hne Hnonterminal.
  assert (Hstart : CreateWorkflowEvent request w =
            (let* executionModel := try (UpdateExecutionModelState stored request) in
             let* executionEventModel := try (CreateExecutionEventModel request) in
             let* _ := onDB (ExecutionRepo_Update executionEventModel executionModel) in
             let* _ :=
               if decide (wev_Phase (wer_Event request) = WorkflowExecution_RUNNING)
               then ret tt
               else if IsExecutionTerminal (wev_Phase (wer_Event request))
                    then publishNotifications request executionModel
                    else ret tt in
             ret Build_WorkflowExecutionEventResponse) w).
  { unfold CreateWorkflowEvent, bind at 1, check, try at 1. rewrite Hvalid.
    unfold bind at 1, reads. rewrite Hget.
    rewrite decide_False by exact Hne. now rewrite Hnonterminal. }
  split.
  - intros e He. rewrite Hstart. unfold bind at 1, try at 1. now rewrite He.
  - intros model e Hm He. rewrite Hstart. unfold bind at 1, try at 1. rewrite Hm.
    unfold bind at 1, try at 1. now rewrite He.
Qed.

(** Whatever the event and whatever the outcome, [CreateWorkflowEvent] leaves
    the blob store and the executor alone, and the repository either as it
    was or as [ExecutionRepo().Update] returned it for the event model of the
    request and the stored model updated with the request. *)
Theorem CreateWorkflowEvent_writes_only_the_transition (w : World DB Store) request :
  storageClient (snd (CreateWorkflowEvent request w)) = storageClient w /\
  dispatched (snd (CreateWorkflowEvent request w)) = dispatched w /\
  aborted (snd (CreateWorkflowEvent request w)) = aborted w /\
  (db (snd (CreateWorkflowEvent request w)) = db w \/
   exists stored model event,
     GetExecutionModel (db w) (wev_ExecutionId (wer_Event request)) = inr stored /\
     UpdateExecutionModelState stored request = inr model /\
     CreateExecutionEventModel request = inr event /\
     db (snd (CreateWorkflowEvent request w))
       = snd (ExecutionRepo_Update event model (db w))).
Proof.
  assert (Hsame : forall e, CreateWorkflowEvent request w = (inl e, w) ->
            storageClient (snd (CreateWorkflowEvent request w)) = storageClient w /\
            dispatched (snd (CreateWorkflowEvent request w)) = dispatched w /\
            aborted (snd (CreateWorkflowEvent request w)) = aborted w /\
            (db (snd (CreateWorkflowEvent request w)) = db w \/
             exists stored model event,
               GetExecutionModel (db w) (wev_ExecutionId (wer_Event request)) = inr stored /\
               UpdateExecutionModelState stored request = inr model /\
               CreateExecutionEventModel request = inr event /\
               db (snd (CreateWorkflowEvent request w))
                 = snd (ExecutionRepo_Update event model (db w)))).
  { intros e ->. cbn. repeat split. now left. }
  on_result (ValidateCreateWorkflowEventRequest request) Hvalid; destruct r as [e|].
  { exact (Hsame _ (CreateWorkflowEvent_invalid _ _ _ Hvalid)). }
  on_result (GetExecutionModel (db w) (wev_ExecutionId (wer_Event request))) Hget;
    destruct r as [e|stored].
  { exact (Hsame _ (CreateWorkflowEvent_not_found _ _ _ Hvalid Hget)). }
  destruct (decide (WorkflowExecution_Phase_value (models.Phase stored)
                    = wev_Phase (wer_Event request))) as [Heq|Hne].
  { exact (Hsame _ (CreateWorkflowEvent_duplicate _ _ _ Hvalid Hget Heq)). }
  on_result (IsExecutionTerminal (WorkflowExecution_Phase_value (models.Phase stored)))
    Hterminal; destruct r.
  { exact (Hsame _ (CreateWorkflowEvent_terminal _ _ _ Hvalid Hget Hterminal Hne)). }
  destruct (CreateWorkflowEvent_transformer_fails _ _ _ Hvalid Hget Hne Hterminal)
    as [Hfail1 Hfail2].
  on_result (UpdateExecutionModelState stored request) Hupdate; destruct r as [e|model].
  { exact (Hsame _ (Hfail1 _ Hupdate)). }
  on_result (CreateExecutionEventModel request) Hevent; destruct r as [e|event].
  { exact (Hsame _ (Hfail2 _ _ Hupdate Hevent)). }
  clear Hsame Hfail1 Hfail2.
  rewrite (CreateWorkflowEvent_accepted _ _ _ _ _ Hvalid Hget Hne Hterminal Hupdate Hevent).
  destruct (publishNotifications_frame request model (afterUpdate w event model))
    as (Hdb & Hstore & Hdispatched & Haborted).
  assert (Hwritten : forall d,
             d = snd (ExecutionRepo_Update event model (db w)) ->
             d = db w \/
             exists stored0 model0 event0,
               GetExecutionModel (db w) (wev_ExecutionId (wer_Event request)) = inr stored0 /\
               UpdateExecutionModelState stored0 request = inr model0 /\
               CreateExecutionEventModel request = inr event0 /\
               d = snd (ExecutionRepo_Update event0 model0 (db w)))
    by (intros d ->; right; exists stored, model, event; auto).
  destruct (fst (ExecutionRepo_Update event model (db w))) as [e|u]; cbn [fst snd].
  { repeat split; try reflexivity. now apply Hwritten. }
  destruct (decide (wev_Phase (wer_Event request) = WorkflowExecution_RUNNING));
    cbn [fst snd].
  { repeat split; try reflexivity. now apply Hwritten. }
  destruct (IsExecutionTerminal (wev_Phase (wer_Event request))); cbn [fst snd].
  - rewrite Hdb, Hstore, Hdispatched, Haborted. repeat split; try reflexivity.
    now apply Hwritten.
  - repeat split; try reflexivity. now apply Hwritten.
Qed.

End AcceptedEvents.

(** ** Publisher errors *)

Section PublisherErrors.

Context {DB Store : Type}.
Context {Cfg : Configuration} {Trn : transformers} {Ntf : notifications}.

(** An error of the publisher is counted and never returned: the result of
    [publishNotifications] and the messages handed to the publisher are the
    same for every publisher, and the error counter grows by the number of
    handed messages the publisher refused. *)
Theorem publishNotifications_counts_publisher_errors
    (P1 P2 : Publisher) request execution (w : World DB Store) :
  fst (publishNotifications (Pub := P1) request execution w)
    = fst (publishNotifications (Pub := P2) request execution w) /\
  published (snd (publishNotifications (Pub := P1) request execution w))
    = published (snd (publishNotifications (Pub := P2) request execution w)) /\
  PublishNotificationError (snd (publishNotifications (Pub := P1) request execution w))
    = PublishNotificationError w
      + refused (Pub := P1)
          (drop (length (published w))
             (published (snd (publishNotifications (Pub := P1) request execution w)))).
Proof.
  unfold publishNotifications.
  destruct (FromExecutionModel execution) as [e|adminExecution].
  - cbn. rewrite drop_all. split; [reflexivity|]. split; [reflexivity|].
    unfold refused. cbn. lia.
  - rewrite !publishEach_spec. cbn [fst snd published PublishNotificationError].
    rewrite drop_app_length. repeat split.
Qed.

End PublisherErrors.

(** ** Creating executions *)

Section Launch.

Context {DB Store : Type}.
Context {Repo : RepositoryInterface DB} {Blob : DataStore Store} {Exec : Executor}
        {Cfg : Configuration} {Queue : QueueAllocator}
        {Val : validation DB} {Utl : util DB Store} {Trn : transformers}
        {Pb : proto} {Shr : shared}.

Lemma keeps_ret {S A X} (f : S -> X) (a : A) : keeps f (@ret S A a).
Proof. now intros s. Qed.

Lemma keeps_throw {S A X} (f : S -> X) (e : error) : keeps f (@throw S A e).
Proof. now intros s. Qed.

Lemma keeps_try {S A X} (f : S -> X) (r : error + A) : keeps f (@try S A r).
Proof. now intros s. Qed.

Lemma keeps_reads {S A X} (f : S -> X) (g : S -> error + A) : keeps f (reads g).
Proof. now intros s. Qed.

Lemma keeps_check {S X} (f : S -> X) (o : option error) : keeps f (@check S o).
Proof. now intros s. Qed.

Lemma keeps_checks {S X} (f : S -> X) (g : S -> option error) : keeps f (checks g).
Proof. now intros s. Qed.

Lemma keeps_bind {S A B X} (f : S -> X) (m : M S A) (k : A -> M S B) :
  keeps f m -> (forall a, keeps f (k a)) -> keeps f (bind m k).
Proof.
  intros Hm Hk s. unfold bind. specialize (Hm s).
  destruct (m s) as [[e|a] s']; cbn in Hm; [exact Hm|].
  rewrite <- Hm. apply Hk.
Qed.

Lemma keeps_step {S A X} (f : S -> X) (m : M S A) s r s' :
  keeps f m -> m s = (r, s') -> f s' = f s.
Proof. intros Hm Hrun. specialize (Hm s). now rewrite Hrun in Hm. Qed.

Lemma readOnly_step {S A} (m : M S A) s r s' : readOnly m -> m s = (r, s') -> s' = s.
Proof. intros Hm Hrun. specialize (Hm s). now rewrite Hrun in Hm. Qed.

Lemma offloadInputs_keeps {X} (f : World DB Store -> X) literalMap identifier key :
  (forall w st, f (mkWorld (db w) st (dispatched w) (aborted w) (published w)
                     (PublishNotificationError w)) = f w) ->
  keeps f (offloadInputs literalMap identifier key).
Proof.
  intros Hf. unfold offloadInputs.
  apply keeps_bind; [apply keeps_try|]. intros uri.
  apply keeps_bind; [|intros ?; apply keeps_ret].
  intros w. unfold onStore. destruct (WriteProtobuf _ _ _) as [r st]. apply Hf.
Qed.

Lemma validateMapSize_None maxEntries candidate name :
  validateMapSize maxEntries candidate name = None <-> withinLimit maxEntries candidate.
Proof.
  unfold validateMapSize, withinLimit.
  destruct (Z.eqb_spec maxEntries 0) as [->|Hmax]; [now intuition|].
  destruct (Z.ltb_spec maxEntries (Z.of_nat (size (default ∅ candidate)))).
  - split; [discriminate|]. intros [?|?]; [contradiction|lia].
  - split; [|reflexivity]. intros _. right. lia.
Qed.

Lemma validateMapSize_Some maxEntries candidate name e :
  validateMapSize maxEntries candidate name = Some e ->
  errCode e = Some InvalidArgument /\ ~ withinLimit maxEntries candidate.
Proof.
  intros Hsize. split.
  - unfold validateMapSize in Hsize.
    destruct (_ =? _)%Z; [discriminate|]. destruct (_ <? _)%Z; [|discriminate].
    now injection Hsize as <-.
  - intros Hlimit. apply (validateMapSize_None _ _ name) in Hlimit. congruence.
Qed.

Lemma addLabelsAndAnnotations_run requestSpec input :
  let labels := preferred (spec_Labels requestSpec) (lps_Labels (lp_Spec (ewi_Reference input))) in
  let annotations :=
    preferred (spec_Annotations requestSpec)
      (lps_Annotations (lp_Spec (ewi_Reference input))) in
  match addLabelsAndAnnotations requestSpec input with
  | inr output =>
      withinLimit GetMaxLabelEntries labels /\
      withinLimit GetMaxAnnotationEntries annotations /\
      ewi_Labels output = labels /\ ewi_Annotations output = annotations /\
      ewi_ExecutionID output = ewi_ExecutionID input /\
      ewi_WfClosure output = ewi_WfClosure input /\
      ewi_Inputs output = ewi_Inputs input /\
      ewi_Reference output = ewi_Reference input /\
      ewi_AcceptedAt output = ewi_AcceptedAt input
  | inl e =>
      errCode e = Some InvalidArgument /\
      ~ (withinLimit GetMaxLabelEntries labels /\
         withinLimit GetMaxAnnotationEntries annotations)
  end.
Proof.
  intros labels annotations. unfold addLabelsAndAnnotations.
  fold (preferred (spec_Labels requestSpec) (lps_Labels (lp_Spec (ewi_Reference input)))).
  fold (preferred (spec_Annotations requestSpec)
          (lps_Annotations (lp_Spec (ewi_Reference input)))).
  fold labels annotations.
  destruct (validateMapSize GetMaxLabelEntries labels "Labels") as [e|] eqn:Hlabels.
  { apply validateMapSize_Some in Hlabels as [Hcode Hnot]. split; [exact Hcode|tauto]. }
  destruct (validateMapSize GetMaxAnnotationEntries annotations "Annotations")
    as [e|] eqn:Hannotations.
  { apply validateMapSize_Some in Hannotations as [Hcode Hnot]. split; [exact Hcode|tauto]. }
  apply validateMapSize_None in Hlabels, Hannotations. cbn. tauto.
Qed.

(** [addLabelsAndAnnotations] dispatches the labels (annotations) of
    the request when it has any and those of the launch plan otherwise, and
    touches nothing else of the input; it succeeds exactly when both maps are
    within the configured maximum (0 meaning none), and fails with
    InvalidArgument otherwise; the labels are checked before the annotations,
    so that the size of a map of the launch plan that the request overrides
    is of no consequence. *)
Theorem addLabelsAndAnnotations_prefers_the_request requestSpec input :
  let labels := preferred (spec_Labels requestSpec) (lps_Labels (lp_Spec (ewi_Reference input))) in
  let annotations :=
    preferred (spec_Annotations requestSpec)
      (lps_Annotations (lp_Spec (ewi_Reference input))) in
  match addLabelsAndAnnotations requestSpec input with
  | inr output =>
      withinLimit GetMaxLabelEntries labels /\
      withinLimit GetMaxAnnotationEntries annotations /\
      ewi_Labels output = labels /\ ewi_Annotations output = annotations /\
      ewi_ExecutionID output = ewi_ExecutionID input /\
      ewi_WfClosure output = ewi_WfClosure input /\
      ewi_Inputs output = ewi_Inputs input /\
      ewi_Reference output = ewi_Reference input /\
      ewi_AcceptedAt output = ewi_AcceptedAt input
  | inl e =>
      errCode e = Some InvalidArgument /\
      ~ (withinLimit GetMaxLabelEntries labels /\
         withinLimit GetMaxAnnotationEntries annotations)
  end.
Proof. apply addLabelsAndAnnotations_run. Qed.


Lemma dispatchesAtMostOnce_keeps {A} (m : M (World DB Store) A) :
  keeps dispatched m -> dispatchesAtMostOnce m.
Proof. intros Hm w. left. apply Hm. Qed.

Lemma dispatchesAtMostOnce_bind {A B} (m : M (World DB Store) A)
    (k : A -> M (World DB Store) B) :
  keeps dispatched m -> (forall a, dispatchesAtMostOnce (k a)) ->
  dispatchesAtMostOnce (bind m k).
Proof.
  intros Hm Hk w. unfold bind. specialize (Hm w).
  destruct (m w) as [[e|a] w1]; cbn in Hm; [now left|].
  rewrite <- Hm. apply Hk.
Qed.

Lemma dispatchesAtMostOnce_call {B} input (k : ExecutionInfo -> M (World DB Store) B) :
  (forall a, keeps dispatched (k a)) ->
  dispatchesAtMostOnce (bind (callExecuteWorkflow input) k).
Proof.
  intros Hk w. right. exists input. unfold bind, callExecuteWorkflow.
  destruct (ExecuteWorkflow input) as [e|a]; [reflexivity|].
  now rewrite Hk.
Qed.

Lemma callExecuteWorkflow_keeps {X} (f : World DB Store -> X) input :
  (forall w l, f (mkWorld (db w) (storageClient w) l (aborted w) (published w)
                    (PublishNotificationError w)) = f w) ->
  keeps f (callExecuteWorkflow input).
Proof. intros Hf w. apply Hf. Qed.

Lemma parentNodeExecutionID_readOnly (metadata : option ExecutionMetadata) :
  readOnly
    (match metadata with
     | Some metadata =>
         match ParentNodeExecution metadata with
         | Some parent =>
             let* parentNodeExecutionModel :=
               reads (fun w : World DB Store => GetNodeExecutionModel (db w) parent) in
             ret (models.ne_ID parentNodeExecutionModel)
         | None => ret 0%N
         end
     | None => ret 0%N
     end).
Proof.
  destruct metadata as [metadata|]; [|apply readOnly_ret].
  destruct (ParentNodeExecution metadata); [|apply readOnly_ret].
  apply readOnly_bind; [apply readOnly_reads|intros; apply readOnly_ret].
Qed.

Lemma readOnly_keeps {S A X} (f : S -> X) (m : M S A) : readOnly m -> keeps f m.
Proof. intros Hm s. now rewrite Hm. Qed.

(** What [launchExecutionAndPrepareModel] leaves alone, apart from the blob
    store and the executor. *)
Lemma launchExecutionAndPrepareModel_keeps {X} (f : World DB Store -> X) request requestedAt :
  (forall w st l, f (mkWorld (db w) st l (aborted w) (published w)
                       (PublishNotificationError w)) = f w) ->
  keeps f (launchExecutionAndPrepareModel request requestedAt).
Proof.
  intros Hf. unfold launchExecutionAndPrepareModel.
  apply keeps_bind; [apply keeps_checks|intros _].
  apply keeps_bind; [apply keeps_reads|intros launchPlanModel].
  apply keeps_bind; [apply keeps_try|intros launchPlan].
  apply keeps_bind; [apply keeps_try|intros executionInputs].
  apply keeps_bind; [apply keeps_reads|intros workflow].
  apply keeps_bind; [apply readOnly_keeps, parentNodeExecutionID_readOnly|intros parent].
  apply keeps_bind;
    [apply offloadInputs_keeps; intros w st; destruct w; apply (Hf _ st)|intros inputsURI].
  apply keeps_bind;
    [apply offloadInputs_keeps; intros w st; destruct w; apply (Hf _ st)|intros userInputsURI].
  apply keeps_bind; [apply keeps_try|intros input].
  apply keeps_bind; [|intros execInfo; apply keeps_try].
  apply callExecuteWorkflow_keeps. intros w l. destruct w. apply (Hf _ _ l).
Qed.

Lemma launchExecutionAndPrepareModel_dispatchesAtMostOnce request requestedAt :
  dispatchesAtMostOnce
    (launchExecutionAndPrepareModel (DB := DB) (Store := Store) request requestedAt).
Proof.
  unfold launchExecutionAndPrepareModel.
  apply dispatchesAtMostOnce_bind; [apply keeps_checks|intros _].
  apply dispatchesAtMostOnce_bind; [apply keeps_reads|intros launchPlanModel].
  apply dispatchesAtMostOnce_bind; [apply keeps_try|intros launchPlan].
  apply dispatchesAtMostOnce_bind; [apply keeps_try|intros executionInputs].
  apply dispatchesAtMostOnce_bind; [apply keeps_reads|intros workflow].
  apply dispatchesAtMostOnce_bind;
    [apply readOnly_keeps, parentNodeExecutionID_readOnly|intros parent].
  apply dispatchesAtMostOnce_bind; [now apply offloadInputs_keeps|intros inputsURI].
  apply dispatchesAtMostOnce_bind; [now apply offloadInputs_keeps|intros userInputsURI].
  apply dispatchesAtMostOnce_bind; [apply keeps_try|intros input].
  apply dispatchesAtMostOnce_call. intros execInfo. apply keeps_try.
Qed.

(** The steps of a launch that succeeded. *)
Lemma launchExecutionAndPrepareModel_steps request requestedAt
    (w w' : World DB Store) executionModel :
  launchExecutionAndPrepareModel request requestedAt w = (inr executionModel, w') ->
  let workflowExecutionID :=
    {| wei_Project := ecr_Project request; wei_Domain := ecr_Domain request;
       wei_Name := GetExecutionName request |} in
  exists launchPlanModel launchPlan executionInputs workflow parentNodeExecutionID
         inputsURI userInputsURI input execInfo w1 w2,
    ValidateExecutionRequest (db w) request = None /\
    GetLaunchPlanModel (db w) (spec_LaunchPlan (ecr_Spec request)) = inr launchPlanModel /\
    FromLaunchPlanModel launchPlanModel = inr launchPlan /\
    CheckAndFetchInputsForExecution (ecr_Inputs request)
      (lps_FixedInputs (lp_Spec launchPlan)) (lpc_ExpectedInputs (lp_Closure launchPlan))
      = inr executionInputs /\
    GetWorkflow (db w) (storageClient w) (lps_WorkflowId (lp_Spec launchPlan)) = inr workflow /\
    offloadInputs executionInputs workflowExecutionID shared_Inputs w = (inr inputsURI, w1) /\
    offloadInputs (ecr_Inputs request) workflowExecutionID shared_UserInputs w1
      = (inr userInputsURI, w2) /\
    addLabelsAndAnnotations (ecr_Spec request)
      {| ewi_ExecutionID := workflowExecutionID;
         ewi_WfClosure :=
           populateExecutionQueue (wf_Id workflow)
             {| Primary := Primary (wc_CompiledWorkflow (wf_Closure workflow));
                Tasks :=
                  List.map SetDefaults (Tasks (wc_CompiledWorkflow (wf_Closure workflow))) |};
         ewi_Inputs := executionInputs;
         ewi_Reference := launchPlan;
         ewi_AcceptedAt := requestedAt;
         ewi_Labels := None;
         ewi_Annotations := None |} = inr input /\
    ExecuteWorkflow input = inr execInfo /\
    w' = mkWorld (db w2) (storageClient w2) (dispatched w2 ++ [input]) (aborted w2)
           (published w2) (PublishNotificationError w2) /\
    CreateExecutionModel
      {| cem_WorkflowExecutionID := workflowExecutionID;
         cem_RequestSpec := ecr_Spec request;
         cem_LaunchPlanID := models.lp_ID launchPlanModel;
         cem_WorkflowID := models.lp_WorkflowID launchPlanModel;
         cem_Phase := WorkflowExecution_UNDEFINED;
         cem_CreatedAt := clock_Now;
         cem_Notifications := notificationsSettings launchPlan (ecr_Spec request);
         cem_WorkflowIdentifier := wf_Id workflow;
         cem_ParentNodeExecutionID := parentNodeExecutionID;
         cem_Cluster := ei_Cluster execInfo;
         cem_InputsURI := inputsURI;
         cem_UserInputsURI := userInputsURI |} = inr executionModel.
Proof.
  intros Hrun. cbv zeta. unfold launchExecutionAndPrepareModel in Hrun.
  apply bind_inr in Hrun as ([] & w0 & Hvalid & Hrun).
  unfold checks, check, try in Hvalid.
  destruct (ValidateExecutionRequest (db w) request) eqn:Hok; [discriminate|].
  injection Hvalid as <-.
  apply bind_inr in Hrun as (launchPlanModel & w0 & Hlp & Hrun).
  unfold reads in Hlp. injection Hlp as Hlp <-.
  apply bind_inr in Hrun as (launchPlan & w0 & Hfrom & Hrun).
  unfold try in Hfrom. injection Hfrom as Hfrom <-.
  apply bind_inr in Hrun as (executionInputs & w0 & Hinputs & Hrun).
  unfold try in Hinputs. injection Hinputs as Hinputs <-.
  apply bind_inr in Hrun as (workflow & w0 & Hworkflow & Hrun).
  unfold reads in Hworkflow. injection Hworkflow as Hworkflow <-.
  apply bind_inr in Hrun as (parentNodeExecutionID & w0 & Hparent & Hrun).
  apply readOnly_step in Hparent as ->; [|apply parentNodeExecutionID_readOnly].
  apply bind_inr in Hrun as (inputsURI & w1 & Hoffload & Hrun).
  apply bind_inr in Hrun as (userInputsURI & w2 & Huser & Hrun).
  apply bind_inr in Hrun as (input & w0 & Hlabels & Hrun).
  unfold try in Hlabels. injection Hlabels as Hlabels <-.
  apply bind_inr in Hrun as (execInfo & w3 & Hexec & Hrun).
  unfold callExecuteWorkflow in Hexec. injection Hexec as Hexec <-.
  unfold try in Hrun. injection Hrun as Hcreate <-.
  exists launchPlanModel, launchPlan, executionInputs, workflow, parentNodeExecutionID,
    inputsURI, userInputsURI, input, execInfo, w1, w2.
  repeat (split; [assumption || reflexivity|]). exact Hcreate.
Qed.

Lemma launchExecutionAndPrepareModel_dispatch
    request requestedAt (w w' : World DB Store) executionModel :
  launchExecutionAndPrepareModel request requestedAt w = (inr executionModel, w') ->
  exists launchPlanModel launchPlan executionInputs workflow input execInfo modelInput,
    GetLaunchPlanModel (db w) (spec_LaunchPlan (ecr_Spec request)) = inr launchPlanModel /\
    FromLaunchPlanModel launchPlanModel = inr launchPlan /\
    CheckAndFetchInputsForExecution (ecr_Inputs request)
      (lps_FixedInputs (lp_Spec launchPlan)) (lpc_ExpectedInputs (lp_Closure launchPlan))
      = inr executionInputs /\
    GetWorkflow (db w) (storageClient w) (lps_WorkflowId (lp_Spec launchPlan)) = inr workflow /\
    dispatched w' = (dispatched w ++ [input])%list /\
    ExecuteWorkflow input = inr execInfo /\
    ewi_ExecutionID input =
      {| wei_Project := ecr_Project request; wei_Domain := ecr_Domain request;
         wei_Name := GetExecutionName request |} /\
    ewi_AcceptedAt input = requestedAt /\
    ewi_Inputs input = executionInputs /\
    ewi_Reference input = launchPlan /\
    Primary (ewi_WfClosure input) = Primary (wc_CompiledWorkflow (wf_Closure workflow)) /\
    Tasks (ewi_WfClosure input) =
      List.map (fun task => assignQueue (GetQueue (wf_Id workflow)) (SetDefaults task))
        (Tasks (wc_CompiledWorkflow (wf_Closure workflow))) /\
    ewi_Labels input =
      preferred (spec_Labels (ecr_Spec request)) (lps_Labels (lp_Spec launchPlan)) /\
    ewi_Annotations input =
      preferred (spec_Annotations (ecr_Spec request)) (lps_Annotations (lp_Spec launchPlan)) /\
    CreateExecutionModel modelInput = inr executionModel /\
    cem_WorkflowExecutionID modelInput = ewi_ExecutionID input /\
    cem_Cluster modelInput = ei_Cluster execInfo /\
    cem_Phase modelInput = WorkflowExecution_UNDEFINED /\
    cem_LaunchPlanID modelInput = models.lp_ID launchPlanModel /\
    cem_WorkflowID modelInput = models.lp_WorkflowID launchPlanModel /\
    cem_WorkflowIdentifier modelInput = wf_Id workflow.
Proof.
  intros Hrun. apply launchExecutionAndPrepareModel_steps in Hrun. cbv zeta in Hrun.
  destruct Hrun
    as (launchPlanModel & launchPlan & executionInputs & workflow & parent & inputsURI
        & userInputsURI & input & execInfo & w1 & w2 & _ & Hlp & Hfrom & Hinputs
        & Hworkflow & Hoffload & Huser & Hlabels & Hexec & -> & Hcreate).
  pose proof (addLabelsAndAnnotations_run (ecr_Spec request)
                {| ewi_ExecutionID :=
                     {| wei_Project := ecr_Project request; wei_Domain := ecr_Domain request;
                        wei_Name := GetExecutionName request |};
                   ewi_WfClosure :=
                     populateExecutionQueue (wf_Id workflow)
                       {| Primary := Primary (wc_CompiledWorkflow (wf_Closure workflow));
                          Tasks :=
                            List.map SetDefaults
                              (Tasks (wc_CompiledWorkflow (wf_Closure workflow))) |};
                   ewi_Inputs := executionInputs;
                   ewi_Reference := launchPlan;
                   ewi_AcceptedAt := requestedAt;
                   ewi_Labels := None;
                   ewi_Annotations := None |}) as Hprefers.
  cbv zeta in Hprefers. rewrite Hlabels in Hprefers. cbn in Hprefers.
  destruct Hprefers as (_ & _ & Hl & Ha & Hid & Hclosure & Hin & Href & Hat).
  apply (keeps_step dispatched) in Hoffload; [|now apply offloadInputs_keeps].
  apply (keeps_step dispatched) in Huser; [|now apply offloadInputs_keeps].
  eexists launchPlanModel, launchPlan, executionInputs, workflow, input, execInfo, _.
  split; [exact Hlp|]. split; [exact Hfrom|]. split; [exact Hinputs|].
  split; [exact Hworkflow|].
  split; [cbn; now rewrite Huser, Hoffload|].
  split; [exact Hexec|]. split; [exact Hid|]. split; [exact Hat|]. split; [exact Hin|].
  split; [exact Href|].
  split; [now rewrite Hclosure|].
  split; [rewrite Hclosure; cbn; now rewrite List.map_map|].
  split; [exact Hl|]. split; [exact Ha|].
  split; [exact Hcreate|]. cbn. rewrite Hid. repeat split.
Qed.

(** What a successful launch hands to the executor: one workflow, under the
    identity the request asks for, accepted at the time of the request; the
    inputs are those checked against the launch plan; the workflow is the
    launch plan's, each task with its resource defaults and then its queue
    annotations; labels and annotations are the request's when it has any and
    the launch plan's otherwise.  The executor accepted it, and the model is
    created with the cluster the executor chose, in phase UNDEFINED. *)
Theorem launchExecutionAndPrepareModel_dispatches_the_prepared_workflow
    request requestedAt (w w' : World DB Store) executionModel :
  launchExecutionAndPrepareModel request requestedAt w = (inr executionModel, w') ->
  exists launchPlanModel launchPlan executionInputs workflow input execInfo modelInput,
    GetLaunchPlanModel (db w) (spec_LaunchPlan (ecr_Spec request)) = inr launchPlanModel /\
    FromLaunchPlanModel launchPlanModel = inr launchPlan /\
    CheckAndFetchInputsForExecution (ecr_Inputs request)
      (lps_FixedInputs (lp_Spec launchPlan)) (lpc_ExpectedInputs (lp_Closure launchPlan))
      = inr executionInputs /\
    GetWorkflow (db w) (storageClient w) (lps_WorkflowId (lp_Spec launchPlan)) = inr workflow /\
    dispatched w' = (dispatched w ++ [input])%list /\
    ExecuteWorkflow input = inr execInfo /\
    ewi_ExecutionID input =
      {| wei_Project := ecr_Project request; wei_Domain := ecr_Domain request;
         wei_Name := GetExecutionName request |} /\
    ewi_AcceptedAt input = requestedAt /\
    ewi_Inputs input = executionInputs /\
    ewi_Reference input = launchPlan /\
    Primary (ewi_WfClosure input) = Primary (wc_CompiledWorkflow (wf_Closure workflow)) /\
    Tasks (ewi_WfClosure input) =
      List.map (fun task => assignQueue (GetQueue (wf_Id workflow)) (SetDefaults task))
        (Tasks (wc_CompiledWorkflow (wf_Closure workflow))) /\
    ewi_Labels input =
      preferred (spec_Labels (ecr_Spec request)) (lps_Labels (lp_Spec launchPlan)) /\
    ewi_Annotations input =
      preferred (spec_Annotations (ecr_Spec request)) (lps_Annotations (lp_Spec launchPlan)) /\
    CreateExecutionModel modelInput = inr executionModel /\
    cem_WorkflowExecutionID modelInput = ewi_ExecutionID input /\
    cem_Cluster modelInput = ei_Cluster execInfo /\
    cem_Phase modelInput = WorkflowExecution_UNDEFINED /\
    cem_LaunchPlanID modelInput = models.lp_ID launchPlanModel /\
    cem_WorkflowID modelInput = models.lp_WorkflowID launchPlanModel /\
    cem_WorkflowIdentifier modelInput = wf_Id workflow.
Proof. apply launchExecutionAndPrepareModel_dispatch. Qed.

Lemma createExecutionModel_run executionModel (w : World DB Store) :
  createExecutionModel executionModel w =
    (match fst (ExecutionRepo_Create executionModel (db w)) with
     | inl e => inl e
     | inr _ => inr (models.ExecutionKey executionModel)
     end,
     mkWorld (snd (ExecutionRepo_Create executionModel (db w))) (storageClient w)
       (dispatched w) (aborted w) (published w) (PublishNotificationError w)).
Proof.
  unfold createExecutionModel, bind, onDB.
  destruct (ExecutionRepo_Create executionModel (db w)) as [[e|[]] d']; [reflexivity|].
  cbn. now destruct (models.ExecutionKey executionModel).
Qed.

Lemma CreateExecution_launches request requestedAt :
  CreateExecution (DB := DB) (Store := Store) request requestedAt =
    (let* executionModel :=
       launchExecutionAndPrepareModel (withInputs request (effectiveInputs request))
         requestedAt in
     let* workflowExecutionIdentifier := createExecutionModel executionModel in
     ret {| ecresp_Id := workflowExecutionIdentifier |}).
Proof.
  unfold CreateExecution, withInputs, effectiveInputs.
  destruct request as [project domain name spec [inputs|]]; cbn; [|reflexivity].
  now destruct (decide (size (Literals inputs) = 0)).
Qed.

(** [CreateExecution] launches the request with its inputs, or with those of
    its spec when it has none of its own (as older clients send them).  It
    calls off no execution and publishes nothing; the repository is written
    only after the executor has accepted the workflow, and then by one
    [Create] of the prepared model, whose outcome is the outcome of the call;
    whenever it fails earlier the repository is as it was. *)
Theorem CreateExecution_stores_only_after_dispatch request requestedAt (w : World DB Store) :
  let run := CreateExecution request requestedAt w in
  aborted (snd run) = aborted w /\ published (snd run) = published w /\
  ((db (snd run) = db w /\
    exists e,
      fst run = inl e /\
      fst (launchExecutionAndPrepareModel (withInputs request (effectiveInputs request))
             requestedAt w) = inl e) \/
   (exists executionModel input execInfo w1,
      launchExecutionAndPrepareModel (withInputs request (effectiveInputs request))
        requestedAt w = (inr executionModel, w1) /\
      dispatched (snd run) = (dispatched w ++ [input])%list /\
      ExecuteWorkflow input = inr execInfo /\
      storageClient (snd run) = storageClient w1 /\
      db (snd run) = snd (ExecutionRepo_Create executionModel (db w)) /\
      fst run =
        match fst (ExecutionRepo_Create executionModel (db w)) with
        | inl e => inl e
        | inr _ => inr {| ecresp_Id := models.ExecutionKey executionModel |}
        end)).
Proof.
  intros run. set (request' := withInputs request (effectiveInputs request)).
  assert (Heq : run =
    match launchExecutionAndPrepareModel request' requestedAt w with
    | (inl e, w1) => (inl e, w1)
    | (inr executionModel, w1) =>
        (match fst (ExecutionRepo_Create executionModel (db w1)) with
         | inl e => inl e
         | inr _ => inr {| ecresp_Id := models.ExecutionKey executionModel |}
         end,
         mkWorld (snd (ExecutionRepo_Create executionModel (db w1))) (storageClient w1)
           (dispatched w1) (aborted w1) (published w1) (PublishNotificationError w1))
    end).
  { subst run. rewrite CreateExecution_launches. fold request'. unfold bind at 1.
    destruct (launchExecutionAndPrepareModel request' requestedAt w)
      as [[e|executionModel] w1]; [reflexivity|].
    unfold bind. rewrite createExecutionModel_run.
    now destruct (fst (ExecutionRepo_Create executionModel (db w1))) as [e|[]]. }
  clearbody run. subst run.
  pose proof (launchExecutionAndPrepareModel_keeps db request' requestedAt
                (fun _ _ _ => eq_refl) w) as Hdb.
  pose proof (launchExecutionAndPrepareModel_keeps aborted request' requestedAt
                (fun _ _ _ => eq_refl) w) as Haborted.
  pose proof (launchExecutionAndPrepareModel_keeps published request' requestedAt
                (fun _ _ _ => eq_refl) w) as Hpublished.
  destruct (launchExecutionAndPrepareModel request' requestedAt w)
    as [[e|executionModel] w1] eqn:Hrun; cbn [fst snd] in *.
  { split; [exact Haborted|]. split; [exact Hpublished|]. left. eauto. }
  destruct (launchExecutionAndPrepareModel_dispatch _ _ _ _ _ Hrun)
    as (_ & _ & _ & _ & input & execInfo & _ & _ & _ & _ & _ & Hdispatched & Hexec & _).
  rewrite Hdb. split; [exact Haborted|]. split; [exact Hpublished|]. right.
  exists executionModel, input, execInfo, w1. repeat split; assumption.
Qed.

Lemma offloadInputs_run literalMap identifier key (w w' : World DB Store) uri :
  offloadInputs literalMap identifier key w = (inr uri, w') ->
  ConstructReference GetBaseContainerFQN
    [shared_Metadata; wei_Project identifier; wei_Domain identifier;
     wei_Name identifier; key] = inr uri /\
  WriteProtobuf uri (default {| Literals := ∅ |} literalMap) (storageClient w)
    = (inr tt, storageClient w').
Proof.
  unfold offloadInputs. intros Hrun.
  apply bind_inr in Hrun as (uri' & w0 & Href & Hrun).
  unfold try in Href. injection Href as Href <-.
  apply bind_inr in Hrun as ([] & w1 & Hwrite & Hrun).
  unfold ret in Hrun. injection Hrun as <- <-.
  split; [exact Href|].
  unfold onStore in Hwrite.
  destruct (WriteProtobuf uri' _ (storageClient w)) as [r st]. now injection Hwrite as -> <-.
Qed.

(** Over a blob store that returns what was last written under a reference
    and leaves the other references alone, a successful launch leaves the
    inputs where the model says they are: the inputs of the request, as the
    user gave them (an empty map for none), under the user-inputs reference,
    and the inputs checked against the launch plan under the inputs reference
    (written first: they are there unless the two references coincide).  Both
    references are built from the metadata prefix, the project, the domain
    and the name of the new execution, and the key of the kind of inputs. *)
Theorem launchExecutionAndPrepareModel_offloads_the_inputs
    request requestedAt (w w' : World DB Store) executionModel :
  (forall st reference literalMap st',
      WriteProtobuf reference literalMap st = (inr tt, st') ->
      ReadProtobuf st' reference = inr literalMap) ->
  (forall st reference literalMap st' other,
      WriteProtobuf reference literalMap st = (inr tt, st') -> other <> reference ->
      ReadProtobuf st' other = ReadProtobuf st other) ->
  launchExecutionAndPrepareModel request requestedAt w = (inr executionModel, w') ->
  exists launchPlanModel launchPlan executionInputs modelInput,
    GetLaunchPlanModel (db w) (spec_LaunchPlan (ecr_Spec request)) = inr launchPlanModel /\
    FromLaunchPlanModel launchPlanModel = inr launchPlan /\
    CheckAndFetchInputsForExecution (ecr_Inputs request)
      (lps_FixedInputs (lp_Spec launchPlan)) (lpc_ExpectedInputs (lp_Closure launchPlan))
      = inr executionInputs /\
    CreateExecutionModel modelInput = inr executionModel /\
    ConstructReference GetBaseContainerFQN
      [shared_Metadata; ecr_Project request; ecr_Domain request; GetExecutionName request;
       shared_Inputs] = inr (cem_InputsURI modelInput) /\
    ConstructReference GetBaseContainerFQN
      [shared_Metadata; ecr_Project request; ecr_Domain request; GetExecutionName request;
       shared_UserInputs] = inr (cem_UserInputsURI modelInput) /\
    ReadProtobuf (storageClient w') (cem_UserInputsURI modelInput)
      = inr (default {| Literals := ∅ |} (ecr_Inputs request)) /\
    (cem_InputsURI modelInput <> cem_UserInputsURI modelInput ->
     ReadProtobuf (storageClient w') (cem_InputsURI modelInput)
       = inr (default {| Literals := ∅ |} executionInputs)).
Proof.
  intros Hread Hother Hrun.
  apply launchExecutionAndPrepareModel_steps in Hrun. cbv zeta in Hrun.
  destruct Hrun
    as (launchPlanModel & launchPlan & executionInputs & workflow & parent & inputsURI
        & userInputsURI & input & execInfo & w1 & w2 & _ & Hlp & Hfrom & Hinputs
        & _ & Hoffload & Huser & _ & _ & -> & Hcreate).
  apply offloadInputs_run in Hoffload as [Href1 Hwrite1].
  apply offloadInputs_run in Huser as [Href2 Hwrite2]. cbn in Href1, Href2.
  eexists launchPlanModel, launchPlan, executionInputs, _.
  split; [exact Hlp|]. split; [exact Hfrom|]. split; [exact Hinputs|].
  split; [exact Hcreate|]. cbn.
  split; [exact Href1|]. split; [exact Href2|].
  split; [exact (Hread _ _ _ _ Hwrite2)|].
  intros Hne. rewrite (Hother _ _ _ _ _ Hwrite2 Hne). exact (Hread _ _ _ _ Hwrite1).
Qed.

(** A relaunch that succeeds launched a request for the project and domain of
    the source execution under the name of the relaunch request, with the
    spec of the source in mode RELAUNCH and the inputs the user gave to the
    source: read from the blob store when the source records where they are,
    and taken from its stored spec otherwise.  The record that is created is
    the prepared model with the source's id as its source execution, and the
    response names its key. *)
Theorem RelaunchExecution_links_the_source
    request requestedAt (w w' : World DB Store) response :
  RelaunchExecution request requestedAt w = (inr response, w') ->
  exists existingExecutionModel existingExecution inputs executionModel w1,
    GetExecutionModel (db w) (err_Id request) = inr existingExecutionModel /\
    FromExecutionModel existingExecutionModel = inr existingExecution /\
    (if decide (models.UserInputsURI existingExecutionModel = "")
     then exists spec,
            Unmarshal_ExecutionSpec (models.Spec existingExecutionModel) = inr spec /\
            inputs = spec_Inputs spec
     else exists stored,
            ReadProtobuf (storageClient w) (models.UserInputsURI existingExecutionModel)
              = inr stored /\
            inputs = Some stored) /\
    launchExecutionAndPrepareModel
      {| ecr_Project := wei_Project (err_Id request);
         ecr_Domain := wei_Domain (err_Id request);
         ecr_Name := err_Name request;
         ecr_Spec := set_Mode (exec_Spec existingExecution) ExecutionMetadata_RELAUNCH;
         ecr_Inputs := inputs |} requestedAt w = (inr executionModel, w1) /\
    fst (ExecutionRepo_Create
           (set_SourceExecutionID executionModel (models.ID existingExecutionModel)) (db w))
      = inr tt /\
    db w' =
      snd (ExecutionRepo_Create
             (set_SourceExecutionID executionModel (models.ID existingExecutionModel)) (db w)) /\
    storageClient w' = storageClient w1 /\ dispatched w' = dispatched w1 /\
    ecresp_Id response = models.ExecutionKey executionModel.
Proof.
  unfold RelaunchExecution. intros Hrun.
  apply bind_inr in Hrun as (existingExecutionModel & w0 & Hget & Hrun).
  unfold reads in Hget. injection Hget as Hget <-.
  apply bind_inr in Hrun as (existingExecution & w0 & Hfrom & Hrun).
  unfold try in Hfrom. injection Hfrom as Hfrom <-.
  apply bind_inr in Hrun as (inputs & w0 & Hinputs & Hrun).
  apply bind_inr in Hrun as (executionModel & w1 & Hlaunch & Hrun).
  apply bind_inr in Hrun as (id & w2 & Hcreate & Hrun).
  unfold ret in Hrun. injection Hrun as <- <-.
  rewrite createExecutionModel_run in Hcreate. injection Hcreate as Hresult Hw2.
  assert (Hsource : w0 = w /\
    if decide (models.UserInputsURI existingExecutionModel = "")
    then exists spec,
           Unmarshal_ExecutionSpec (models.Spec existingExecutionModel) = inr spec /\
           inputs = spec_Inputs spec
    else exists stored,
           ReadProtobuf (storageClient w) (models.UserInputsURI existingExecutionModel)
             = inr stored /\
           inputs = Some stored).
  { destruct (decide (0 < String.length (models.UserInputsURI existingExecutionModel)))
      as [Hlen|Hlen].
    - rewrite decide_False by (intros Hempty; rewrite Hempty in Hlen; cbn in Hlen; lia).
      apply bind_inr in Hinputs as (stored & w3 & Hread & Hret).
      unfold reads in Hread. injection Hread as Hread <-.
      unfold ret in Hret. injection Hret as <- <-. eauto.
    - rewrite decide_True
        by (destruct (models.UserInputsURI existingExecutionModel);
            [reflexivity | cbn in Hlen; lia]).
      destruct (Unmarshal_ExecutionSpec (models.Spec existingExecutionModel)) as [e|spec];
        [discriminate|].
      unfold ret in Hinputs. injection Hinputs as <- <-. eauto. }
  destruct Hsource as [-> Hsource].
  pose proof (keeps_step db _ _ _ _
                (launchExecutionAndPrepareModel_keeps db _ _ (fun _ _ _ => eq_refl)) Hlaunch)
    as Hdb.
  rewrite Hdb in Hresult, Hw2.
  exists existingExecutionModel, existingExecution, inputs, executionModel, w1.
  split; [exact Hget|]. split; [exact Hfrom|]. split; [exact Hsource|].
  split; [exact Hlaunch|].
  destruct (fst (ExecutionRepo_Create _ (db w))) as [e|[]] eqn:Hcreate; [discriminate|].
  injection Hresult as <-. subst w2. cbn. repeat split.
Qed.

End Launch.

(** ** Accepted node events *)

Section NodeEvents.

Context {DB Store : Type}.
Context {Repo : RepositoryInterface DB} {Val : validation DB} {Utl : util DB Store}
        {Trn : transformers} {Cmn : common} {Shr : shared}.

Lemma CreateNodeEvent_unknown (d : DB) request executionModel message phase :
  GetExecutionModel d (nei_ExecutionId (nev_Id (ner_Event request))) = inr executionModel ->
  NodeExecutionRepo_Get d {| gni_NodeExecutionIdentifier := nev_Id (ner_Event request) |}
    = inl (FlyteAdminError NotFound message phase) ->
  CreateNodeEvent (Store := Store) request d =
    match createNodeExecutionWithEvent (Store := Store) request d with
    | (inl e, d') => (inl e, d')
    | (inr _, d') => (inr Build_NodeExecutionEventResponse, d')
    end.
Proof.
  intros Hexec Hnode. unfold CreateNodeEvent. rewrite Hexec, Hnode.
  rewrite decide_False by (intros Hne; now apply Hne).
  unfold bind. now destruct (createNodeExecutionWithEvent request d) as [[e|[]] d'].
Qed.

(** The first report on a node of a known workflow execution (the
    repository answers NotFound for the node) creates the node execution.  A
    node that names a parent task execution is registered only if that task
    execution is on record: otherwise the look-up error is returned and
    nothing is written.  The model is built with the id of the parent task
    execution, 0 without one, and the outcome is that of the one
    [NodeExecutionRepo.Create] of the event and the model. *)
Theorem CreateNodeEvent_registers_a_first_report (d : DB) request executionModel message phase :
  GetExecutionModel d (nei_ExecutionId (nev_Id (ner_Event request))) = inr executionModel ->
  NodeExecutionRepo_Get d {| gni_NodeExecutionIdentifier := nev_Id (ner_Event request) |}
    = inl (FlyteAdminError NotFound message phase) ->
  (forall parentTaskMetadata e,
      nev_ParentTaskMetadata (ner_Event request) = Some parentTaskMetadata ->
      GetTaskExecutionModel d (ptm_Id parentTaskMetadata) = inl e ->
      CreateNodeEvent (Store := Store) request d = (inl e, d)) /\
  (forall parentTaskExecutionID nodeExecutionModel nodeExecutionEventModel,
      match nev_ParentTaskMetadata (ner_Event request) with
      | Some parentTaskMetadata =>
          exists taskExecutionModel,
            GetTaskExecutionModel d (ptm_Id parentTaskMetadata) = inr taskExecutionModel /\
            parentTaskExecutionID = models.te_ID taskExecutionModel
      | None => parentTaskExecutionID = 0%N
      end ->
      CreateNodeExecutionModel
        {| tnm_Request := request; tnm_ParentTaskExecutionID := parentTaskExecutionID |}
        = inr nodeExecutionModel ->
      CreateNodeExecutionEventModel request = inr nodeExecutionEventModel ->
      CreateNodeEvent (Store := Store) request d =
        (match fst (NodeExecutionRepo_Create nodeExecutionEventModel nodeExecutionModel d) with
         | inl e => inl e
         | inr _ => inr Build_NodeExecutionEventResponse
         end,
         snd (NodeExecutionRepo_Create nodeExecutionEventModel nodeExecutionModel d))).
Proof.
  intros Hexec Hnode. split.
  - intros parentTaskMetadata e Hparent Hmissing.
    rewrite (CreateNodeEvent_unknown _ _ _ _ _ Hexec Hnode).
    unfold createNodeExecutionWithEvent. rewrite Hparent.
    unfold bind, reads. now rewrite Hmissing.
  - intros parentTaskExecutionID nodeExecutionModel nodeExecutionEventModel Hparent Hmodel
      Hevent.
    rewrite (CreateNodeEvent_unknown _ _ _ _ _ Hexec Hnode).
    assert (Hcreate : createNodeExecutionWithEvent (Store := Store) request d =
                        NodeExecutionRepo_Create nodeExecutionEventModel nodeExecutionModel d).
    { unfold createNodeExecutionWithEvent.
      destruct (nev_ParentTaskMetadata (ner_Event request)) as [parentTaskMetadata|].
      - destruct Hparent as (taskExecutionModel & Htask & ->).
        unfold bind, reads, ret, try. now rewrite Htask, Hmodel, Hevent.
      - subst parentTaskExecutionID. unfold bind, ret, try. now rewrite Hmodel, Hevent. }
    rewrite Hcreate.
    now destruct (NodeExecutionRepo_Create nodeExecutionEventModel nodeExecutionModel d)
      as [[e|[]] d'].
Qed.

(** A later report on a node whose recorded phase is not terminal and differs
    from the reported one updates the node execution.  A report that names
    an execution launched by the node is accepted only if that execution is
    on record (whatever its identifier validation says): otherwise the
    look-up error is returned and nothing is written.  The outcome is that of
    the one [NodeExecutionRepo.Update] of the event and the updated model. *)
Theorem CreateNodeEvent_updates_a_known_node (d : DB) request executionModel nodeExecutionModel :
  GetExecutionModel d (nei_ExecutionId (nev_Id (ner_Event request))) = inr executionModel ->
  NodeExecutionRepo_Get d {| gni_NodeExecutionIdentifier := nev_Id (ner_Event request) |}
    = inr nodeExecutionModel ->
  NodeExecution_Phase_value (models.ne_Phase nodeExecutionModel) <> nev_Phase (ner_Event request) ->
  IsNodeExecutionTerminal (NodeExecution_Phase_value (models.ne_Phase nodeExecutionModel))
    = false ->
  (forall workflowNodeMetadata e,
      GetWorkflowNodeMetadata (ner_Event request) = Some workflowNodeMetadata ->
      GetExecutionModel d (wnm_ExecutionId workflowNodeMetadata) = inl e ->
      CreateNodeEvent (Store := Store) request d = (inl e, d)) /\
  (forall updated nodeExecutionEventModel,
      match GetWorkflowNodeMetadata (ner_Event request) with
      | Some workflowNodeMetadata =>
          exists child, GetExecutionModel d (wnm_ExecutionId workflowNodeMetadata) = inr child
      | None => True
      end ->
      UpdateNodeExecutionModel request nodeExecutionModel
        (wnm_ExecutionId <$> GetWorkflowNodeMetadata (ner_Event request)) = inr updated ->
      CreateNodeExecutionEventModel request = inr nodeExecutionEventModel ->
      CreateNodeEvent (Store := Store) request d =
        (match fst (NodeExecutionRepo_Update nodeExecutionEventModel updated d) with
         | inl e => inl e
         | inr _ => inr Build_NodeExecutionEventResponse
         end,
         snd (NodeExecutionRepo_Update nodeExecutionEventModel updated d))).
Proof.
  intros Hexec Hnode Hne Hterm. split.
  - intros workflowNodeMetadata e Hchild Hmissing.
    rewrite (CreateNodeEvent_existing _ _ _ _ Hexec Hnode).
    unfold updateNodeExecutionWithEvent.
    rewrite decide_False by exact Hne. rewrite Hterm, Hchild.
    unfold bind, reads. now rewrite Hmissing.
  - intros updated nodeExecutionEventModel Hchild Hupdate Hevent.
    rewrite (CreateNodeEvent_existing _ _ _ _ Hexec Hnode).
    assert (Hrun : updateNodeExecutionWithEvent (Store := Store) request nodeExecutionModel d =
                     (match fst (NodeExecutionRepo_Update nodeExecutionEventModel updated d) with
                      | inl e => inl e
                      | inr _ => inr updateSucceeded
                      end,
                      snd (NodeExecutionRepo_Update nodeExecutionEventModel updated d))).
    { unfold updateNodeExecutionWithEvent.
      rewrite decide_False by exact Hne. rewrite Hterm.
      destruct (GetWorkflowNodeMetadata (ner_Event request)) as [workflowNodeMetadata|].
      - destruct Hchild as [child Hchild]. cbn in Hupdate.
        unfold bind, reads, ret, try. rewrite Hchild, Hupdate, Hevent.
        now destruct (NodeExecutionRepo_Update nodeExecutionEventModel updated d)
          as [[e|[]] d'].
      - cbn in Hupdate. unfold bind, ret, try. rewrite Hupdate, Hevent.
        now destruct (NodeExecutionRepo_Update nodeExecutionEventModel updated d)
          as [[e|[]] d']. }
    rewrite Hrun.
    now destruct (fst (NodeExecutionRepo_Update nodeExecutionEventModel updated d)) as [e|[]].
Qed.

(** A node event for a workflow execution that cannot be found is refused
    before the node is looked at, with the status code of the look-up error,
    and a failure to look up the node other than NotFound is returned as it
    is; the repository is not written in either case. *)
Theorem CreateNodeEvent_refuses_when_a_lookup_fails (d : DB) request :
  (forall e,
      GetExecutionModel d (nei_ExecutionId (nev_Id (ner_Event request))) = inl e ->
      exists e',
        CreateNodeEvent (Store := Store) request d = (inl e', d) /\ errCode e' = errCode e) /\
  (forall executionModel code message phase,
      GetExecutionModel d (nei_ExecutionId (nev_Id (ner_Event request))) = inr executionModel ->
      NodeExecutionRepo_Get d {| gni_NodeExecutionIdentifier := nev_Id (ner_Event request) |}
        = inl (FlyteAdminError code message phase) ->
      code <> NotFound ->
      CreateNodeEvent (Store := Store) request d
        = (inl (FlyteAdminError code message phase), d)).
Proof.
  split.
  - intros e Hexec. unfold CreateNodeEvent. rewrite Hexec.
    destruct e as [code message phase|message]; eexists; split; reflexivity.
  - intros executionModel code message phase Hexec Hnode Hcode.
    unfold CreateNodeEvent. rewrite Hexec, Hnode. now rewrite decide_True by exact Hcode.
Qed.

End NodeEvents.

(** ** The counters of the notification processor *)

Section Counters.

Context {Mail : Emailer} {Enc : encoding} {Pb : proto}.

Lemma valueOf_Inc c c' p :
  valueOf c (systemMetrics (Inc c' p)) =
    valueOf c (systemMetrics p) + (if decide (c = c') then 1 else 0).
Proof.
  destruct c, c';
    ((rewrite decide_True by reflexivity) || (rewrite decide_False by discriminate));
    cbn; lia.
Qed.

Lemma valueOf_markMessageDone c msg p :
  valueOf c (systemMetrics (markMessageDone msg p)) =
    valueOf c (systemMetrics p)
    + (if decide (c = cMessageDoneError /\ is_Some (Done msg)) then 1 else 0).
Proof.
  unfold markMessageDone. destruct (Done msg) as [e|].
  - rewrite valueOf_Inc. cbn [systemMetrics].
    destruct (decide (c = cMessageDoneError)) as [->|Hc].
    + rewrite decide_True by (split; [reflexivity | now exists e]). reflexivity.
    + rewrite decide_False by tauto. reflexivity.
  - cbn [systemMetrics]. rewrite decide_False; [lia|].
    intros [_ [e He]]. discriminate.
Qed.

Lemma valueOf_sendEmail c emailMessage p :
  valueOf c (systemMetrics (sendEmail emailMessage p)) =
    valueOf c (systemMetrics p)
    + (if decide (c = match SendEmail emailMessage with
                      | Some _ => cMessageProcessorError
                      | None => cMessageSuccess
                      end) then 1 else 0).
Proof.
  unfold sendEmail. destruct (SendEmail emailMessage); rewrite valueOf_Inc; reflexivity.
Qed.

Lemma valueOf_processMessage c msg p :
  valueOf c (systemMetrics (processMessage msg p)) =
    valueOf c (systemMetrics p)
    + (if decide (c = cMessageTotal) then 1 else 0)
    + (if decide (c = counterOf (kindOf (outcomeOf msg))) then 1 else 0)
    + (if decide (c = cMessageDoneError /\ is_Some (Done msg)) then 1 else 0).
Proof.
  unfold processMessage, outcomeOf.
  destruct (json_Unmarshal (Message msg)) as [e|snsJSONFormat];
    [now rewrite valueOf_markMessageDone, !valueOf_Inc|].
  destruct (snsJSONFormat !! "Message") as [value|];
    [|now rewrite valueOf_markMessageDone, !valueOf_Inc].
  destruct value as [ |b|digits|valueString|elements|members];
    try (now rewrite valueOf_markMessageDone, !valueOf_Inc).
  destruct (base64_DecodeString valueString) as [e|notificationBytes];
    [now rewrite valueOf_markMessageDone, !valueOf_Inc|].
  destruct (Unmarshal_EmailMessage notificationBytes) as [e|emailMessage];
    [now rewrite valueOf_markMessageDone, !valueOf_Inc|].
  rewrite valueOf_markMessageDone, valueOf_sendEmail, valueOf_Inc.
  now destruct (SendEmail emailMessage).
Qed.

Lemma howMany_cons (P : SubscriberMessage -> Prop) `{forall msg, Decision (P msg)} msg msgs :
  howMany P (msg :: msgs) = (if decide (P msg) then 1 else 0) + howMany P msgs.
Proof. unfold howMany. rewrite filter_cons. now destruct (decide (P msg)). Qed.

Lemma valueOf_fold_processMessage c msgs :
  forall p,
    valueOf c (systemMetrics (fold_left (fun p msg => processMessage msg p) msgs p)) =
      valueOf c (systemMetrics p)
      + (if decide (c = cMessageTotal) then length msgs else 0)
      + howMany (fun msg => c = counterOf (kindOf (outcomeOf msg))) msgs
      + howMany (fun msg => c = cMessageDoneError /\ is_Some (Done msg)) msgs.
Proof.
  induction msgs as [|msg msgs IH]; intros p.
  - cbn. destruct (decide _); lia.
  - cbn [fold_left]. rewrite IH, valueOf_processMessage, !howMany_cons. cbn [length].
    destruct (decide (c = cMessageTotal)); lia.
Qed.

Lemma howMany_ext (P Q : SubscriberMessage -> Prop) `{forall msg, Decision (P msg)}
    `{forall msg, Decision (Q msg)} msgs :
  (forall msg, P msg <-> Q msg) -> howMany P msgs = howMany Q msgs.
Proof.
  intros HPQ. induction msgs as [|msg msgs IH]; [reflexivity|].
  rewrite !howMany_cons, IH.
  destruct (decide (P msg)) as [HP|HP], (decide (Q msg)) as [HQ|HQ];
    try reflexivity; exfalso; apply HPQ in HP || apply HPQ in HQ; contradiction.
Qed.

Lemma howMany_False (P : SubscriberMessage -> Prop) `{forall msg, Decision (P msg)} msgs :
  (forall msg, ~ P msg) -> howMany P msgs = 0.
Proof.
  intros HP. induction msgs as [|msg msgs IH]; [reflexivity|].
  rewrite howMany_cons, IH. now rewrite decide_False by apply HP.
Qed.

Lemma howMany_kinds msgs :
  howMany (fun msg => kindOf (outcomeOf msg) = Undecodable) msgs
  + howMany (fun msg => kindOf (outcomeOf msg) = IllFormed) msgs
  + howMany (fun msg => kindOf (outcomeOf msg) = NotSent) msgs
  + howMany (fun msg => kindOf (outcomeOf msg) = Sent) msgs = length msgs.
Proof.
  induction msgs as [|msg msgs IH]; [reflexivity|].
  rewrite !howMany_cons. cbn [length].
  destruct (kindOf (outcomeOf msg));
    repeat first [rewrite decide_True by reflexivity | rewrite decide_False by discriminate];
    lia.
Qed.

(** [StartProcessing] counts every delivered message under exactly one of
    decoding error, data error, processor error and success, by the kind of
    its outcome: the four counters grow by the number of delivered messages
    of their kind, and together by as much as the total does, which is the
    number of messages delivered.  A failure to mark a message done is
    counted besides and changes neither the outcome nor the other counters;
    the channel-closed counter grows by one exactly when the subscription
    ends with an error. *)
Theorem StartProcessing_counts_each_message_once (sub : Subscriber) (p : Processor) :
  let before c := valueOf c (systemMetrics p) in
  let after c := valueOf c (systemMetrics (snd (StartProcessing sub p))) in
  (forall kind,
      after (counterOf kind) =
        before (counterOf kind)
        + howMany (fun msg => kindOf (outcomeOf msg) = kind) (Start sub)) /\
  after cMessageTotal = before cMessageTotal + length (Start sub) /\
  after cMessageDoneError =
    before cMessageDoneError + howMany (fun msg => is_Some (Done msg)) (Start sub) /\
  after cChannelClosedError =
    before cChannelClosedError + match Err sub with Some _ => 1 | None => 0 end /\
  (after cMessageDecodingError - before cMessageDecodingError)
  + (after cMessageDataError - before cMessageDataError)
  + (after cMessageProcessorError - before cMessageProcessorError)
  + (after cMessageSuccess - before cMessageSuccess)
  = after cMessageTotal - before cMessageTotal.
Proof.
  intros before after.
  assert (Hafter : forall c,
             after c =
               before c
               + (if decide (c = cMessageTotal) then length (Start sub) else 0)
               + howMany (fun msg => c = counterOf (kindOf (outcomeOf msg))) (Start sub)
               + howMany (fun msg => c = cMessageDoneError /\ is_Some (Done msg)) (Start sub)
               + (if decide (c = cChannelClosedError)
                  then match Err sub with Some _ => 1 | None => 0 end else 0)).
  { intros c. subst before after. cbv beta. unfold StartProcessing.
    destruct (Err sub) as [e|]; cbn [snd].
    - rewrite valueOf_Inc, valueOf_fold_processMessage. reflexivity.
    - rewrite valueOf_fold_processMessage. destruct (decide (c = cChannelClosedError)); lia. }
  assert (Hkind : forall kind,
             after (counterOf kind) =
               before (counterOf kind)
               + howMany (fun msg => kindOf (outcomeOf msg) = kind) (Start sub)).
  { intros kind. rewrite Hafter.
    rewrite decide_False by (destruct kind; discriminate).
    rewrite (howMany_False (fun msg => counterOf kind = cMessageDoneError /\ _))
      by (intros msg [Hc _]; destruct kind; discriminate).
    rewrite decide_False by (destruct kind; discriminate).
    rewrite (howMany_ext (fun msg => counterOf kind = counterOf (kindOf (outcomeOf msg)))
               (fun msg => kindOf (outcomeOf msg) = kind)); [lia|].
    intros msg. split.
    - destruct kind, (kindOf (outcomeOf msg)); (reflexivity || discriminate).
    - now intros ->. }
  assert (Htotal : after cMessageTotal = before cMessageTotal + length (Start sub)).
  { rewrite Hafter. rewrite decide_True by reflexivity.
    rewrite (howMany_False (fun msg => cMessageTotal = counterOf _))
      by (intros msg; destruct (kindOf (outcomeOf msg)); discriminate).
    rewrite (howMany_False (fun msg => cMessageTotal = cMessageDoneError /\ _))
      by (intros msg [Hc _]; discriminate).
    rewrite decide_False by discriminate. lia. }
  split; [exact Hkind|]. split; [exact Htotal|]. split; [|split].
  - rewrite Hafter. rewrite decide_False by discriminate.
    rewrite (howMany_False (fun msg => cMessageDoneError = counterOf _))
      by (intros msg; destruct (kindOf (outcomeOf msg)); discriminate).
    rewrite decide_False by discriminate.
    rewrite (howMany_ext (fun msg => cMessageDoneError = cMessageDoneError /\ _)
               (fun msg => is_Some (Done msg))); [lia|].
    intros msg. tauto.
  - rewrite Hafter. rewrite decide_False by discriminate.
    rewrite (howMany_False (fun msg => cChannelClosedError = counterOf _))
      by (intros msg; destruct (kindOf (outcomeOf msg)); discriminate).
    rewrite (howMany_False (fun msg => cChannelClosedError = cMessageDoneError /\ _))
      by (intros msg [Hc _]; discriminate).
    rewrite decide_True by reflexivity. lia.
  - pose proof (Hkind Undecodable) as H1. pose proof (Hkind IllFormed) as H2.
    pose proof (Hkind NotSent) as H3. pose proof (Hkind Sent) as H4.
    cbn [counterOf] in H1, H2, H3, H4.
    pose proof (howMany_kinds (Start sub)). lia.
Qed.

End Counters.

(** ** Pages of a list operation *)

Lemma sortParameter_run {S} {Cmn : common} sortBy (s s' : S) sortParameter :
  match sortBy with
  | Some sortBy => let* p := try (NewSortParameter sortBy) in ret (Some p)
  | None => ret None
  end s = (inr sortParameter, s') ->
  s' = s /\ sortParameterOf sortBy sortParameter.
Proof.
  unfold sortParameterOf. destruct sortBy as [sortBy|].
  - unfold bind, try, ret. destruct (NewSortParameter sortBy) as [e|p]; [discriminate|].
    intros [= <- <-]. eauto.
  - unfold ret. now intros [= <- <-].
Qed.

Lemma offset_run {S} {DB} {Val : validation DB} token message (s s' : S) offset :
  match ValidateToken token with
  | inl _ => throw (NewFlyteAdminErrorf InvalidArgument message)
  | inr offset => ret offset
  end s = (inr offset, s') ->
  s' = s /\ ValidateToken token = inr offset.
Proof.
  destruct (ValidateToken token) as [e|offset']; [discriminate|].
  unfold ret. now intros [= <- <-].
Qed.

(** ** Listing *)

Section Listing.

Context {DB Store : Type}.
Context {Repo : RepositoryInterface DB} {Blob : DataStore Store} {Exec : Executor}
        {Pub : Publisher} {UrlData : RemoteURLInterface} {Cfg : Configuration}
        {Queue : QueueAllocator} {Cmp : Compiler}
        {Val : validation DB} {Utl : util DB Store} {Trn : transformers} {Cmn : common}
        {Ntf : notifications} {Pb : proto} {Shr : shared}.

Lemma clearDeprecated_cleared execution :
  spec_Inputs (exec_Spec (clearDeprecated execution)) = None /\
  closure_ComputedInputs (exec_Closure (clearDeprecated execution)) = None /\
  exec_Id (clearDeprecated execution) = exec_Id execution /\
  closure_Phase (exec_Closure (clearDeprecated execution))
    = closure_Phase (exec_Closure execution) /\
  closure_Outputs (exec_Closure (clearDeprecated execution))
    = closure_Outputs (exec_Closure execution) /\
  closure_Notifications (exec_Closure (clearDeprecated execution))
    = closure_Notifications (exec_Closure execution) /\
  spec_LaunchPlan (exec_Spec (clearDeprecated execution))
    = spec_LaunchPlan (exec_Spec execution) /\
  spec_Metadata (exec_Spec (clearDeprecated execution)) = spec_Metadata (exec_Spec execution).
Proof. repeat split. Qed.

(** A page of executions is one query of the repository, for the rows that
    match the project, domain, name and filters of the request, from the
    offset the token stands for, at most as many as the limit, in the order
    asked for.  The executions returned are those rows in their order, each
    without the inputs of its spec and without the computed inputs of its
    closure, and as it was transformed otherwise. *)
Theorem ListExecutions_returns_one_page_without_inputs
    request (w w' : World DB Store) response :
  ListExecutions request w = (inr response, w') ->
  w' = w /\
  exists filters sortParameter offset output executionList,
    ValidateResourceListRequest request = None /\
    GetDbFilters
      {| fs_Project := nid_Project (rlr_Id request);
         fs_Domain := nid_Domain (rlr_Id request);
         fs_Name := nid_Name (rlr_Id request);
         fs_RequestFilters := rlr_Filters request |} Entity_Execution = inr filters /\
    sortParameterOf (rlr_SortBy request) sortParameter /\
    ValidateToken (rlr_Token request) = inr offset /\
    ExecutionRepo_List (db w)
      {| Limit := Z.of_N (rlr_Limit request); Offset := offset; InlineFilters := filters;
         MapFilters := []; SortParameter_ := sortParameter |} = inr output /\
    FromExecutionModels (out_Executions output) = inr executionList /\
    length (Executions response) = length executionList /\
    forall i execution,
      executionList !! i = Some execution ->
      exists returned,
        Executions response !! i = Some returned /\
        spec_Inputs (exec_Spec returned) = None /\
        closure_ComputedInputs (exec_Closure returned) = None /\
        exec_Id returned = exec_Id execution /\
        closure_Phase (exec_Closure returned) = closure_Phase (exec_Closure execution) /\
        closure_Outputs (exec_Closure returned) = closure_Outputs (exec_Closure execution) /\
        closure_Notifications (exec_Closure returned)
          = closure_Notifications (exec_Closure execution) /\
        spec_LaunchPlan (exec_Spec returned) = spec_LaunchPlan (exec_Spec execution) /\
        spec_Metadata (exec_Spec returned) = spec_Metadata (exec_Spec execution).
Proof.
  unfold ListExecutions. intros Hrun.
  apply bind_inr in Hrun as ([] & w0 & Hvalid & Hrun).
  unfold check in Hvalid.
  destruct (ValidateResourceListRequest request) eqn:Hok; [discriminate|].
  unfold try in Hvalid. injection Hvalid as <-.
  apply bind_inr in Hrun as (filters & w0 & Hfilters & Hrun).
  unfold try in Hfilters. injection Hfilters as Hfilters <-.
  apply bind_inr in Hrun as (sortParameter & w0 & Hsort & Hrun).
  apply sortParameter_run in Hsort as [-> Hsort].
  apply bind_inr in Hrun as (offset & w0 & Hoffset & Hrun).
  apply offset_run in Hoffset as [-> Hoffset].
  apply bind_inr in Hrun as (output & w0 & Hlist & Hrun).
  unfold reads in Hlist. injection Hlist as Hlist <-.
  apply bind_inr in Hrun as (executionList & w0 & Hfrom & Hrun).
  unfold try in Hfrom. injection Hfrom as Hfrom <-.
  unfold ret in Hrun. injection Hrun as <- <-.
  split; [reflexivity|].
  exists filters, sortParameter, offset, output, executionList.
  split; [reflexivity|]. split; [exact Hfilters|]. split; [exact Hsort|].
  split; [exact Hoffset|]. split; [exact Hlist|]. split; [exact Hfrom|].
  cbn [Executions]. split; [apply List.length_map|].
  intros i execution Hi. exists (clearDeprecated execution).
  split; [|apply clearDeprecated_cleared].
  change (List.map clearDeprecated executionList) with (clearDeprecated <$> executionList).
  now rewrite list_lookup_fmap, Hi.
Qed.

(** A pagination token that does not validate is refused with
    InvalidArgument by every list operation, once the request itself, its
    filters and its sort key are accepted; nothing is changed. *)
Theorem list_operations_refuse_a_malformed_token (token : string) (e : error) :
  ValidateToken token = inl e ->
  (forall request (w : World DB Store) filters,
      rlr_Token request = token ->
      ValidateResourceListRequest request = None ->
      GetDbFilters
        {| fs_Project := nid_Project (rlr_Id request);
           fs_Domain := nid_Domain (rlr_Id request);
           fs_Name := nid_Name (rlr_Id request);
           fs_RequestFilters := rlr_Filters request |} Entity_Execution = inr filters ->
      sortable (rlr_SortBy request) ->
      rejects (ListExecutions request) w InvalidArgument) /\
  (forall request (d : DB) filters,
      rlr_Token request = token ->
      ValidateResourceListRequest request = None ->
      GetDbFilters
        {| fs_Project := nid_Project (rlr_Id request);
           fs_Domain := nid_Domain (rlr_Id request);
           fs_Name := nid_Name (rlr_Id request);
           fs_RequestFilters := rlr_Filters request |} Entity_Task = inr filters ->
      sortable (rlr_SortBy request) ->
      rejects (ListTasks (Store := Store) request) d InvalidArgument) /\
  (forall identifierFilters requestFilters limit sortBy addIsParentFilter (d : DB) filters,
      AddRequestFilters requestFilters Entity_NodeExecution identifierFilters = inr filters ->
      sortable sortBy ->
      rejects
        (listNodeExecutions (Store := Store) identifierFilters requestFilters limit token
           sortBy addIsParentFilter) d InvalidArgument).
Proof.
  intros Htoken. split; [|split].
  - intros request w filters Hrequest Hvalid Hfilters Hsort. eexists. split; [|shelve].
    unfold ListExecutions, bind at 1, check, try at 1. rewrite Hvalid.
    unfold bind at 1, try at 1. rewrite Hfilters.
    destruct (rlr_SortBy request) as [sortBy|].
    + destruct Hsort as [p Hsort]. unfold bind at 1, bind at 1, try at 1. rewrite Hsort.
      unfold ret at 1, bind at 1. now rewrite Hrequest, Htoken.
    + unfold bind at 1, ret at 1, bind at 1. now rewrite Hrequest, Htoken.
  - intros request d filters Hrequest Hvalid Hfilters Hsort. eexists. split; [|shelve].
    unfold ListTasks, bind at 1, check, try at 1. rewrite Hvalid.
    unfold bind at 1, try at 1. rewrite Hfilters.
    destruct (rlr_SortBy request) as [sortBy|].
    + destruct Hsort as [p Hsort]. unfold bind at 1, bind at 1, try at 1. rewrite Hsort.
      unfold ret at 1, bind at 1. now rewrite Hrequest, Htoken.
    + unfold bind at 1, ret at 1, bind at 1. now rewrite Hrequest, Htoken.
  - intros identifierFilters requestFilters limit sortBy addIsParentFilter d filters
      Hfilters Hsort. eexists. split; [|shelve].
    unfold listNodeExecutions, bind at 1, try at 1. rewrite Hfilters.
    destruct sortBy as [sortBy|].
    + destruct Hsort as [p Hsort]. unfold bind at 1, bind at 1, try at 1. rewrite Hsort.
      unfold ret at 1, bind at 1. now rewrite Htoken.
    + unfold bind at 1, ret at 1, bind at 1. now rewrite Htoken.
  Unshelve. all: reflexivity.
Qed.

(** The query behind a page of node executions. *)
Lemma listNodeExecutions_query identifierFilters requestFilters limit requestToken sortBy
    addIsParentFilter (d d' : DB) response :
  listNodeExecutions (Store := Store) identifierFilters requestFilters limit requestToken
    sortBy addIsParentFilter d = (inr response, d') ->
  d' = d /\
  exists filters sortParameter offset output,
    AddRequestFilters requestFilters Entity_NodeExecution identifierFilters = inr filters /\
    sortParameterOf sortBy sortParameter /\
    ValidateToken requestToken = inr offset /\
    NodeExecutionRepo_List d
      {| Limit := Z.of_N limit; Offset := offset; InlineFilters := filters;
         MapFilters := if addIsParentFilter then [isParent] else [];
         SortParameter_ := sortParameter |} = inr output /\
    FromNodeExecutionModels (out_NodeExecutions output) = inr (NodeExecutions response).
Proof.
  unfold listNodeExecutions. intros Hrun.
  apply bind_inr in Hrun as (filters & d0 & Hfilters & Hrun).
  unfold try in Hfilters. injection Hfilters as Hfilters <-.
  apply bind_inr in Hrun as (sortParameter & d0 & Hsort & Hrun).
  apply sortParameter_run in Hsort as [-> Hsort].
  apply bind_inr in Hrun as (offset & d0 & Hoffset & Hrun).
  apply offset_run in Hoffset as [-> Hoffset].
  apply bind_inr in Hrun as (output & d0 & Hlist & Hrun).
  unfold reads in Hlist. injection Hlist as Hlist <-.
  apply bind_inr in Hrun as (nodeExecutionList & d0 & Hfrom & Hrun).
  unfold try in Hfrom. injection Hfrom as Hfrom <-.
  unfold ret in Hrun. injection Hrun as <- <-.
  split; [reflexivity|]. exists filters, sortParameter, offset, output.
  repeat (split; [assumption|]). exact Hfrom.
Qed.

(** [ListNodeExecutions] returns the nodes of the workflow execution that no
    task execution launched: its one query carries the filters of the
    execution's identity and of the request, and the map filter that asks for
    an absent parent task execution. *)
Theorem ListNodeExecutions_selects_the_top_level_nodes request (d d' : DB) response :
  ListNodeExecutions (Store := Store) request d = (inr response, d') ->
  d' = d /\
  exists identifierFilters input output,
    GetWorkflowExecutionIdentifierFilters (nlr_WorkflowExecutionId request)
      = inr identifierFilters /\
    AddRequestFilters (nlr_Filters request) Entity_NodeExecution identifierFilters
      = inr (InlineFilters input) /\
    MapFilters input = [ {[ shared_ParentTaskExecutionID := None ]} ] /\
    Limit input = Z.of_N (nlr_Limit request) /\
    ValidateToken (nlr_Token request) = inr (Offset input) /\
    NodeExecutionRepo_List d input = inr output /\
    FromNodeExecutionModels (out_NodeExecutions output) = inr (NodeExecutions response).
Proof.
  unfold ListNodeExecutions. intros Hrun.
  apply bind_inr in Hrun as ([] & d0 & Hvalid & Hrun).
  unfold check in Hvalid.
  destruct (ValidateNodeExecutionListRequest request); [discriminate|].
  unfold try in Hvalid. injection Hvalid as <-.
  apply bind_inr in Hrun as (identifierFilters & d0 & Hid & Hrun).
  unfold try in Hid. injection Hid as Hid <-.
  apply listNodeExecutions_query in Hrun
    as (-> & filters & sortParameter & offset & output & Hfilters & _ & Hoffset & Hlist
        & Hfrom).
  split; [reflexivity|].
  exists identifierFilters,
    {| Limit := Z.of_N (nlr_Limit request); Offset := offset; InlineFilters := filters;
       MapFilters := [isParent]; SortParameter_ := sortParameter |}, output.
  split; [exact Hid|]. split; [exact Hfilters|]. split; [reflexivity|].
  split; [reflexivity|]. split; [exact Hoffset|]. split; [exact Hlist|exact Hfrom].
Qed.

(** [ListNodeExecutionsForTask] returns the nodes a task execution launched:
    the task execution has to be on record, and the one query carries, after
    the filters of the execution's identity, a filter for the parent task
    execution id being that of the task execution, and no map filter. *)
Theorem ListNodeExecutionsForTask_selects_the_nodes_of_the_task
    request (d d' : DB) response :
  ListNodeExecutionsForTask (Store := Store) request d = (inr response, d') ->
  d' = d /\
  exists identifierFilters parentTaskExecutionModel nodeIDFilter input output,
    GetWorkflowExecutionIdentifierFilters
      (nei_ExecutionId (tei_NodeExecutionId (ntlr_TaskExecutionId request)))
      = inr identifierFilters /\
    GetTaskExecutionModel d (ntlr_TaskExecutionId request) = inr parentTaskExecutionModel /\
    NewSingleValueFilter Entity_NodeExecution "eq" shared_ParentTaskExecutionID
      (models.te_ID parentTaskExecutionModel) = inr nodeIDFilter /\
    AddRequestFilters (ntlr_Filters request) Entity_NodeExecution
      (identifierFilters ++ [nodeIDFilter])%list = inr (InlineFilters input) /\
    MapFilters input = [] /\
    Limit input = Z.of_N (ntlr_Limit request) /\
    ValidateToken (ntlr_Token request) = inr (Offset input) /\
    NodeExecutionRepo_List d input = inr output /\
    FromNodeExecutionModels (out_NodeExecutions output) = inr (NodeExecutions response).
Proof.
  unfold ListNodeExecutionsForTask. intros Hrun.
  apply bind_inr in Hrun as ([] & d0 & Hvalid & Hrun).
  unfold check in Hvalid.
  destruct (ValidateNodeExecutionForTaskListRequest request); [discriminate|].
  unfold try in Hvalid. injection Hvalid as <-.
  apply bind_inr in Hrun as (identifierFilters & d0 & Hid & Hrun).
  unfold try in Hid. injection Hid as Hid <-.
  apply bind_inr in Hrun as (parentTaskExecutionModel & d0 & Hparent & Hrun).
  unfold reads in Hparent. injection Hparent as Hparent <-.
  apply bind_inr in Hrun as (nodeIDFilter & d0 & Hfilter & Hrun).
  unfold try in Hfilter. injection Hfilter as Hfilter <-.
  apply listNodeExecutions_query in Hrun
    as (-> & filters & sortParameter & offset & output & Hfilters & _ & Hoffset & Hlist
        & Hfrom).
  split; [reflexivity|].
  exists identifierFilters, parentTaskExecutionModel, nodeIDFilter,
    {| Limit := Z.of_N (ntlr_Limit request); Offset := offset; InlineFilters := filters;
       MapFilters := []; SortParameter_ := sortParameter |}, output.
  split; [exact Hid|]. split; [exact Hparent|]. split; [exact Hfilter|].
  split; [exact Hfilters|]. split; [reflexivity|].
  split; [reflexivity|]. split; [exact Hoffset|]. split; [exact Hlist|exact Hfrom].
Qed.

End Listing.

(** ** Registering tasks *)

Section Registration.

Context {DB Store : Type}.
Context {Repo : RepositoryInterface DB} {Cmp : Compiler} {Cfg : Configuration}
        {Val : validation DB} {Utl : util DB Store} {Trn : transformers} {Cmn : common}
        {Pb : proto}.

Lemma CreateTask_unknown request (d : DB) id finalizedRequest compiledTask createdAt
    taskDigest e :
  ValidateTask d request = None ->
  tcr_Id request = Some id ->
  setDefaults request = inr finalizedRequest ->
  CompileTask (ts_Template (tcr_Spec finalizedRequest)) = inr compiledTask ->
  TimestampProto clock_Now = inr createdAt ->
  GetTaskDigest compiledTask = inr taskDigest ->
  GetTaskModel d (Some id) = inl e ->
  CreateTask (Store := Store) request d =
    match CreateTaskModel finalizedRequest
            {| tc_CompiledTask := compiledTask; tc_CreatedAt := createdAt |} taskDigest with
    | inl e' => (inl e', d)
    | inr taskModel =>
        (match fst (TaskRepo_Create taskModel d) with
         | inl e' => inl e'
         | inr _ => inr Build_TaskCreateResponse
         end, snd (TaskRepo_Create taskModel d))
    end.
Proof.
  intros Hvalid Hid Hdefaults Hcompile Htime Hdigest Hget.
  assert (Hfid : tt_Id (ts_Template (tcr_Spec finalizedRequest)) = Some id).
  { unfold setDefaults in Hdefaults. rewrite Hid in Hdefaults. now injection Hdefaults as <-. }
  unfold CreateTask. unfold bind at 1, checks, check, try at 1. rewrite Hvalid.
  unfold bind at 1, try at 1. rewrite Hdefaults.
  unfold bind at 1, try at 1. rewrite Hcompile.
  unfold bind at 1. rewrite Htime. unfold ret at 1.
  unfold bind at 1, try at 1. rewrite Hdigest.
  rewrite Hfid, Hget. unfold bind, try, ret.
  destruct (CreateTaskModel _ _ _) as [e'|taskModel]; [reflexivity|].
  now destruct (TaskRepo_Create taskModel d) as [[e'|[]] d'].
Qed.

(** A valid request for an identifier under which no task can be found
    (whatever the reason the look-up gives) registers the task: the template
    that is compiled and stored is the request's with the request's
    identifier as its id, whatever id it came with; the closure holds the
    compiled task and the time of the call, the digest is that of the
    compiled task; the outcome is the one of [TaskRepo.Create], and a failure
    of the transformer leaves the repository as it was. *)
Theorem CreateTask_registers_an_unknown_task request (d : DB) id compiledTask createdAt
    taskDigest e :
  let template :=
    {| tt_Id := Some id; tt_Type := tt_Type (ts_Template (tcr_Spec request));
       tt_Target := tt_Target (ts_Template (tcr_Spec request)) |} in
  let finalizedRequest :=
    {| tcr_Id := Some id; tcr_Spec := {| ts_Template := template |} |} in
  ValidateTask d request = None ->
  tcr_Id request = Some id ->
  CompileTask template = inr compiledTask ->
  TimestampProto clock_Now = inr createdAt ->
  GetTaskDigest compiledTask = inr taskDigest ->
  GetTaskModel d (Some id) = inl e ->
  (forall e',
      CreateTaskModel finalizedRequest
        {| tc_CompiledTask := compiledTask; tc_CreatedAt := createdAt |} taskDigest = inl e' ->
      CreateTask (Store := Store) request d = (inl e', d)) /\
  (forall taskModel,
      CreateTaskModel finalizedRequest
        {| tc_CompiledTask := compiledTask; tc_CreatedAt := createdAt |} taskDigest
        = inr taskModel ->
      CreateTask (Store := Store) request d =
        (match fst (TaskRepo_Create taskModel d) with
         | inl e' => inl e'
         | inr _ => inr Build_TaskCreateResponse
         end, snd (TaskRepo_Create taskModel d))).
Proof.
  intros template finalizedRequest Hvalid Hid Hcompile Htime Hdigest Hget.
  assert (Hdefaults : setDefaults request = inr finalizedRequest).
  { unfold setDefaults. now rewrite Hid. }
  pose proof (CreateTask_unknown _ _ _ _ _ _ _ _
                Hvalid Hid Hdefaults Hcompile Htime Hdigest Hget) as Hrun.
  split.
  - intros e' Hmodel. now rewrite Hrun, Hmodel.
  - intros taskModel Hmodel. now rewrite Hrun, Hmodel.
Qed.

(** [CreateTask] writes the repository at most once, by [TaskRepo.Create],
    and only for a valid request with an identifier under which no task was
    found: a task on record is never written over.  A request without an
    identifier that passes validation is refused with InvalidArgument, and a
    creation time that cannot be serialized gives Internal. *)
Theorem CreateTask_never_writes_over_a_task (request : TaskCreateRequest) (d : DB) :
  (snd (CreateTask (Store := Store) request d) = d \/
   exists id e compiledTask createdAt taskDigest taskModel,
     ValidateTask d request = None /\
     tcr_Id request = Some id /\
     GetTaskModel d (Some id) = inl e /\
     GetTaskDigest compiledTask = inr taskDigest /\
     CreateTaskModel
       {| tcr_Id := Some id;
          tcr_Spec :=
            {| ts_Template :=
                 {| tt_Id := Some id; tt_Type := tt_Type (ts_Template (tcr_Spec request));
                    tt_Target := tt_Target (ts_Template (tcr_Spec request)) |} |} |}
       {| tc_CompiledTask := compiledTask; tc_CreatedAt := createdAt |} taskDigest
       = inr taskModel /\
     snd (CreateTask (Store := Store) request d) = snd (TaskRepo_Create taskModel d)) /\
  (ValidateTask d request = None -> tcr_Id request = None ->
   rejects (CreateTask (Store := Store) request) d InvalidArgument) /\
  (forall id compiledTask e,
      ValidateTask d request = None -> tcr_Id request = Some id ->
      CompileTask
        {| tt_Id := Some id; tt_Type := tt_Type (ts_Template (tcr_Spec request));
           tt_Target := tt_Target (ts_Template (tcr_Spec request)) |} = inr compiledTask ->
      TimestampProto clock_Now = inl e ->
      rejects (CreateTask (Store := Store) request) d Internal).
Proof.
  split; [|split].
  - remember (CreateTask (Store := Store) request d) as run eqn:Hrun.
    unfold CreateTask in Hrun. unfold bind at 1, checks, check, try at 1 in Hrun.
    destruct (ValidateTask d request) as [e|] eqn:Hvalid; [subst run; now left|].
    unfold bind at 1, try at 1 in Hrun.
    destruct (setDefaults request) as [e|finalizedRequest] eqn:Hdefaults;
      [subst run; now left|].
    unfold bind at 1, try at 1 in Hrun.
    destruct (CompileTask _) as [e|compiledTask]; [subst run; now left|].
    unfold bind at 1 in Hrun.
    destruct (TimestampProto clock_Now) as [e|createdAt]; [subst run; now left|].
    unfold ret at 1 in Hrun. unfold bind at 1, try at 1 in Hrun.
    destruct (GetTaskDigest compiledTask) as [e|taskDigest] eqn:Hdigest;
      [subst run; now left|].
    unfold setDefaults in Hdefaults.
    destruct (tcr_Id request) as [id|] eqn:Hid; [|discriminate].
    injection Hdefaults as <-. cbn [tcr_Spec ts_Template tt_Id] in Hrun.
    destruct (GetTaskModel d (Some id)) as [e|existingTask] eqn:Hget.
    + unfold bind, try, ret in Hrun.
      destruct (CreateTaskModel _ _ _) as [e'|taskModel] eqn:Hmodel; [subst run; now left|].
      right. exists id, e, compiledTask, createdAt, taskDigest, taskModel.
      repeat (split; [first [assumption | reflexivity]|]).
      subst run. now destruct (TaskRepo_Create taskModel d) as [[e'|[]] d'].
    + left. subst run. now destruct (bytes_Equal _ _).
  - intros Hvalid Hid. eexists. split; [|shelve].
    unfold CreateTask. unfold bind at 1, checks, check, try at 1. rewrite Hvalid.
    unfold bind at 1, try at 1, setDefaults. rewrite Hid. reflexivity.
    Unshelve. reflexivity.
  - intros id compiledTask e Hvalid Hid Hcompile Htime. eexists. split; [|shelve].
    unfold CreateTask. unfold bind at 1, checks, check, try at 1. rewrite Hvalid.
    unfold bind at 1, try at 1, setDefaults. rewrite Hid. cbn [tcr_Spec ts_Template].
    unfold bind at 1, try at 1. rewrite Hcompile.
    unfold bind at 1. rewrite Htime. reflexivity.
    Unshelve. reflexivity.
Qed.

End Registration.

(** ** Unique task identifiers *)

Section UniqueIdentifiers.

Context {DB Store : Type}.
Context {Val : validation DB} {Utl : util DB Store} {Cmn : common} {Ids : TaskIdentifiers DB}.

(** A page of unique task identifiers is one query for the tasks of the
    project and domain of the request, whatever their name, without request
    filters; the identifiers returned are those of the rows; and the token
    follows the pagination contract on the number of identifiers returned:
    set exactly when the page is full, to the offset of the next page. *)
Theorem ListUniqueTaskIdentifiers_pages_by_identifier request (d d' : DB) response :
  ListUniqueTaskIdentifiers (Store := Store) request d = (inr response, d') ->
  d' = d /\
  exists filters sortParameter offset output,
    ValidateNamedEntityIdentifierListRequest request = None /\
    GetDbFilters
      {| fs_Project := nilr_Project request; fs_Domain := nilr_Domain request;
         fs_Name := ""; fs_RequestFilters := "" |} Entity_Task = inr filters /\
    sortParameterOf (nilr_SortBy request) sortParameter /\
    ValidateToken (nilr_Token request) = inr offset /\
    TaskRepo_ListTaskIdentifiers d
      {| Limit := Z.of_N (nilr_Limit request); Offset := offset; InlineFilters := filters;
         MapFilters := []; SortParameter_ := sortParameter |} = inr output /\
    Entities response = FromTaskModelsToIdentifiers (out_Tasks output) /\
    continuationToken (nil_Token response) (len (Entities response)) (nilr_Limit request)
      offset.
Proof.
  unfold ListUniqueTaskIdentifiers. intros Hrun.
  apply bind_inr in Hrun as ([] & d0 & Hvalid & Hrun).
  unfold check in Hvalid.
  destruct (ValidateNamedEntityIdentifierListRequest request) eqn:Hok; [discriminate|].
  unfold try in Hvalid. injection Hvalid as <-.
  apply bind_inr in Hrun as (filters & d0 & Hfilters & Hrun).
  unfold try in Hfilters. injection Hfilters as Hfilters <-.
  apply bind_inr in Hrun as (sortParameter & d0 & Hsort & Hrun).
  apply sortParameter_run in Hsort as [-> Hsort].
  apply bind_inr in Hrun as (offset & d0 & Hoffset & Hrun).
  apply offset_run in Hoffset as [-> Hoffset].
  apply bind_inr in Hrun as (output & d0 & Hlist & Hrun).
  unfold reads in Hlist. injection Hlist as Hlist <-.
  unfold ret in Hrun. injection Hrun as <- <-.
  split; [reflexivity|]. exists filters, sortParameter, offset, output.
  repeat (split; [first [assumption | reflexivity]|]).
  apply pageToken_contract.
Qed.

End UniqueIdentifiers.

(** ** What a termination touches *)

Section TerminationFrame.

Context {DB Store : Type}.
Context {Repo : RepositoryInterface DB} {Exec : Executor} {Val : validation DB}.

(** [set_AbortCause] changes the abort cause and nothing else. *)
Lemma set_AbortCause_frame executionModel cause :
  models.AbortCause (set_AbortCause executionModel cause) = cause /\
  models.Phase (set_AbortCause executionModel cause) = models.Phase executionModel /\
  models.ExecutionKey (set_AbortCause executionModel cause)
    = models.ExecutionKey executionModel /\
  models.ID (set_AbortCause executionModel cause) = models.ID executionModel /\
  models.Closure (set_AbortCause executionModel cause) = models.Closure executionModel /\
  models.Spec (set_AbortCause executionModel cause) = models.Spec executionModel /\
  models.Cluster (set_AbortCause executionModel cause) = models.Cluster executionModel /\
  models.InputsURI (set_AbortCause executionModel cause) = models.InputsURI executionModel /\
  models.UserInputsURI (set_AbortCause executionModel cause)
    = models.UserInputsURI executionModel.
Proof. repeat split. Qed.

(** [TerminateExecution] asks the executor to abort at most once, and only an
    execution that is on record, in the cluster recorded for it and whatever
    its phase; a request that fails validation or names no stored execution
    reaches neither the executor nor the repository.  After the abort the
    record handed to the repository is the stored one with the abort cause
    replaced: its phase is as it was, and moves only through events.  A
    failure to store the cause is returned although the abort was made.  No
    workflow is dispatched, nothing is published, the blob store is not
    written. *)
Theorem TerminateExecution_aborts_executions_on_record_only
    (request : ExecutionTerminateRequest) (w : World DB Store) :
  let run := TerminateExecution request w in
  dispatched (snd run) = dispatched w /\ published (snd run) = published w /\
  storageClient (snd run) = storageClient w /\
  ((aborted (snd run) = aborted w /\ db (snd run) = db w /\
    exists e, fst run = inl e /\
      (ValidateWorkflowExecutionIdentifier (etr_Id request) = Some e \/
       storedExecution request (db w) = inl e)) \/
   (exists executionModel,
      ValidateWorkflowExecutionIdentifier (etr_Id request) = None /\
      storedExecution request (db w) = inr executionModel /\
      aborted (snd run) =
        (aborted w ++ [ {| twi_ExecutionID := etr_Id request;
                           twi_Cluster := models.Cluster executionModel |} ])%list /\
      match TerminateWorkflowExecution (abortInput request executionModel) with
      | Some e => fst run = inl e /\ db (snd run) = db w
      | None =>
          let updated := set_AbortCause executionModel (etr_Cause request) in
          models.Phase updated = models.Phase executionModel /\
          models.AbortCause updated = etr_Cause request /\
          db (snd run) = snd (ExecutionRepo_UpdateExecution updated (db w)) /\
          fst run =
            match fst (ExecutionRepo_UpdateExecution updated (db w)) with
            | inl e => inl e
            | inr _ => inr Build_ExecutionTerminateResponse
            end
      end)).
Proof.
  intros run.
  destruct (ValidateWorkflowExecutionIdentifier (etr_Id request)) as [e|] eqn:Hvalid.
  { assert (Hrun : run = (inl e, w)).
    { subst run. unfold TerminateExecution, bind, check, try. now rewrite Hvalid. }
    rewrite Hrun. repeat (split; [reflexivity|]). left. repeat (split; [reflexivity|]).
    exists e. split; [reflexivity | now left]. }
  destruct (storedExecution request (db w)) as [e|executionModel] eqn:Hget.
  { assert (Hrun : run = (inl e, w)).
    { subst run. unfold storedExecution in Hget.
      unfold TerminateExecution, bind, check, try, reads. now rewrite Hvalid, Hget. }
    rewrite Hrun. repeat (split; [reflexivity|]). left. repeat (split; [reflexivity|]).
    exists e. split; [reflexivity | now right]. }
  destruct (TerminateWorkflowExecution (abortInput request executionModel)) as [e|] eqn:Habort.
  - subst run. rewrite (TerminateExecution_abort_fails _ _ _ _ Hvalid Hget Habort).
    repeat (split; [reflexivity|]). right. exists executionModel. rewrite Habort.
    repeat (split; [reflexivity|]). split; reflexivity.
  - subst run. rewrite (TerminateExecution_abort_succeeds _ _ _ Hvalid Hget Habort).
    repeat (split; [reflexivity|]). right. exists executionModel. rewrite Habort.
    repeat (split; [reflexivity|]). cbn zeta. repeat split.
Qed.

End TerminationFrame.

(** ** Queue allocation, whatever the configuration *)

Section QueueAnnotations.

Context {Queue : QueueAllocator}.

Lemma assignQueue_config queueConfig task container :
  GetContainer (Template task) = Some container ->
  exists container',
    assignQueue queueConfig task = withContainer task container' /\
    Config container' = (Config container ++ queueAnnotations queueConfig)%list /\
    Image container' = Image container /\ Command container' = Command container /\
    Args container' = Args container /\ Env container' = Env container.
Proof.
  intros Hc. unfold assignQueue, queueAnnotations. rewrite Hc.
  destruct (decide (PrimaryQueue queueConfig = "")) as [Hp|Hp],
           (decide (DynamicQueue queueConfig = "")) as [Hd|Hd].
  - rewrite Hp, Hd. cbn. eexists. split; [reflexivity|].
    rewrite app_nil_r. repeat split.
  - rewrite Hp. apply String.eqb_neq in Hd. rewrite Hd. cbn.
    eexists. split; [reflexivity|]. repeat split.
  - rewrite Hd. apply String.eqb_neq in Hp. rewrite Hp. cbn.
    eexists. split; [reflexivity|]. repeat split.
  - apply String.eqb_neq in Hp, Hd. rewrite Hp, Hd. cbn.
    eexists. split; [reflexivity|]. cbn. rewrite <- app_assoc. repeat split.
Qed.

(** Queue allocation keeps the tasks of the workflow in number and order,
    and each task's id and type.  A task without a container is left as it
    is.  The configuration of a container is extended, never replaced: what
    it held stays in front, and one pair is appended for each queue name of
    the allocation that is not empty, parent_queue before child_queue; with
    both names empty nothing is added.  Image, command, arguments and
    environment stay. *)
Theorem populateExecutionQueue_extends_the_container_configuration
    (identifier : Identifier) (compiledWorkflow : CompiledWorkflowClosure) :
  Primary (populateExecutionQueue identifier compiledWorkflow) = Primary compiledWorkflow /\
  length (Tasks (populateExecutionQueue identifier compiledWorkflow))
    = length (Tasks compiledWorkflow) /\
  forall (i : nat) (task : CompiledTask),
    Tasks compiledWorkflow !! i = Some task ->
    exists task',
      Tasks (populateExecutionQueue identifier compiledWorkflow) !! i = Some task' /\
      tt_Id (Template task') = tt_Id (Template task) /\
      tt_Type (Template task') = tt_Type (Template task) /\
      match GetContainer (Template task) with
      | None => task' = task
      | Some container =>
          exists container',
            GetContainer (Template task') = Some container' /\
            Config container' =
              (Config container ++ queueAnnotations (GetQueue identifier))%list /\
            Config container `prefix_of` Config container' /\
            Image container' = Image container /\
            Command container' = Command container /\
            Args container' = Args container /\
            Env container' = Env container
      end.
Proof.
  split; [reflexivity|]. split; [apply List.length_map|].
  intros i task Hi.
  exists (assignQueue (GetQueue identifier) task). split.
  { unfold populateExecutionQueue. cbn [Tasks].
    change (List.map ?f ?l) with (f <$> l). now rewrite list_lookup_fmap, Hi. }
  destruct (GetContainer (Template task)) as [container|] eqn:Hc.
  - destruct (assignQueue_config (GetQueue identifier) task container Hc)
      as (container' & -> & Hconfig & Himage & Hcommand & Hargs & Henv).
    split; [reflexivity|]. split; [reflexivity|].
    exists container'. split; [reflexivity|]. split; [exact Hconfig|].
    split; [rewrite Hconfig; now apply prefix_app_r|].
    repeat split; assumption.
  - rewrite (assignQueue_without_container _ _ Hc). repeat split.
Qed.

End QueueAnnotations.

(** ** Stop watches per project and domain *)

Section StopWatches.

Context {DB Store : Type}.
Context {Blob : DataStore Store} {Trn : transformers} {Mtr : Metrics DB}.

Lemma watchOf_recorded watches project domain watch p d :
  watchOf (recorded watches project domain watch) p d =
    if decide ((p, d) = (project, domain)) then
      match watch with
      | Some watch => Some watch
      | None => watchOf watches project domain
      end
    else watchOf watches p d.
Proof.
  unfold recorded, watchOf, projectDomainScopedStopWatchMap in *.
  destruct (decide (p = project)) as [->|Hp].
  - destruct (decide (d = domain)) as [->|Hd].
    + rewrite decide_True by reflexivity.
      destruct watch as [watch|]; rewrite lookup_insert_eq; cbn.
      * now rewrite lookup_insert_eq.
      * now destruct (watches !! project).
    + rewrite decide_False by congruence.
      destruct watch as [watch|]; rewrite lookup_insert_eq; cbn.
      * rewrite lookup_insert_ne by congruence. now destruct (watches !! project).
      * now destruct (watches !! project).
  - rewrite decide_False by congruence.
    destruct watch as [watch|]; now rewrite lookup_insert_ne by congruence.
Qed.

Lemma recorded_found watches project domain watch :
  watchOf watches project domain = Some watch ->
  recorded watches project domain (Some watch) = watches.
Proof.
  unfold recorded, watchOf, projectDomainScopedStopWatchMap in *.
  destruct (watches !! project) as [domainCounterMap|] eqn:Hproject; [|discriminate].
  cbn. intros Hdomain. rewrite (insert_id domainCounterMap) by exact Hdomain.
  now apply insert_id.
Qed.

Lemma recorded_registered watches project domain domainCounterMap :
  watches !! project = Some domainCounterMap ->
  recorded watches project domain None = watches.
Proof.
  unfold recorded, projectDomainScopedStopWatchMap in *. intros Hproject.
  rewrite Hproject. cbn. now apply insert_id.
Qed.

(** [emitOverallWorkflowExecutionTime] in one equation. *)
Lemma emitOverallWorkflowExecutionTime_recorded executionModel terminalEventTimeProto
    (durations : projectDomainScopedStopWatchMap) :
  let project := wei_Project (models.ExecutionKey executionModel) in
  let domain := wei_Domain (models.ExecutionKey executionModel) in
  emitOverallWorkflowExecutionTime (Some executionModel) (Some terminalEventTimeProto)
    durations =
  recorded durations project domain
    (watch ← watchFor durations project domain "workflow_execution_duration";
     Some match ptypes_Timestamp terminalEventTimeProto,
                models.ExecutionCreatedAt executionModel with
          | inr terminalEventTime, Some createdAt =>
              Observe watch createdAt terminalEventTime
          | _, _ => watch
          end).
Proof.
  intros project domain. unfold emitOverallWorkflowExecutionTime. fold project domain.
  unfold watchFor. unfold watchOf.
  destruct (durations !! project) as [domainCounterMap|] eqn:Hproject; cbn [mbind option_bind].
  - assert (Hwatch : watchOf durations project domain = domainCounterMap !! domain)
      by (unfold watchOf; now rewrite Hproject).
    destruct (domainCounterMap !! domain) as [watch|] eqn:Hdomain.
    + cbn [mbind option_bind].
      destruct (ptypes_Timestamp terminalEventTimeProto) as [e|terminalEventTime];
        [now rewrite recorded_found|].
      destruct (models.ExecutionCreatedAt executionModel) as [createdAt|];
        [reflexivity | now rewrite recorded_found].
    + destruct (NewStopWatch project domain _) as [e|newWatch]; cbn [mbind option_bind].
      { now rewrite (recorded_registered _ _ _ _ Hproject). }
      destruct (ptypes_Timestamp terminalEventTimeProto) as [e|terminalEventTime];
        [|destruct (models.ExecutionCreatedAt executionModel) as [createdAt|]];
        unfold recorded, projectDomainScopedStopWatchMap in *;
        rewrite ?lookup_insert_eq, ?Hproject; cbn [default from_option id];
        now rewrite ?insert_insert_eq.
  - unfold projectDomainScopedStopWatchMap in *. rewrite lookup_empty.
    destruct (NewStopWatch project domain _) as [e|newWatch]; cbn [mbind option_bind];
      [|destruct (ptypes_Timestamp terminalEventTimeProto) as [e|terminalEventTime];
        [|destruct (models.ExecutionCreatedAt executionModel) as [createdAt|]]];
      unfold recorded, projectDomainScopedStopWatchMap in *;
      rewrite ?lookup_insert_eq, ?Hproject; cbn [default from_option id];
      now rewrite ?insert_insert_eq.
Qed.

(** The duration of a workflow execution is observed on the stop watch of
    its project and domain, from its creation to the terminal event, when the
    time of the event converts and the record has a creation time.  The watch
    is looked up, and made and registered when there is none, before either
    is checked: a call that observes nothing may still leave a new watch
    behind.  The watches of the other projects and domains are as they were,
    and a call without execution or without event time does nothing. *)
Theorem emitOverallWorkflowExecutionTime_observes_on_the_watch_of_the_domain
    (executionModel : models.Execution) (terminalEventTimeProto : Time)
    (durations : projectDomainScopedStopWatchMap) :
  let project := wei_Project (models.ExecutionKey executionModel) in
  let domain := wei_Domain (models.ExecutionKey executionModel) in
  let durations' :=
    emitOverallWorkflowExecutionTime (Some executionModel) (Some terminalEventTimeProto)
      durations in
  (forall p d, (p, d) <> (project, domain) -> watchOf durations' p d = watchOf durations p d) /\
  watchOf durations' project domain =
    (watch ← watchFor durations project domain "workflow_execution_duration";
     Some match ptypes_Timestamp terminalEventTimeProto,
                models.ExecutionCreatedAt executionModel with
          | inr terminalEventTime, Some createdAt =>
              Observe watch createdAt terminalEventTime
          | _, _ => watch
          end) /\
  emitOverallWorkflowExecutionTime None (Some terminalEventTimeProto) durations = durations /\
  emitOverallWorkflowExecutionTime (Some executionModel) None durations = durations.
Proof.
  intros project domain durations'. subst durations'.
  rewrite emitOverallWorkflowExecutionTime_recorded. fold project domain.
  split; [|split; [|split; reflexivity]].
  - intros p d Hne. rewrite watchOf_recorded. now rewrite decide_False by exact Hne.
  - rewrite watchOf_recorded. rewrite decide_True by reflexivity.
    unfold watchFor.
    destruct (watchOf durations project domain) as [watch|]; [reflexivity|].
    now destruct (NewStopWatch project domain _).
Qed.

(** [emitScheduledWorkflowMetrics], when everything it looks up is there, in
    one equation. *)
Lemma emitScheduledWorkflowMetrics_recorded (d : DB) (storageClient : Store) executionModel
    runningEventTimeProto (delays : projectDomainScopedStopWatchMap)
    execution launchPlan schedule inputs scheduledKickoffTimeProto scheduledKickoffTime
    runningEventTime :
  FromExecutionModel executionModel = inr execution ->
  GetLaunchPlan d (spec_LaunchPlan (exec_Spec execution)) = inr launchPlan ->
  lps_EntityMetadata (lp_Spec launchPlan) ≫= lpm_Schedule = Some schedule ->
  KickoffTimeInputArg schedule <> "" ->
  ReadProtobuf storageClient (models.InputsURI executionModel) = inr inputs ->
  Literals inputs !! KickoffTimeInputArg schedule ≫= GetDatetime
    = Some scheduledKickoffTimeProto ->
  ptypes_Timestamp scheduledKickoffTimeProto = inr scheduledKickoffTime ->
  ptypes_Timestamp runningEventTimeProto = inr runningEventTime ->
  emitScheduledWorkflowMetrics d storageClient (Some executionModel)
    (Some runningEventTimeProto) delays =
  recorded delays (wei_Project (exec_Id execution)) (wei_Domain (exec_Id execution))
    (watch ← watchFor delays (wei_Project (exec_Id execution))
               (wei_Domain (exec_Id execution)) "scheduled_execution_delay";
     Some (Observe watch scheduledKickoffTime runningEventTime)).
Proof.
  intros Hfrom Hplan Hschedule Harg Hread Hliteral Hkickoff Hrunning.
  unfold emitScheduledWorkflowMetrics.
  rewrite Hfrom, Hplan, Hschedule. rewrite decide_False by exact Harg.
  rewrite Hread, Hliteral, Hkickoff, Hrunning.
  set (project := wei_Project (exec_Id execution)).
  set (domain := wei_Domain (exec_Id execution)).
  unfold watchFor, watchOf.
  destruct (delays !! project) as [domainCounterMap|] eqn:Hproject; cbn [mbind option_bind].
  - destruct (domainCounterMap !! domain) as [watch|] eqn:Hdomain; cbn [mbind option_bind];
      [|destruct (NewStopWatch project domain _) as [e|newWatch]; cbn [mbind option_bind]];
      unfold recorded, projectDomainScopedStopWatchMap in *;
      rewrite ?Hproject; cbn [default from_option id]; try reflexivity.
    symmetry. now apply insert_id.
  - unfold projectDomainScopedStopWatchMap in *. rewrite lookup_empty.
    destruct (NewStopWatch project domain _) as [e|newWatch]; cbn [mbind option_bind];
      unfold recorded, projectDomainScopedStopWatchMap in *;
      rewrite ?Hproject; cbn [default from_option id]; [reflexivity|].
    now rewrite insert_insert_eq.
Qed.

(** The delay of a scheduled execution is observed only when all of this is
    found: the execution as a message, its launch plan, a schedule with a
    kickoff-time argument, the offloaded inputs, a datetime under that
    argument, and both times convert; otherwise the stop watches are exactly
    as they were, no watch being looked up or made before.  When all is
    found, the interval from the scheduled kickoff time to the time of the
    running event is observed on the watch of the project and domain of the
    execution, a new one if there is none and one can be made, and the
    watches of the other projects and domains are as they were. *)
Theorem emitScheduledWorkflowMetrics_observes_the_kickoff_delay
    (d : DB) (storageClient : Store) (executionModel : models.Execution)
    (runningEventTimeProto : Time) (delays : projectDomainScopedStopWatchMap) :
  let delays' :=
    emitScheduledWorkflowMetrics d storageClient (Some executionModel)
      (Some runningEventTimeProto) delays in
  let found execution launchPlan schedule inputs scheduledKickoffTimeProto
        scheduledKickoffTime runningEventTime :=
    FromExecutionModel executionModel = inr execution /\
    GetLaunchPlan d (spec_LaunchPlan (exec_Spec execution)) = inr launchPlan /\
    lps_EntityMetadata (lp_Spec launchPlan) ≫= lpm_Schedule = Some schedule /\
    KickoffTimeInputArg schedule <> "" /\
    ReadProtobuf storageClient (models.InputsURI executionModel) = inr inputs /\
    Literals inputs !! KickoffTimeInputArg schedule ≫= GetDatetime
      = Some scheduledKickoffTimeProto /\
    ptypes_Timestamp scheduledKickoffTimeProto = inr scheduledKickoffTime /\
    ptypes_Timestamp runningEventTimeProto = inr runningEventTime in
  (delays' = delays \/
   exists execution launchPlan schedule inputs scheduledKickoffTimeProto
          scheduledKickoffTime runningEventTime,
     found execution launchPlan schedule inputs scheduledKickoffTimeProto
       scheduledKickoffTime runningEventTime) /\
  (forall execution launchPlan schedule inputs scheduledKickoffTimeProto
          scheduledKickoffTime runningEventTime,
      found execution launchPlan schedule inputs scheduledKickoffTimeProto
        scheduledKickoffTime runningEventTime ->
      let project := wei_Project (exec_Id execution) in
      let domain := wei_Domain (exec_Id execution) in
      (forall p d, (p, d) <> (project, domain) -> watchOf delays' p d = watchOf delays p d) /\
      watchOf delays' project domain =
        (watch ← watchFor delays project domain "scheduled_execution_delay";
         Some (Observe watch scheduledKickoffTime runningEventTime))) /\
  emitScheduledWorkflowMetrics d storageClient None (Some runningEventTimeProto) delays
    = delays /\
  emitScheduledWorkflowMetrics d storageClient (Some executionModel) None delays = delays.
Proof.
  intros delays' found. split; [|split; [|split; reflexivity]].
  - subst delays'. unfold emitScheduledWorkflowMetrics.
    destruct (FromExecutionModel executionModel) as [e|execution] eqn:Hfrom; [now left|].
    destruct (GetLaunchPlan d _) as [e|launchPlan] eqn:Hplan; [now left|].
    destruct (lps_EntityMetadata (lp_Spec launchPlan) ≫= lpm_Schedule)
      as [schedule|] eqn:Hschedule; [|now left].
    destruct (decide (KickoffTimeInputArg schedule = "")) as [Harg|Harg]; [now left|].
    destruct (ReadProtobuf storageClient _) as [e|inputs] eqn:Hread; [now left|].
    destruct (Literals inputs !! KickoffTimeInputArg schedule ≫= GetDatetime)
      as [scheduledKickoffTimeProto|] eqn:Hliteral; [|now left].
    destruct (ptypes_Timestamp scheduledKickoffTimeProto) as [e|scheduledKickoffTime]
      eqn:Hkickoff; [now left|].
    destruct (ptypes_Timestamp runningEventTimeProto) as [e|runningEventTime] eqn:Hrunning;
      [now left|].
    right. exists execution, launchPlan, schedule, inputs, scheduledKickoffTimeProto,
      scheduledKickoffTime, runningEventTime.
    subst found. cbv beta. repeat (split; [first [assumption | reflexivity]|]). reflexivity.
  - intros execution launchPlan schedule inputs scheduledKickoffTimeProto
      scheduledKickoffTime runningEventTime
      (Hfrom & Hplan & Hschedule & Harg & Hread & Hliteral & Hkickoff & Hrunning)
      project domain.
    subst delays'.
    rewrite (emitScheduledWorkflowMetrics_recorded _ _ _ _ _ _ _ _ _ _ _ _
               Hfrom Hplan Hschedule Harg Hread Hliteral Hkickoff Hrunning).
    fold project domain. split.
    + intros p d' Hne. rewrite watchOf_recorded. now rewrite decide_False by exact Hne.
    + rewrite watchOf_recorded. rewrite decide_True by reflexivity.
      unfold watchFor.
      destruct (watchOf delays project domain) as [watch|]; [reflexivity|].
      now destruct (NewStopWatch project domain _).
Qed.

End StopWatches.

(** * The properties at work on the in-memory collaborators *)

Import InMemory.

(** The scenario of the spec: a container task tagged gpu gets
    parent_queue = gpu_primary and child_queue = gpu_dynamic; the task
    without a container is untouched. *)
Lemma populateExecutionQueue_gpu_scenario :
  PrimaryQueue (GetQueue Scenario.workflowId) <> "" /\
  DynamicQueue (GetQueue Scenario.workflowId) <> "" /\
  (exists task' container',
      Tasks (populateExecutionQueue Scenario.workflowId Scenario.compiledWorkflow) !! 0%nat
        = Some task' /\
      GetContainer (Template task') = Some container' /\
      Config container' =
        [ {| kv_Key := "tag"; kv_Value := "gpu" |};
          {| kv_Key := "parent_queue"; kv_Value := "gpu_primary" |};
          {| kv_Key := "child_queue"; kv_Value := "gpu_dynamic" |} ]) /\
  Tasks (populateExecutionQueue Scenario.workflowId Scenario.compiledWorkflow) !! 1%nat
    = Some Scenario.sparkTask.
Proof.
  assert (Hp : PrimaryQueue (GetQueue Scenario.workflowId) <> "") by discriminate.
  assert (Hd : DynamicQueue (GetQueue Scenario.workflowId) <> "") by discriminate.
  destruct (populateExecutionQueue_annotates_container_tasks
              Scenario.workflowId Scenario.compiledWorkflow Hp Hd) as [_ Htasks].
  split; [exact Hp|]. split; [exact Hd|]. split.
  - destruct (Htasks 0%nat Scenario.containerTask eq_refl)
      as (task' & container' & Hlookup & Hcontainer & Hconfig & _).
    exists task', container'. repeat split; assumption.
  - exact (Htasks 1%nat Scenario.sparkTask eq_refl).
Defined.

(** A RUNNING execution and a RUNNING node that are reported RUNNING again. *)
Lemma duplicate_phase_report_running_again :
  rejects (CreateWorkflowEvent (Scenario.event WorkflowExecution_RUNNING))
    (Scenario.world "RUNNING") AlreadyExists /\
  rejects (CreateNodeEvent (Scenario.nodeEvent NodeExecution_RUNNING))
    (db (Scenario.world "RUNNING")) AlreadyExists.
Proof.
  destruct (duplicate_phase_report_is_rejected (DB:=DB) (Store:=Store)) as [Hworkflow Hnode].
  split.
  - apply (Hworkflow _ _ (Scenario.execution "RUNNING" "s3://flyte/metadata/p/d/n/inputs"));
      reflexivity.
  - apply (Hnode _ _ (Scenario.execution "RUNNING" "s3://flyte/metadata/p/d/n/inputs")
             (Scenario.nodeExecution "RUNNING")); reflexivity.
Defined.

(** A FAILED execution and a FAILED node reported SUCCEEDED. *)
Lemma terminal_phase_failed_then_succeeded :
  rejects (CreateWorkflowEvent (Scenario.event WorkflowExecution_SUCCEEDED))
    (Scenario.world "FAILED") FailedPrecondition /\
  rejects (CreateNodeEvent (Scenario.nodeEvent NodeExecution_SUCCEEDED))
    (db (Scenario.world "FAILED")) FailedPrecondition.
Proof.
  destruct (terminal_phase_rejects_every_event (DB:=DB) (Store:=Store)) as [Hworkflow Hnode].
  split.
  - exact (Hworkflow (Scenario.world "FAILED") (Scenario.event WorkflowExecution_SUCCEEDED)
             (Scenario.execution "FAILED" "s3://flyte/metadata/p/d/n/inputs")
             eq_refl eq_refl eq_refl).
  - exact (proj2 (Hnode (db (Scenario.world "FAILED"))
                    (Scenario.nodeEvent NodeExecution_SUCCEEDED)
                    (Scenario.execution "FAILED" "s3://flyte/metadata/p/d/n/inputs")
                    (Scenario.nodeExecution "FAILED") eq_refl eq_refl eq_refl)).
Defined.

(** C1 as stated fails: the execution p/d/n is stored in the terminal phase
    SUCCEEDED, and a further SUCCEEDED event is rejected with AlreadyExists,
    not with FailedPrecondition; the same holds for its node. *)
Lemma terminal_phase_repeated_is_AlreadyExists :
  IsExecutionTerminal
    (WorkflowExecution_Phase_value
       (models.Phase (Scenario.execution "SUCCEEDED" "s3://flyte/metadata/p/d/n/inputs")))
    = true /\
  GetExecutionModel (db (Scenario.world "SUCCEEDED")) Scenario.executionId
    = inr (Scenario.execution "SUCCEEDED" "s3://flyte/metadata/p/d/n/inputs") /\
  CreateWorkflowEvent (Scenario.event WorkflowExecution_SUCCEEDED) (Scenario.world "SUCCEEDED")
    = (inl (NewFlyteAdminErrorf AlreadyExists
              "This phase %s was already recorded for workflow execution %v"),
       Scenario.world "SUCCEEDED") /\
  ~ rejects (CreateWorkflowEvent (Scenario.event WorkflowExecution_SUCCEEDED))
      (Scenario.world "SUCCEEDED") FailedPrecondition /\
  IsNodeExecutionTerminal
    (NodeExecution_Phase_value (models.ne_Phase (Scenario.nodeExecution "SUCCEEDED"))) = true /\
  CreateNodeEvent (Scenario.nodeEvent NodeExecution_SUCCEEDED) (db (Scenario.world "SUCCEEDED"))
    = (inl (NewFlyteAdminErrorf AlreadyExists "This phase was already recorded %v for %+v"),
       db (Scenario.world "SUCCEEDED")) /\
  ~ rejects (CreateNodeEvent (Scenario.nodeEvent NodeExecution_SUCCEEDED))
      (db (Scenario.world "SUCCEEDED")) FailedPrecondition.
Proof.
  assert (Hrun : CreateWorkflowEvent (Scenario.event WorkflowExecution_SUCCEEDED)
                   (Scenario.world "SUCCEEDED")
                 = (inl (NewFlyteAdminErrorf AlreadyExists
                           "This phase %s was already recorded for workflow execution %v"),
                    Scenario.world "SUCCEEDED")) by reflexivity.
  assert (Hnode : CreateNodeEvent (Scenario.nodeEvent NodeExecution_SUCCEEDED)
                    (db (Scenario.world "SUCCEEDED"))
                  = (inl (NewFlyteAdminErrorf AlreadyExists
                            "This phase was already recorded %v for %+v"),
                     db (Scenario.world "SUCCEEDED"))) by reflexivity.
  repeat split; try reflexivity.
  - intros (e & He & Hcode). rewrite Hrun in He. inversion He; subst. discriminate.
  - intros (e & He & Hcode). rewrite Hnode in He. inversion He; subst. discriminate.
Qed.

(** The scenario of the spec: one chat entry for succeeded and failed,
    addressed to a@x.com.  A succeeded event publishes exactly one message,
    to a@x.com; a running event publishes none.  With an entry of no channel
    type after the chat entry, a failed event publishes the chat message and
    fails with Internal. *)
Lemma publishNotifications_chat_scenario :
  FromExecutionModel (transformers := transformersWith Scenario.notificationList [])
    (Scenario.execution "SUCCEEDED" "")
    = inr {| exec_Id := Scenario.executionId; exec_Spec := emptySpec;
             exec_Closure :=
               {| closure_Outputs := None; closure_ComputedInputs := None;
                  closure_Phase := WorkflowExecution_SUCCEEDED;
                  closure_Notifications := Scenario.notificationList |} |} /\
  (let outcome :=
     publishNotifications (Trn := transformersWith Scenario.notificationList [])
       (Scenario.event WorkflowExecution_SUCCEEDED) (Scenario.execution "SUCCEEDED" "")
       emptyWorld in
   fst outcome = inr tt /\
   RecipientsEmail <$> (snd <$> published (snd outcome)) = [["a@x.com"]]) /\
  (let outcome :=
     publishNotifications (Trn := transformersWith Scenario.notificationList [])
       (Scenario.event WorkflowExecution_RUNNING) (Scenario.execution "SUCCEEDED" "")
       emptyWorld in
   fst outcome = inr tt /\ published (snd outcome) = []) /\
  (let outcome :=
     publishNotifications
       (Trn := transformersWith [Scenario.chatEntry; Scenario.untypedEntry] [])
       (Scenario.event WorkflowExecution_FAILED) (Scenario.execution "FAILED" "")
       emptyWorld in
   failsWith (fst outcome) Internal /\
   RecipientsEmail <$> (snd <$> published (snd outcome)) = [["a@x.com"]]).
Proof.
  split; [reflexivity|]. split; [|split].
  - destruct (publishNotifications_fan_out (Trn := transformersWith Scenario.notificationList [])
                (Scenario.event WorkflowExecution_SUCCEEDED)
                (Scenario.execution "SUCCEEDED" "") _ emptyWorld eq_refl)
      as (_ & _ & _ & Hknown & _).
    destruct Hknown as (Hok & Hpublished & _).
    { vm_compute. repeat constructor; discriminate. }
    cbn zeta. split; [exact Hok|]. rewrite Hpublished. reflexivity.
  - destruct (publishNotifications_fan_out (Trn := transformersWith Scenario.notificationList [])
                (Scenario.event WorkflowExecution_RUNNING)
                (Scenario.execution "SUCCEEDED" "") _ emptyWorld eq_refl)
      as (_ & _ & _ & Hknown & _).
    destruct Hknown as (Hok & Hpublished & _).
    { vm_compute. constructor. }
    cbn zeta. split; [exact Hok|]. rewrite Hpublished. reflexivity.
  - destruct (publishNotifications_fan_out
                (Trn := transformersWith [Scenario.chatEntry; Scenario.untypedEntry] [])
                (Scenario.event WorkflowExecution_FAILED)
                (Scenario.execution "FAILED" "") _ emptyWorld eq_refl)
      as (_ & _ & _ & _ & Hunknown).
    cbn zeta. split; [|reflexivity].
    apply Hunknown. vm_compute. apply Exists_cons_tl, Exists_cons_hd. reflexivity.
Defined.

(** C4 as stated fails: with an entry of no channel type in front of the
    chat entry, both triggered by failed, the chat entry survives and is of a
    known type, yet no message is published for it: the call stops with
    Internal at the first entry. *)
Lemma publishNotifications_stops_at_the_first_unknown_entry :
  surviving WorkflowExecution_FAILED [Scenario.untypedEntry; Scenario.chatEntry]
    = [Scenario.untypedEntry; Scenario.chatEntry] /\
  supported Scenario.chatEntry = true /\
  recipients Scenario.chatEntry = ["a@x.com"] /\
  failsWith
    (fst (publishNotifications
            (Trn := transformersWith [Scenario.untypedEntry; Scenario.chatEntry] [])
            (Scenario.event WorkflowExecution_FAILED) (Scenario.execution "FAILED" "")
            emptyWorld)) Internal /\
  published
    (snd (publishNotifications
            (Trn := transformersWith [Scenario.untypedEntry; Scenario.chatEntry] [])
            (Scenario.event WorkflowExecution_FAILED) (Scenario.execution "FAILED" "")
            emptyWorld)) = [] /\
  snd (publishNotifications
         (Trn := transformersWith [Scenario.untypedEntry; Scenario.chatEntry] [])
         (Scenario.event WorkflowExecution_FAILED) (Scenario.execution "FAILED" "")
         emptyWorld) = emptyWorld.
Proof.
  split; [vm_compute; reflexivity|]. split; [reflexivity|].
  split; [reflexivity|]. split; [|split; reflexivity].
  eexists. split; reflexivity.
Qed.

(** A launch plan that pages oncall@x.com, run with an e-mail override, with
    disable-all, and without overrides. *)
Lemma request_notifications_scenario :
  notificationsSettings Scenario.launchPlan
    (ecr_Spec (Scenario.createRequest (ExecutionSpec_Notifications [Scenario.emailEntry])))
    = [Scenario.emailEntry] /\
  notificationsSettings Scenario.launchPlan
    (ecr_Spec (Scenario.createRequest (ExecutionSpec_DisableAll true))) = [] /\
  notificationsSettings Scenario.launchPlan
    (ecr_Spec (Scenario.createRequest NotificationOverrides_unset)) = [Scenario.pagerEntry] /\
  exists executionModel w' input,
    launchExecutionAndPrepareModel (Trn := transformersWith [] [(7%N, Scenario.launchPlan)])
      (Scenario.createRequest (ExecutionSpec_Notifications [Scenario.emailEntry])) 0%Z
      Scenario.registry = (inr executionModel, w') /\
    CreateExecutionModel (transformers := transformersWith [] [(7%N, Scenario.launchPlan)]) input
      = inr executionModel /\
    cem_Notifications input = [Scenario.emailEntry].
Proof.
  destruct (request_notifications_override_launch_plan (DB := DB) (Store := Store)
              (Trn := transformersWith [] [(7%N, Scenario.launchPlan)]))
    as (Hoverride & Hdisable & Hdefault & Hlaunch).
  split; [apply Hoverride; reflexivity|].
  split; [apply Hdisable; reflexivity|].
  split; [rewrite Hdefault; [reflexivity | left; reflexivity]|].
  destruct (launchExecutionAndPrepareModel
              (Trn := transformersWith [] [(7%N, Scenario.launchPlan)])
              (Scenario.createRequest (ExecutionSpec_Notifications [Scenario.emailEntry])) 0%Z
              Scenario.registry) as [[e|executionModel] w'] eqn:Hrun;
    [vm_compute in Hrun; discriminate|].
  destruct (Hlaunch _ _ _ _ _ Hrun) as (lpm & lp & input & Hlp & Hfrom & Hcreate & Hnotif).
  exists executionModel, w', input. split; [reflexivity|]. split; [exact Hcreate|].
  rewrite Hnotif.
  vm_compute in Hlp. injection Hlp as <-. vm_compute in Hfrom. injection Hfrom as <-.
  reflexivity.
Defined.

(** One stored execution, one stored node execution and one stored task,
    listed from offset 0: with limit 1 the page is full and the token is
    "1"; with limit 5 the page is short and the token is empty. *)
Lemma continuation_token_scenario :
  (exists response w',
      ListExecutions (Scenario.listRequest 1 "") (Scenario.world "RUNNING")
        = (inr response, w') /\
      length (Executions response) = 1%nat /\ el_Token response = "1") /\
  (exists response w',
      ListExecutions (Scenario.listRequest 5 "") (Scenario.world "RUNNING")
        = (inr response, w') /\
      length (Executions response) = 1%nat /\ el_Token response = "") /\
  (exists response d',
      listNodeExecutions [] "" 1 "" None true (db (Scenario.world "RUNNING"))
        = (inr response, d') /\
      length (NodeExecutions response) = 1%nat /\ nl_Token response = "1") /\
  (exists response d',
      ListTasks (Scenario.listRequest 1 "") Scenario.taskStore = (inr response, d') /\
      length (Tasks_ response) = 1%nat /\ tl_Token response = "1").
Proof.
  destruct (continuation_token_iff_page_is_full (DB := DB) (Store := Store))
    as (Hexecutions & Hnodes & _ & _ & Htasks).
  split; [|split; [|split]].
  - destruct (ListExecutions (Scenario.listRequest 1 "") (Scenario.world "RUNNING"))
      as [[e|response] w'] eqn:Hrun; [vm_compute in Hrun; discriminate|].
    destruct (Hexecutions _ _ _ _ Hrun) as (offset & Hoffset & _ & _ & Htoken & _).
    injection Hoffset as <-.
    assert (Hlen : length (Executions response) = 1%nat)
      by (vm_compute in Hrun; injection Hrun as <- _; reflexivity).
    exists response, w'. split; [reflexivity|]. split; [exact Hlen|].
    rewrite Htoken; unfold len; rewrite Hlen;
      [reflexivity|reflexivity|vm_compute; intuition discriminate].
  - destruct (ListExecutions (Scenario.listRequest 5 "") (Scenario.world "RUNNING"))
      as [[e|response] w'] eqn:Hrun; [vm_compute in Hrun; discriminate|].
    destruct (Hexecutions _ _ _ _ Hrun) as (offset & Hoffset & _ & _ & _ & Hshort).
    assert (Hlen : length (Executions response) = 1%nat)
      by (vm_compute in Hrun; injection Hrun as <- _; reflexivity).
    exists response, w'. split; [reflexivity|]. split; [exact Hlen|].
    apply Hshort. unfold len. rewrite Hlen. discriminate.
  - destruct (listNodeExecutions [] "" 1 "" None true (db (Scenario.world "RUNNING")))
      as [[e|response] d'] eqn:Hrun; [vm_compute in Hrun; discriminate|].
    destruct (Hnodes _ _ _ _ _ _ _ _ _ Hrun)
      as (offset & input & output & Hoffset & Hlimit & Hoff & Hlist & _ & _ & Hresponse).
    injection Hoffset as <-.
    assert (Hlen : length (NodeExecutions response) = 1%nat)
      by (vm_compute in Hrun; injection Hrun as <- _; reflexivity).
    assert (Hrows : length (out_NodeExecutions output) = 1%nat).
    { destruct input as [lim off inline maps sort]. cbn in Hlimit, Hoff. subst lim off.
      injection Hlist as <-. reflexivity. }
    rewrite Hrows, <- Hlen in Hresponse.
    destruct (Hresponse eq_refl) as (_ & _ & Htoken & _).
    exists response, d'. split; [reflexivity|]. split; [exact Hlen|].
    rewrite Htoken; unfold len; rewrite Hlen;
      [reflexivity|reflexivity|vm_compute; intuition discriminate].
  - destruct (ListTasks (Scenario.listRequest 1 "") Scenario.taskStore)
      as [[e|response] d'] eqn:Hrun; [vm_compute in Hrun; discriminate|].
    destruct (Htasks _ _ _ _ Hrun) as (offset & Hoffset & _ & _ & Htoken & _).
    injection Hoffset as <-.
    assert (Hlen : length (Tasks_ response) = 1%nat)
      by (vm_compute in Hrun; injection Hrun as <- _; reflexivity).
    exists response, d'. split; [reflexivity|]. split; [exact Hlen|].
    rewrite Htoken; unfold len; rewrite Hlen;
      [reflexivity|reflexivity|vm_compute; intuition discriminate].
Defined.

(** Terminating the stored execution p/d/n: when the executor cannot be
    reached the error comes back and the repository is untouched; when the
    abort goes through the cause is stored. *)
Lemma TerminateExecution_scenario :
  fst (TerminateExecution (Exec := unreachableExecutor) Scenario.terminateRequest
         (Scenario.world "RUNNING")) = inl (GoError "connection refused") /\
  db (snd (TerminateExecution (Exec := unreachableExecutor) Scenario.terminateRequest
             (Scenario.world "RUNNING"))) = db (Scenario.world "RUNNING") /\
  models.AbortCause <$>
    (executions (db (snd (TerminateExecution Scenario.terminateRequest
                             (Scenario.world "RUNNING"))))
       !! executionKey Scenario.executionId) = Some "stopped by user".
Proof.
  destruct (TerminateExecution_persists_cause_only_after_abort
              (DB := DB) (Store := Store) (Exec := unreachableExecutor)) as [Hfail _].
  destruct (Hfail Scenario.terminateRequest (Scenario.world "RUNNING")
              (Scenario.execution "RUNNING" "s3://flyte/metadata/p/d/n/inputs")
              eq_refl eq_refl) as [Hrefused _].
  destruct (Hrefused (GoError "connection refused") eq_refl) as (Herr & Hdb & _).
  destruct (TerminateExecution_persists_cause_only_after_abort
              (DB := DB) (Store := Store) (Exec := executor)) as [Hok _].
  destruct (Hok Scenario.terminateRequest (Scenario.world "RUNNING")
              (Scenario.execution "RUNNING" "s3://flyte/metadata/p/d/n/inputs")
              eq_refl eq_refl) as [_ Hdone].
  destruct (Hdone eq_refl) as [Hstored _].
  split; [exact Herr|]. split; [exact Hdb|].
  rewrite Hstored. reflexivity.
Defined.

(** Reading the data of p/d/n when its record carries an inputs reference
    leaves the state as it was; so do GetExecution and ListExecutions. *)
Lemma reads_scenario :
  snd (GetExecution {| wgr_Id := Scenario.executionId |} (Scenario.world "SUCCEEDED"))
    = Scenario.world "SUCCEEDED" /\
  snd (ListExecutions (Scenario.listRequest 1 "") (Scenario.world "SUCCEEDED"))
    = Scenario.world "SUCCEEDED" /\
  snd (GetExecutionData {| wgdr_Id := Scenario.executionId |} (Scenario.world "SUCCEEDED"))
    = Scenario.world "SUCCEEDED".
Proof.
  destruct (reads_leave_the_state_unchanged (DB := DB) (Store := Store))
    as (Hget & Hlist & Hdata & _).
  split; [apply Hget|]. split; [apply Hlist|].
  apply (Hdata _ _ (Scenario.execution "SUCCEEDED" "s3://flyte/metadata/p/d/n/inputs"));
    [reflexivity | discriminate].
Defined.

(** C9 as stated fails for GetExecutionData: the record of p/d/n carries no
    inputs reference; the call succeeds, writes an (empty) inputs map to the
    blob store and stores the new reference in the record. *)
Lemma GetExecutionData_offloads_legacy_inputs :
  fst (GetExecutionData {| wgdr_Id := Scenario.executionId |} Scenario.legacyWorld)
    = inr {| gdr_Outputs := {| Url := ""; Bytes := 0 |};
             gdr_Inputs :=
               {| Url := "https://signed.example.com/s3://flyte/metadata/p/d/n/inputs";
                  Bytes := 0 |} |} /\
  models.InputsURI <$>
    (executions (db Scenario.legacyWorld) !! executionKey Scenario.executionId) = Some "" /\
  models.InputsURI <$>
    (executions
       (db (snd (GetExecutionData {| wgdr_Id := Scenario.executionId |} Scenario.legacyWorld)))
       !! executionKey Scenario.executionId) = Some "s3://flyte/metadata/p/d/n/inputs" /\
  storageClient Scenario.legacyWorld !! "s3://flyte/metadata/p/d/n/inputs" = None /\
  storageClient
    (snd (GetExecutionData {| wgdr_Id := Scenario.executionId |} Scenario.legacyWorld))
    !! "s3://flyte/metadata/p/d/n/inputs" = Some {| Literals := ∅ |} /\
  snd (GetExecutionData {| wgdr_Id := Scenario.executionId |} Scenario.legacyWorld)
    <> Scenario.legacyWorld.
Proof.
  assert (Hbefore : models.InputsURI <$>
            (executions (db Scenario.legacyWorld) !! executionKey Scenario.executionId)
            = Some "") by reflexivity.
  assert (Hafter : models.InputsURI <$>
            (executions
               (db (snd (GetExecutionData {| wgdr_Id := Scenario.executionId |}
                           Scenario.legacyWorld)))
               !! executionKey Scenario.executionId)
            = Some "s3://flyte/metadata/p/d/n/inputs") by reflexivity.
  repeat split; try reflexivity; try exact Hafter.
  intros Hsame. rewrite Hsame in Hafter. rewrite Hbefore in Hafter. discriminate.
Qed.

(** Registering task p/d/t/v1 again: with the stored structure the request
    is an identical re-registration; with another structure it conflicts. *)
Lemma CreateTask_scenario :
  rejects (CreateTask (Scenario.taskRequest "container")) Scenario.taskStore AlreadyExists /\
  rejects (CreateTask (Scenario.taskRequest "spark")) Scenario.taskStore InvalidArgument.
Proof.
  split.
  - edestruct (CreateTask_rejects_stored_identifier (Store := Store)
                 (Scenario.taskRequest "container") Scenario.taskStore Scenario.taskId)
      as [Hsame _]; [reflexivity..|].
    apply Hsame. reflexivity.
  - edestruct (CreateTask_rejects_stored_identifier (Store := Store)
                 (Scenario.taskRequest "spark") Scenario.taskStore Scenario.taskId)
      as [_ Hdiffers]; [reflexivity..|].
    apply Hdiffers. discriminate.
Defined.

(** The queued execution p/d/n is reported running: the event is accepted,
    the stored phase becomes RUNNING, the event is logged, nothing is
    published. *)
Lemma CreateWorkflowEvent_running_scenario :
  fst (CreateWorkflowEvent (Scenario.event WorkflowExecution_RUNNING) (Scenario.world "QUEUED"))
    = inr Build_WorkflowExecutionEventResponse /\
  models.Phase <$>
    (executions
       (db (snd (CreateWorkflowEvent (Scenario.event WorkflowExecution_RUNNING)
                   (Scenario.world "QUEUED"))))
       !! executionKey Scenario.executionId) = Some "RUNNING" /\
  length (executionEvents
            (db (snd (CreateWorkflowEvent (Scenario.event WorkflowExecution_RUNNING)
                        (Scenario.world "QUEUED"))))) = 1%nat /\
  published (snd (CreateWorkflowEvent (Scenario.event WorkflowExecution_RUNNING)
                    (Scenario.world "QUEUED"))) = [].
Proof.
  edestruct (CreateWorkflowEvent_accepts_nonterminal_transition (DB := DB) (Store := Store)
               (Scenario.world "QUEUED") (Scenario.event WorkflowExecution_RUNNING))
    as (Hresult & _ & Hdb & Hpublished & _);
    [reflexivity | reflexivity | discriminate | reflexivity | reflexivity | reflexivity
    | left; reflexivity |].
  split; [rewrite Hresult; reflexivity|]. rewrite Hdb. split; [reflexivity|].
  split; [reflexivity|]. exact Hpublished.
Defined.

(** The running execution p/d/n is reported failed while its notification
    list holds an entry of no channel type: the caller gets Internal, and the
    stored phase is FAILED all the same. *)
Lemma CreateWorkflowEvent_failed_scenario :
  failsWith
    (fst (CreateWorkflowEvent
            (Trn := transformersWith [Scenario.chatEntry; Scenario.untypedEntry] [])
            (Scenario.event WorkflowExecution_FAILED) (Scenario.world "RUNNING"))) Internal /\
  models.Phase <$>
    (executions
       (db (snd (CreateWorkflowEvent
                   (Trn := transformersWith [Scenario.chatEntry; Scenario.untypedEntry] [])
                   (Scenario.event WorkflowExecution_FAILED) (Scenario.world "RUNNING"))))
       !! executionKey Scenario.executionId) = Some "FAILED".
Proof.
  edestruct (CreateWorkflowEvent_terminal_transition_notifies_after_storing
               (DB := DB) (Store := Store)
               (Trn := transformersWith [Scenario.chatEntry; Scenario.untypedEntry] [])
               (Scenario.world "RUNNING") (Scenario.event WorkflowExecution_FAILED))
    as (Hdb & _ & Herror & _);
    [reflexivity | reflexivity | discriminate | reflexivity | reflexivity | reflexivity
    | reflexivity | discriminate | reflexivity |].
  split.
  - eexists. split; [apply Herror; reflexivity | reflexivity].
  - rewrite Hdb. reflexivity.
Defined.

Lemma launchExecutionAndPrepareModel_scenario :
  exists executionModel w' input,
    launchExecutionAndPrepareModel (Trn := transformersWith [] [(7%N, Scenario.launchPlan)])
      (Scenario.createRequest NotificationOverrides_unset) 5%Z Scenario.registry
      = (inr executionModel, w') /\
    dispatched w' = [input] /\
    ewi_ExecutionID input = Scenario.executionId /\
    ewi_AcceptedAt input = 5%Z /\
    Tasks (ewi_WfClosure input) =
      [ withContainer Scenario.containerTask
          (appendConfig
             (appendConfig Scenario.gpuContainer
                {| kv_Key := "parent_queue"; kv_Value := "gpu_primary" |})
             {| kv_Key := "child_queue"; kv_Value := "gpu_dynamic" |});
        Scenario.sparkTask ] /\
    models.Cluster executionModel = "cluster-1" /\
    models.Phase executionModel = "UNDEFINED".
Proof.
  destruct (launchExecutionAndPrepareModel
              (Trn := transformersWith [] [(7%N, Scenario.launchPlan)])
              (Scenario.createRequest NotificationOverrides_unset) 5%Z Scenario.registry)
    as [[e|executionModel] w'] eqn:Hrun; [vm_compute in Hrun; discriminate|].
  destruct (launchExecutionAndPrepareModel_dispatches_the_prepared_workflow
              (Trn := transformersWith [] [(7%N, Scenario.launchPlan)]) _ _ _ _ _ Hrun)
    as (lpm & lp & inputs & wf & input & info & modelInput & Hlp & Hfrom & _ & Hwf
        & Hdispatched & Hexec & Hid & Hat & _ & _ & _ & Htasks & _ & _ & Hcreate
        & _ & Hcluster & Hphase & _).
  exists executionModel, w', input.
  vm_compute in Hlp. injection Hlp as <-. vm_compute in Hfrom. injection Hfrom as <-.
  vm_compute in Hwf. injection Hwf as <-.
  cbn in Hexec. injection Hexec as <-.
  cbn in Hcreate. injection Hcreate as <-.
  split; [reflexivity|]. split; [exact Hdispatched|]. split; [exact Hid|].
  split; [exact Hat|]. split; [rewrite Htasks; reflexivity|].
  cbn. rewrite Hcluster, Hphase. split; reflexivity.
Defined.

Lemma dataStore_reads_what_was_written (st : Store) reference literalMap (st' : Store) :
  WriteProtobuf reference literalMap st = (inr tt, st') ->
  ReadProtobuf st' reference = inr literalMap.
Proof.
  unfold WriteProtobuf, ReadProtobuf, dataStore. intros [= <-].
  unfold Store in *. now rewrite lookup_insert_eq.
Qed.

Lemma dataStore_leaves_the_other_references (st : Store) reference literalMap (st' : Store)
    other :
  WriteProtobuf reference literalMap st = (inr tt, st') -> other <> reference ->
  ReadProtobuf st' other = ReadProtobuf st other.
Proof.
  unfold WriteProtobuf, ReadProtobuf, dataStore. intros [= <-] Hne.
  unfold Store in *. now rewrite lookup_insert_ne.
Qed.

Lemma launchExecutionAndPrepareModel_offload_scenario :
  exists executionModel w',
    launchExecutionAndPrepareModel (Trn := transformersWith [] [(7%N, Scenario.launchPlan)])
      (Scenario.createRequest NotificationOverrides_unset) 5%Z Scenario.registry
      = (inr executionModel, w') /\
    models.InputsURI executionModel = "s3://flyte/metadata/p/d/n/inputs" /\
    models.UserInputsURI executionModel = "s3://flyte/metadata/p/d/n/user_inputs" /\
    ReadProtobuf (storageClient w') (models.UserInputsURI executionModel)
      = inr {| Literals := ∅ |} /\
    ReadProtobuf (storageClient w') (models.InputsURI executionModel)
      = inr {| Literals := ∅ |}.
Proof.
  destruct (launchExecutionAndPrepareModel
              (Trn := transformersWith [] [(7%N, Scenario.launchPlan)])
              (Scenario.createRequest NotificationOverrides_unset) 5%Z Scenario.registry)
    as [[e|executionModel] w'] eqn:Hrun; [vm_compute in Hrun; discriminate|].
  destruct (launchExecutionAndPrepareModel_offloads_the_inputs
              (Trn := transformersWith [] [(7%N, Scenario.launchPlan)]) _ _ _ _ _
              dataStore_reads_what_was_written dataStore_leaves_the_other_references Hrun)
    as (lpm & lp & inputs & modelInput & Hlp & Hfrom & Hinputs & Hcreate & Href & Huref
        & Huser & Hfull).
  exists executionModel, w'.
  cbn in Hinputs. injection Hinputs as <-.
  cbn in Hcreate. injection Hcreate as <-.
  assert (Hin : cem_InputsURI modelInput = "s3://flyte/metadata/p/d/n/inputs")
    by (vm_compute in Href; injection Href as Href; exact (eq_sym Href)).
  assert (Huin : cem_UserInputsURI modelInput = "s3://flyte/metadata/p/d/n/user_inputs")
    by (vm_compute in Huref; injection Huref as Huref; exact (eq_sym Huref)).
  cbn [models.InputsURI models.UserInputsURI].
  split; [reflexivity|]. split; [exact Hin|]. split; [exact Huin|].
  split; [exact Huser|]. apply Hfull. rewrite Hin, Huin. discriminate.
Defined.

Lemma RelaunchExecution_scenario :
  exists response w',
    RelaunchExecution (Trn := Relaunch.transformersFns) Relaunch.request 5%Z Relaunch.world
      = (inr response, w') /\
    ecresp_Id response = {| wei_Project := "p"; wei_Domain := "d"; wei_Name := "n2" |} /\
    (models.SourceExecutionID <$> executions (db w') !! ("p", "d", "n2")) = Some 1%N /\
    (models.Mode_ <$> executions (db w') !! ("p", "d", "n2"))
      = Some ExecutionMetadata_RELAUNCH.
Proof.
  destruct (RelaunchExecution (Trn := Relaunch.transformersFns) Relaunch.request 5%Z
              Relaunch.world) as [[e|response] w'] eqn:Hrun;
    [vm_compute in Hrun; discriminate|].
  destruct (RelaunchExecution_links_the_source (Trn := Relaunch.transformersFns)
              _ _ _ _ _ Hrun)
    as (existing & source & inputs & executionModel & w1 & Hget & Hfrom & Hinputs & Hlaunch
        & _ & Hdb & _ & _ & Hid).
  exists response, w'. split; [reflexivity|].
  vm_compute in Hget. injection Hget as <-.
  cbn in Hfrom. injection Hfrom as <-.
  cbn in Hinputs. destruct Hinputs as (spec & [= <-] & ->).
  vm_compute in Hlaunch. injection Hlaunch as <- _.
  rewrite Hid, Hdb. split; [reflexivity|]. split; vm_compute; reflexivity.
Defined.

Lemma CreateNodeEvent_first_report_scenario :
  exists d',
    CreateNodeEvent (Store := Store) (Scenario.nodeEvent NodeExecution_RUNNING)
      NodeScenario.fresh = (inr Build_NodeExecutionEventResponse, d') /\
    NodeScenario.recordedPhase d' = Some "RUNNING" /\
    length (nodeExecutionEvents d') = 1.
Proof.
  edestruct (CreateNodeEvent_registers_a_first_report (Store := Store) NodeScenario.fresh
               (Scenario.nodeEvent NodeExecution_RUNNING)) as [_ Hcreate];
    [reflexivity..|].
  eexists. split; [|split].
  - erewrite Hcreate; [|reflexivity..]. reflexivity.
  - vm_compute. reflexivity.
  - reflexivity.
Defined.

Lemma CreateNodeEvent_update_scenario :
  exists d',
    CreateNodeEvent (Store := Store) (Scenario.nodeEvent NodeExecution_SUCCEEDED)
      (Scenario.store "RUNNING" "RUNNING" "s3://flyte/metadata/p/d/n/inputs")
      = (inr Build_NodeExecutionEventResponse, d') /\
    NodeScenario.recordedPhase d' = Some "SUCCEEDED" /\
    length (nodeExecutionEvents d') = 1.
Proof.
  edestruct (CreateNodeEvent_updates_a_known_node (Store := Store)
               (Scenario.store "RUNNING" "RUNNING" "s3://flyte/metadata/p/d/n/inputs")
               (Scenario.nodeEvent NodeExecution_SUCCEEDED)) as [_ Hupdate];
    [reflexivity | reflexivity | vm_compute; discriminate | reflexivity |].
  eexists. split; [|split].
  - erewrite Hupdate; [|exact I|reflexivity..]. reflexivity.
  - vm_compute. reflexivity.
  - reflexivity.
Defined.

Lemma ListExecutions_scenario :
  exists response returned,
    ListExecutions (Scenario.listRequest 5 "") (Scenario.world "RUNNING")
      = (inr response, Scenario.world "RUNNING") /\
    Executions response = [returned] /\
    exec_Id returned = Scenario.executionId /\
    spec_Inputs (exec_Spec returned) = None /\
    closure_ComputedInputs (exec_Closure returned) = None.
Proof.
  destruct (ListExecutions (Scenario.listRequest 5 "") (Scenario.world "RUNNING"))
    as [[e|response] w'] eqn:Hrun; [vm_compute in Hrun; discriminate|].
  destruct (ListExecutions_returns_one_page_without_inputs _ _ _ _ Hrun)
    as (-> & filters & sortParameter & offset & output & executionList & _ & Hfilters
        & Hsort & Hoffset & Hlist & Hfrom & Hlen & Hrows).
  injection Hfilters as <-. cbn in Hsort. subst sortParameter. injection Hoffset as <-.
  vm_compute in Hlist. injection Hlist as <-. cbn in Hfrom. injection Hfrom as <-.
  destruct (Hrows 0%nat _ eq_refl) as (returned & Hreturned & Hinputs & Hcomputed & Hid & _).
  exists response, returned. split; [reflexivity|].
  cbn in Hlen. destruct (Executions response) as [|first [|second rest]]; try discriminate.
  injection Hreturned as ->. repeat split; assumption.
Defined.

Lemma malformed_token_scenario :
  rejects (ListExecutions {| rlr_Id := rlr_Id (Scenario.listRequest 5 "");
                             rlr_Limit := 5; rlr_Token := "two"; rlr_Filters := "";
                             rlr_SortBy := None |})
    (Scenario.world "RUNNING") InvalidArgument /\
  rejects (ListTasks (Store := Store) (Scenario.listRequest 5 "two")) Scenario.taskStore
    InvalidArgument /\
  rejects (listNodeExecutions (Store := Store) [] "" 5 "two" None true)
    (db (Scenario.world "RUNNING")) InvalidArgument.
Proof.
  edestruct (list_operations_refuse_a_malformed_token (DB := DB) (Store := Store) "two")
    as (Hexecutions & Htasks & Hnodes); [reflexivity|].
  split; [|split].
  - apply (Hexecutions _ _ []); [reflexivity | reflexivity | reflexivity | exact I].
  - apply (Htasks _ _ []); [reflexivity | reflexivity | reflexivity | exact I].
  - apply (Hnodes _ _ _ _ _ _ []); [reflexivity | exact I].
Defined.

Lemma ListNodeExecutions_scenario :
  exists response input,
    ListNodeExecutions (Store := Store) ForTask.nodesRequest ForTask.store
      = (inr response, ForTask.store) /\
    length (NodeExecutions response) = 1%nat /\
    MapFilters input = [ {[ "parent_task_execution_id" := None ]} ] /\
    InlineFilters input = [] /\
    NodeExecutionRepo_List ForTask.store input
      = inr {| out_NodeExecutions := [Scenario.nodeExecution "RUNNING"] |}.
Proof.
  destruct (ListNodeExecutions (Store := Store) ForTask.nodesRequest ForTask.store)
    as [[e|response] d'] eqn:Hrun; [vm_compute in Hrun; discriminate|].
  destruct (ListNodeExecutions_selects_the_top_level_nodes _ _ _ _ Hrun)
    as (-> & identifierFilters & input & output & Hid & Hfilters & Hmap & Hlimit & Hoffset
        & Hlist & Hfrom).
  injection Hid as <-. injection Hfilters as Hfilters. injection Hoffset as Hoffset.
  exists response, input. split; [reflexivity|].
  destruct input as [limit offset inline maps sort]. cbn in *. subst.
  vm_compute in Hlist. injection Hlist as <-. cbn in Hfrom. injection Hfrom as <-.
  repeat split.
Defined.

Lemma ListNodeExecutionsForTask_scenario :
  exists response input nodeIDFilter,
    ListNodeExecutionsForTask (Utl := ForTask.utilFns) ForTask.request ForTask.store
      = (inr response, ForTask.store) /\
    NewSingleValueFilter Entity_NodeExecution "eq" "parent_task_execution_id" 9%N
      = inr nodeIDFilter /\
    InlineFilters input = [nodeIDFilter] /\
    MapFilters input = [] /\
    NodeExecutionRepo_List ForTask.store input
      = inr {| out_NodeExecutions := [Scenario.nodeExecution "RUNNING"] |}.
Proof.
  destruct (ListNodeExecutionsForTask (Utl := ForTask.utilFns) ForTask.request ForTask.store)
    as [[e|response] d'] eqn:Hrun; [vm_compute in Hrun; discriminate|].
  destruct (ListNodeExecutionsForTask_selects_the_nodes_of_the_task
              (Utl := ForTask.utilFns) _ _ _ _ Hrun)
    as (-> & identifierFilters & parent & nodeIDFilter & input & output & Hid & Hparent
        & Hfilter & Hfilters & Hmap & Hlimit & Hoffset & Hlist & Hfrom).
  injection Hid as <-. vm_compute in Hparent. injection Hparent as <-.
  injection Hfilters as Hfilters. injection Hoffset as Hoffset.
  exists response, input, nodeIDFilter. split; [reflexivity|]. split; [exact Hfilter|].
  destruct input as [limit offset inline maps sort]. cbn in *. subst.
  vm_compute in Hlist. injection Hlist as <-.
  repeat split.
Defined.

Lemma CreateTask_registration_scenario :
  exists d',
    CreateTask (Store := Store) (Scenario.taskRequest "container") emptyDB
      = (inr Build_TaskCreateResponse, d') /\
    (models.t_Digest <$> tasks d' !! taskKey Scenario.taskId)
      = Some (String.list_byte_of_string "container").
Proof.
  edestruct (CreateTask_registers_an_unknown_task (Store := Store)
               (Scenario.taskRequest "container") emptyDB Scenario.taskId)
    as [_ Hcreate]; [reflexivity..|].
  eexists. split.
  - erewrite Hcreate; [|reflexivity]. reflexivity.
  - vm_compute. reflexivity.
Defined.

Lemma ListUniqueTaskIdentifiers_scenario :
  exists response,
    ListUniqueTaskIdentifiers (Store := Store) (Ids := Identifiers.taskIdentifiers)
      (Identifiers.request 1) Identifiers.twoVersions
      = (inr response, Identifiers.twoVersions) /\
    Entities response = [ {| nid_Project := "p"; nid_Domain := "d"; nid_Name := "t" |} ] /\
    nil_Token response = "1".
Proof.
  destruct (ListUniqueTaskIdentifiers (Store := Store) (Ids := Identifiers.taskIdentifiers)
      (Identifiers.request 1)
              Identifiers.twoVersions) as [[e|response] d'] eqn:Hrun;
    [vm_compute in Hrun; discriminate|].
  destruct (ListUniqueTaskIdentifiers_pages_by_identifier
              (Ids := Identifiers.taskIdentifiers) _ _ _ _ Hrun)
    as (-> & filters & sortParameter & offset & output & _ & Hfilters & Hsort & Hoffset
        & Hlist & Hentities & Htoken).
  injection Hfilters as <-. cbn in Hsort. subst sortParameter. injection Hoffset as <-.
  vm_compute in Hlist. injection Hlist as <-.
  exists response. split; [reflexivity|]. split; [rewrite Hentities; reflexivity|].
  destruct Htoken as (_ & _ & Hfull & _). rewrite Hfull; rewrite Hentities.
  - reflexivity.
  - reflexivity.
  - vm_compute. intuition discriminate.
Defined.
